(** * Ingenic JZ47xx KMS driver: a shallow embedding of
      drivers/gpu/drm/ingenic/ingenic-drm.c and the properties of its
      display-pipeline core.

    Machine integers are [Z] with the wrap-around of C written out; the
    register block is a finite map from offsets to values; the driver's
    calls to its collaborators (regmap, clk, vblank, spinlock) are recorded
    in program order in a call log next to their effect on the state. *)

From Stdlib Require Import ZArith Lia Bool List.
From stdpp Require Import base option list gmap.
Import ListNotations.

Local Open Scope Z_scope.

(** ** Machine integers *)

(** [unsigned int] / [u32]: the value modulo 2^32. *)
Definition u32 (z : Z) : Z := z mod 2 ^ 32.

(** [int]: two's complement on 32 bits (the kernel is built with wrapping
    signed arithmetic). *)
Definition s32 (z : Z) : Z := (z + 2 ^ 31) mod 2 ^ 32 - 2 ^ 31.

(** [x << n] and [x >> n] on [unsigned int]. *)
Definition shl32 (x n : Z) : Z := u32 (Z.shiftl x n).
Definition shr32 (x n : Z) : Z := Z.shiftr (u32 x) n.

(** [x != y] as a C truth value. *)
Definition Zneqb (x y : Z) : bool := negb (x =? y).

(** errno values used by the driver (include/uapi/asm-generic/errno-base.h). *)
Definition EINVAL : Z := 22.

(** ** Display modes (struct drm_display_mode, the fields the driver reads) *)

Record drm_display_mode := {
  clock : Z;
  hdisplay : Z; hsync_start : Z; hsync_end : Z; htotal : Z;
  vdisplay : Z; vsync_start : Z; vsync_end : Z; vtotal : Z;
  flags : Z
}.

(** The eight locals of [ingenic_drm_crtc_update_timings]
    ([unsigned int vpe, vds, vde, vt, hpe, hds, hde, ht]). *)
Record lcd_timings := {
  vpe : Z; vds : Z; vde : Z; vt : Z;
  hpe : Z; hds : Z; hde : Z; ht : Z
}.

(** Lines 148-156 of the source: the assignments to the locals, each one
    truncated to [unsigned int]. *)
Definition ingenic_drm_timings (mode : drm_display_mode) : lcd_timings :=
  let vpe := u32 (vsync_end mode - vsync_start mode) in
  let vds := u32 (vtotal mode - vsync_start mode) in
  let vde := u32 (vds + vdisplay mode) in
  let vt := u32 (vde + vsync_start mode - vdisplay mode) in
  let hpe := u32 (hsync_end mode - hsync_start mode) in
  let hds := u32 (htotal mode - hsync_start mode) in
  let hde := u32 (hds + hdisplay mode) in
  let ht := u32 (hde + hsync_start mode - hdisplay mode) in
  {| vpe := vpe; vds := vds; vde := vde; vt := vt;
     hpe := hpe; hds := hds; hde := hde; ht := ht |}.

(** The ordering of the timing fields that the mode negotiation layer
    hands over: a non-empty active area, followed by the sync pulse, inside
    the total, every field an [int]. This is an assumption on the input of
    the driver, which performs no such test itself. *)
Definition mode_timings_ordered (m : drm_display_mode) : Prop :=
  (0 < hdisplay m <= hsync_start m /\ hsync_start m <= hsync_end m
   /\ hsync_end m <= htotal m /\ htotal m < 2 ^ 31) /\
  (0 < vdisplay m <= vsync_start m /\ vsync_start m <= vsync_end m
   /\ vsync_end m <= vtotal m /\ vtotal m < 2 ^ 31).

(** Validity in the words of the specification (4.1): no derived interval
    is zero or negative. The intervals are those of the formulas, taken
    as mathematical integers. *)
Definition derived_intervals_positive (m : drm_display_mode) : Prop :=
  0 < vsync_end m - vsync_start m /\ 0 < vtotal m - vsync_start m /\
  0 < vdisplay m /\
  0 < hsync_end m - hsync_start m /\ 0 < htotal m - hsync_start m /\
  0 < hdisplay m.

(** 640x480 with the usual VGA porches. *)
Definition mode_vga : drm_display_mode :=
  {| clock := 25175;
     hdisplay := 640; hsync_start := 656; hsync_end := 752; htotal := 800;
     vdisplay := 480; vsync_start := 490; vsync_end := 492; vtotal := 525;
     flags := 0 |}.

(** The same mode with no vertical front porch: the sync pulse starts on
    the line after the last active one. *)
Definition mode_vga_no_vfp : drm_display_mode :=
  {| clock := 25175;
     hdisplay := 640; hsync_start := 656; hsync_end := 752; htotal := 800;
     vdisplay := 480; vsync_start := 480; vsync_end := 482; vtotal := 525;
     flags := 0 |}.

(** ** The driver's header, ingenic-drm.h

    The header that names the register offsets, the field positions and
    the control bits is not part of the sources at hand, so its constants
    are taken as parameters: every definition below is generic in them.
    [ETIMEDOUT] is here too because its value depends on the
    architecture, and so are the DRM constants of drm_fourcc.h and
    drm_plane_helper.h. *)
Class ingenic_drm_h := {
  JZ_REG_LCD_VSYNC : Z; JZ_REG_LCD_HSYNC : Z; JZ_REG_LCD_VAT : Z;
  JZ_REG_LCD_DAH : Z; JZ_REG_LCD_DAV : Z;
  JZ_REG_LCD_PS : Z; JZ_REG_LCD_CLS : Z; JZ_REG_LCD_SPL : Z;
  JZ_REG_LCD_REV : Z;
  JZ_REG_LCD_CTRL : Z; JZ_REG_LCD_STATE : Z; JZ_REG_LCD_IID : Z;
  JZ_REG_LCD_DA0 : Z; JZ_REG_LCD_SA0 : Z; JZ_REG_LCD_FID0 : Z;
  JZ_REG_LCD_CMD0 : Z;
  JZ_REG_LCD_DA1 : Z; JZ_REG_LCD_SA1 : Z; JZ_REG_LCD_FID1 : Z;
  JZ_REG_LCD_CMD1 : Z;
  JZ_REG_LCD_OSDC : Z; JZ_REG_LCD_OSDCTRL : Z; JZ_REG_LCD_IPUR : Z;
  JZ_REG_LCD_XYP0 : Z; JZ_REG_LCD_XYP1 : Z;
  JZ_REG_LCD_SIZE0 : Z; JZ_REG_LCD_SIZE1 : Z;

  JZ_LCD_VSYNC_VPS_OFFSET : Z; JZ_LCD_VSYNC_VPE_OFFSET : Z;
  JZ_LCD_HSYNC_HPS_OFFSET : Z; JZ_LCD_HSYNC_HPE_OFFSET : Z;
  JZ_LCD_VAT_HT_OFFSET : Z; JZ_LCD_VAT_VT_OFFSET : Z;
  JZ_LCD_DAH_HDS_OFFSET : Z; JZ_LCD_DAH_HDE_OFFSET : Z;
  JZ_LCD_DAV_VDS_OFFSET : Z; JZ_LCD_DAV_VDE_OFFSET : Z;

  JZ_LCD_CTRL_BURST_16 : Z; JZ_LCD_CTRL_RGB555 : Z; JZ_LCD_CTRL_OFUP : Z;
  JZ_LCD_CTRL_EOF_IRQ : Z; JZ_LCD_CTRL_DISABLE : Z; JZ_LCD_CTRL_ENABLE : Z;
  JZ_LCD_CTRL_BPP_15_16 : Z; JZ_LCD_CTRL_BPP_18_24 : Z;
  JZ_LCD_CTRL_BPP_MASK : Z;

  JZ_LCD_CMD_EOF_IRQ : Z;
  JZ_LCD_STATE_EOF_IRQ : Z; JZ_LCD_STATE_DISABLED : Z;

  JZ_LCD_OSDC_OSDEN : Z; JZ_LCD_OSDC_F0EN : Z; JZ_LCD_OSDC_F1EN : Z;
  JZ_LCD_OSDCTRL_IPU : Z; JZ_LCD_OSDCTRL_RGB555 : Z;
  JZ_LCD_OSDCTRL_BPP_15_16 : Z; JZ_LCD_OSDCTRL_BPP_18_24 : Z;
  JZ_LCD_OSDCTRL_BPP_MASK : Z;

  JZ_LCD_IPUR_IPUREN : Z; JZ_LCD_IPUR_IPUR_LSB : Z;
  JZ_LCD_XYP01_XPOS_LSB : Z; JZ_LCD_XYP01_YPOS_LSB : Z;
  JZ_LCD_SIZE01_WIDTH_LSB : Z; JZ_LCD_SIZE01_HEIGHT_LSB : Z;

  DRM_FORMAT_XRGB1555 : Z; DRM_FORMAT_RGB565 : Z; DRM_FORMAT_XRGB8888 : Z;
  DRM_PLANE_HELPER_NO_SCALING : Z;
  ETIMEDOUT : Z
}.

(** ** Data of the driver *)

(** struct ingenic_dma_hwdesc: four [u32] words. *)
Record ingenic_dma_hwdesc := {
  hwdesc_next : Z;
  hwdesc_addr : Z;
  hwdesc_id : Z;
  hwdesc_cmd : Z
}.

(** struct jz_soc_info. *)
Record jz_soc_info := {
  needs_dev_clk : bool;
  has_osd : bool;
  max_width : Z;
  max_height : Z
}.

(** The three tables at the end of the source. *)
Definition jz4740_soc_info : jz_soc_info :=
  {| needs_dev_clk := true; has_osd := false;
     max_width := 800; max_height := 600 |}.
Definition jz4725b_soc_info : jz_soc_info :=
  {| needs_dev_clk := false; has_osd := true;
     max_width := 800; max_height := 600 |}.
Definition jz4770_soc_info : jz_soc_info :=
  {| needs_dev_clk := false; has_osd := true;
     max_width := 1280; max_height := 720 |}.

(** enum drm_plane_type. *)
Inductive drm_plane_type :=
  | DRM_PLANE_TYPE_OVERLAY
  | DRM_PLANE_TYPE_PRIMARY
  | DRM_PLANE_TYPE_CURSOR.

(** [plane->type == DRM_PLANE_TYPE_PRIMARY]. *)
Definition is_primary (t : drm_plane_type) : bool :=
  match t with DRM_PLANE_TYPE_PRIMARY => true | _ => false end.

(** The planes the driver knows: its own [f0] (registered as overlay) and
    [f1] (registered as primary), and the plane of the image processing
    unit that [priv->ipu_plane] may point to. *)
Inductive plane_id := F0 | F1 | IPU.

(** struct drm_framebuffer, as far as the driver looks into it:
    [fb->format->format] and [fb->format->cpp[0]] (a [u8]). *)
Record drm_framebuffer := {
  fb_id : Z;
  fb_format : Z;
  fb_cpp0 : Z
}.

(** The driver has one CRTC; a [struct drm_crtc *] is that CRTC or NULL. *)
Inductive drm_crtc := the_crtc.

(** struct drm_plane_state, the fields the driver reads. Positions are
    [int32_t], sizes and the 16.16 fixed point source rectangle are
    [uint32_t]. *)
Record drm_plane_state := {
  ps_crtc : option drm_crtc;
  ps_fb : option drm_framebuffer;
  crtc_x : Z; crtc_y : Z; crtc_w : Z; crtc_h : Z;
  src_x : Z; src_y : Z; src_w : Z; src_h : Z
}.

(** struct drm_plane: its type and [plane->state], which may be NULL. *)
Record drm_plane := {
  plane_type : drm_plane_type;
  plane_state : option drm_plane_state
}.

(** A completion notification (struct drm_pending_vblank_event). *)
Definition drm_pending_vblank_event := nat.

(** struct drm_crtc_state, the fields the driver reads or writes. *)
Record drm_crtc_state := {
  mode_changed : bool;
  active_changed : bool;
  connectors_changed : bool;
  no_vblank : bool;
  mode : drm_display_mode;
  adjusted_mode : drm_display_mode;
  event : option drm_pending_vblank_event
}.

Definition set_mode_changed (b : bool) (cs : drm_crtc_state) :=
  {| mode_changed := b; active_changed := active_changed cs;
     connectors_changed := connectors_changed cs;
     no_vblank := no_vblank cs; mode := mode cs;
     adjusted_mode := adjusted_mode cs; event := event cs |}.

Definition set_no_vblank (b : bool) (cs : drm_crtc_state) :=
  {| mode_changed := mode_changed cs; active_changed := active_changed cs;
     connectors_changed := connectors_changed cs;
     no_vblank := b; mode := mode cs;
     adjusted_mode := adjusted_mode cs; event := event cs |}.

Definition set_event (e : option drm_pending_vblank_event)
    (cs : drm_crtc_state) :=
  {| mode_changed := mode_changed cs; active_changed := active_changed cs;
     connectors_changed := connectors_changed cs;
     no_vblank := no_vblank cs; mode := mode cs;
     adjusted_mode := adjusted_mode cs; event := e |}.

(** [drm_atomic_crtc_needs_modeset] of drm_atomic.h. *)
Definition drm_atomic_crtc_needs_modeset (cs : drm_crtc_state) : bool :=
  mode_changed cs || active_changed cs || connectors_changed cs.

(** The plane states of a transaction: what [drm_atomic_get_plane_state]
    returns for each plane (its error results are not modelled). *)
Definition drm_atomic_state := plane_id -> drm_plane_state.

Definition drm_atomic_get_plane_state (st : drm_atomic_state) (p : plane_id)
    : drm_plane_state := st p.

(** ** The state the driver runs on *)

(** The calls the driver makes on its collaborators, as they appear in
    the source. The spinlock is always [crtc->dev->event_lock]. *)
Inductive call :=
  | CallRegmapWrite (reg val : Z)
  | CallRegmapUpdateBits (reg mask val : Z)
  | CallRegmapRead (reg : Z)
  | CallClkSetRate (rate : Z)
  | CallSpinLockIrq
  | CallSpinUnlockIrq
  | CallVblankGet
  | CallArmVblankEvent (e : drm_pending_vblank_event)
  | CallSendVblankEvent (e : drm_pending_vblank_event)
  | CallHandleVblank
  | CallVblankOn
  | CallVblankOff
  | CallDmaCacheSync (addr size : Z)
  | CallUsleepRange (min max : Z).

(** Modelled from the spec: the vertical-blank subsystem of section 6
    (drm_vblank.c is not part of the sources): on and off, a reference
    count taken by get, the frame counter, the notifications armed for the
    next vertical blank and those already delivered, in order. *)
Record drm_vblank_crtc := {
  vbl_enabled : bool;
  vbl_refcount : Z;
  vbl_count : Z;
  vbl_armed : list drm_pending_vblank_event;
  vbl_sent : list drm_pending_vblank_event
}.

(** struct ingenic_drm together with what hangs off it: the contents of
    the register block behind [priv->map], the rate of [priv->pix_clk],
    the two DMA descriptors and their bus addresses, the vertical-blank
    bookkeeping of the embedded [drm_device], the clock read by
    [ktime_get] (in microseconds), and the call log. *)
Record ingenic_drm := {
  soc_info : jz_soc_info;
  ipu_plane : option plane_id;
  lcd_regs : gmap Z Z;
  pix_clk : Z;
  dma_hwdesc : list ingenic_dma_hwdesc;
  dma_hwdesc_phys : list Z;
  panel_is_sharp : bool;
  vblank : drm_vblank_crtc;
  ktime : Z;
  calls : list call
}.

Definition with_regs (r : gmap Z Z) (s : ingenic_drm) : ingenic_drm :=
  {| soc_info := soc_info s; ipu_plane := ipu_plane s; lcd_regs := r;
     pix_clk := pix_clk s; dma_hwdesc := dma_hwdesc s;
     dma_hwdesc_phys := dma_hwdesc_phys s;
     panel_is_sharp := panel_is_sharp s; vblank := vblank s;
     ktime := ktime s; calls := calls s |}.

Definition with_pix_clk (r : Z) (s : ingenic_drm) : ingenic_drm :=
  {| soc_info := soc_info s; ipu_plane := ipu_plane s;
     lcd_regs := lcd_regs s;
     pix_clk := r; dma_hwdesc := dma_hwdesc s;
     dma_hwdesc_phys := dma_hwdesc_phys s;
     panel_is_sharp := panel_is_sharp s; vblank := vblank s;
     ktime := ktime s; calls := calls s |}.

Definition with_dma_hwdesc (d : list ingenic_dma_hwdesc) (s : ingenic_drm)
    : ingenic_drm :=
  {| soc_info := soc_info s; ipu_plane := ipu_plane s;
     lcd_regs := lcd_regs s;
     pix_clk := pix_clk s; dma_hwdesc := d;
     dma_hwdesc_phys := dma_hwdesc_phys s;
     panel_is_sharp := panel_is_sharp s; vblank := vblank s;
     ktime := ktime s; calls := calls s |}.

Definition with_vblank (v : drm_vblank_crtc) (s : ingenic_drm) : ingenic_drm :=
  {| soc_info := soc_info s; ipu_plane := ipu_plane s;
     lcd_regs := lcd_regs s;
     pix_clk := pix_clk s; dma_hwdesc := dma_hwdesc s;
     dma_hwdesc_phys := dma_hwdesc_phys s;
     panel_is_sharp := panel_is_sharp s; vblank := v;
     ktime := ktime s; calls := calls s |}.

Definition with_ktime (t : Z) (s : ingenic_drm) : ingenic_drm :=
  {| soc_info := soc_info s; ipu_plane := ipu_plane s;
     lcd_regs := lcd_regs s;
     pix_clk := pix_clk s; dma_hwdesc := dma_hwdesc s;
     dma_hwdesc_phys := dma_hwdesc_phys s;
     panel_is_sharp := panel_is_sharp s; vblank := vblank s;
     ktime := t; calls := calls s |}.

Definition with_calls (c : list call) (s : ingenic_drm) : ingenic_drm :=
  {| soc_info := soc_info s; ipu_plane := ipu_plane s;
     lcd_regs := lcd_regs s;
     pix_clk := pix_clk s; dma_hwdesc := dma_hwdesc s;
     dma_hwdesc_phys := dma_hwdesc_phys s;
     panel_is_sharp := panel_is_sharp s; vblank := vblank s;
     ktime := ktime s; calls := c |}.

(** Driver code threads the state: a computation returns a value and the
    next state. *)
Definition drv (A : Type) : Type := ingenic_drm -> A * ingenic_drm.

Definition ret {A : Type} (a : A) : drv A := fun s => (a, s).

Definition bind {A B : Type} (c : drv A) (k : A -> drv B) : drv B :=
  fun s => k (fst (c s)) (snd (c s)).

Definition get_priv : drv ingenic_drm := fun s => (s, s).

Declare Scope drv_scope.
Delimit Scope drv_scope with drv.
Notation "x <- c ;; k" := (bind c (fun x => k))
  (at level 100, c at next level, right associativity) : drv_scope.
Notation "c ;; k" := (bind c (fun _ => k))
  (at level 100, right associativity) : drv_scope.

(** The value and the state a computation ends with. *)
Definition result {A : Type} (c : drv A) (s : ingenic_drm) : A := fst (c s).
Definition exec {A : Type} (c : drv A) (s : ingenic_drm) : ingenic_drm :=
  snd (c s).

Definition log_call (c : call) : drv unit :=
  fun s => (tt, with_calls (calls s ++ [c]) s).

Section Driver.

Context {hdr : ingenic_drm_h}.

(** The module parameter [cached_gem_buffers]. *)
Variable ingenic_drm_cached_gem_buf : bool.

(** [clk_round_rate] on [priv->pix_clk]: the clock tree is a collaborator;
    a negative result is an error. *)
Variable clk_round_rate : Z -> Z.

(** [drm_fb_cma_get_gem_addr fb state plane]: the bus address the buffer
    provider resolves a framebuffer to. *)
Variable drm_fb_cma_get_gem_addr : drm_framebuffer -> drm_plane_state -> Z -> Z.

(** [drm_atomic_helper_check_plane_state state crtc_state min_scale
    max_scale can_position can_update_disabled]: the generic geometry
    check; only its result matters to the driver, which reads none of the
    fields the helper fills in. *)
Variable drm_atomic_helper_check_plane_state :
  drm_plane_state -> drm_crtc_state -> Z -> Z -> bool -> bool -> Z.

(** What the controller does to its registers while the driver sleeps
    once in a polling loop. *)
Variable lcd_hw_step : gmap Z Z -> gmap Z Z.

Local Open Scope drv_scope.

(** *** Register interface *)

(** [ingenic_drm_writeable_reg]: the hardware status mirrors are
    read-only. *)
Definition ingenic_drm_writeable_reg (reg : Z) : bool :=
  if (reg =? JZ_REG_LCD_IID) || (reg =? JZ_REG_LCD_SA0)
     || (reg =? JZ_REG_LCD_FID0) || (reg =? JZ_REG_LCD_CMD0)
     || (reg =? JZ_REG_LCD_SA1) || (reg =? JZ_REG_LCD_FID1)
     || (reg =? JZ_REG_LCD_CMD1)
  then false else true.

(** A register that was never written reads as 0. *)
Definition reg_get (regs : gmap Z Z) (reg : Z) : Z := default 0 (regs !! reg).

(** [-EIO], which regmap answers to a refused access. *)
Definition EIO : Z := 5.

(** Modelled from the spec: the register interface of section 6
    (regmap is not part of the sources): [read], [write] and
    [update_bits] on a register block, where a write to a read-only offset
    is refused before it reaches the hardware. Values are 32 bits wide
    ([val_bits] of [ingenic_drm_regmap_config]); the bounds that regmap
    derives from [max_register] and [reg_stride] are left out. *)
Definition regmap_read (reg : Z) : drv Z :=
  fun s => (reg_get (lcd_regs s) reg,
            with_calls (calls s ++ [CallRegmapRead reg]) s).

Definition reg_store (reg val : Z) : drv Z :=
  fun s =>
    (if ingenic_drm_writeable_reg reg then 0 else - EIO,
     with_regs ((if ingenic_drm_writeable_reg reg
                 then <[reg := u32 val]> else fun regs => regs)
                  (lcd_regs s)) s).

Definition regmap_write (reg val : Z) : drv Z :=
  log_call (CallRegmapWrite reg val) ;;
  reg_store reg val.

Definition regmap_update_bits (reg mask val : Z) : drv Z :=
  log_call (CallRegmapUpdateBits reg mask val) ;;
  s <- get_priv ;;
  let orig := reg_get (lcd_regs s) reg in
  reg_store reg (Z.lor (Z.ldiff orig mask) (Z.land val mask)).

(** *** Clock, spinlock, cache, sleeping *)

Definition clk_set_rate (rate : Z) : drv Z :=
  fun s => (0, with_calls (calls s ++ [CallClkSetRate rate])
                 (with_pix_clk rate s)).

Definition spin_lock_irq : drv unit := log_call CallSpinLockIrq.
Definition spin_unlock_irq : drv unit := log_call CallSpinUnlockIrq.

Definition dma_cache_sync (addr size : Z) : drv unit :=
  log_call (CallDmaCacheSync addr size).

(** [usleep_range min max]: the clock moves on (by at most [max]; the
    model takes [max]) and the controller makes a step. *)
Definition usleep_range (min max : Z) : drv unit :=
  fun s => (tt, with_calls (calls s ++ [CallUsleepRange min max])
                  (with_ktime (ktime s + max)
                     (with_regs (lcd_hw_step (lcd_regs s)) s))).

(** Modelled from the spec: the polling primitive of section 5, the
    macro [regmap_read_poll_timeout map addr val cond sleep_us timeout_us]
    of include/linux/regmap.h (not part of the sources). Its loop reads
    the register, leaves with 0 when [cond] holds, leaves after a last
    read when a non-zero [timeout_us] has run out, and sleeps otherwise;
    [timeout_us = 0] means that it never times out. The result is
    0 or [-ETIMEDOUT], with the last value read. [fuel] bounds the number
    of turns the model follows; [None] says the loop is still running. *)
Fixpoint regmap_read_poll_loop (fuel : nat) (addr : Z) (cond : Z -> bool)
    (sleep_us timeout_us timeout : Z) (s : ingenic_drm)
    : option ((Z * Z) * ingenic_drm) :=
  match fuel with
  | O => None
  | S fuel' =>
    let val := result (regmap_read addr) s in
    let s1 := exec (regmap_read addr) s in
    if cond val then Some ((0, val), s1)
    else if Zneqb timeout_us 0 && (timeout <? ktime s1) then
      let val' := result (regmap_read addr) s1 in
      let s2 := exec (regmap_read addr) s1 in
      Some ((if cond val' then 0 else - ETIMEDOUT, val'), s2)
    else
      let s2 := if Zneqb sleep_us 0
                then exec (usleep_range (Z.shiftr sleep_us 2 + 1) sleep_us) s1
                else s1 in
      regmap_read_poll_loop fuel' addr cond sleep_us timeout_us timeout s2
  end.

Definition regmap_read_poll_timeout (fuel : nat) (addr : Z) (cond : Z -> bool)
    (sleep_us timeout_us : Z) (s : ingenic_drm)
    : option ((Z * Z) * ingenic_drm) :=
  regmap_read_poll_loop fuel addr cond sleep_us timeout_us
    (ktime s + timeout_us) s.

(** *** Vertical-blank subsystem (see [drm_vblank_crtc]) *)

Definition with_vbl (f : drm_vblank_crtc -> drm_vblank_crtc) (c : call)
    : drv unit :=
  fun s => (tt, with_calls (calls s ++ [c]) (with_vblank (f (vblank s)) s)).

Definition drm_crtc_vblank_on : drv unit :=
  with_vbl (fun v =>
    {| vbl_enabled := true; vbl_refcount := vbl_refcount v;
       vbl_count := vbl_count v; vbl_armed := vbl_armed v;
       vbl_sent := vbl_sent v |}) CallVblankOn.

Definition drm_crtc_vblank_off : drv unit :=
  with_vbl (fun v =>
    {| vbl_enabled := false; vbl_refcount := vbl_refcount v;
       vbl_count := vbl_count v; vbl_armed := vbl_armed v;
       vbl_sent := vbl_sent v |}) CallVblankOff.

(** [drm_crtc_vblank_get]: 0 and a reference when vertical blanks are on,
    [-EINVAL] otherwise. *)
Definition drm_crtc_vblank_get : drv Z :=
  s <- get_priv ;;
  if vbl_enabled (vblank s) then
    with_vbl (fun v =>
      {| vbl_enabled := vbl_enabled v; vbl_refcount := vbl_refcount v + 1;
         vbl_count := vbl_count v; vbl_armed := vbl_armed v;
         vbl_sent := vbl_sent v |}) CallVblankGet ;;
    ret 0
  else
    log_call CallVblankGet ;;
    ret (- EINVAL).

Definition drm_crtc_arm_vblank_event (e : drm_pending_vblank_event)
    : drv unit :=
  with_vbl (fun v =>
    {| vbl_enabled := vbl_enabled v; vbl_refcount := vbl_refcount v;
       vbl_count := vbl_count v; vbl_armed := vbl_armed v ++ [e];
       vbl_sent := vbl_sent v |}) (CallArmVblankEvent e).

Definition drm_crtc_send_vblank_event (e : drm_pending_vblank_event)
    : drv unit :=
  with_vbl (fun v =>
    {| vbl_enabled := vbl_enabled v; vbl_refcount := vbl_refcount v;
       vbl_count := vbl_count v; vbl_armed := vbl_armed v;
       vbl_sent := vbl_sent v ++ [e] |}) (CallSendVblankEvent e).

(** [drm_crtc_handle_vblank]: one more frame, and every armed
    notification is delivered and gives its reference back. *)
Definition drm_crtc_handle_vblank : drv bool :=
  with_vbl (fun v =>
    {| vbl_enabled := vbl_enabled v;
       vbl_refcount := vbl_refcount v - Z.of_nat (length (vbl_armed v));
       vbl_count := vbl_count v + 1; vbl_armed := [];
       vbl_sent := vbl_sent v ++ vbl_armed v |}) CallHandleVblank ;;
  ret true.

(** *** The driver *)

(** A pointer used as a truth value. *)
Definition non_null {A : Type} (p : option A) : bool :=
  match p with Some _ => true | None => false end.

Definition ingenic_drm_crtc_atomic_enable : drv unit :=
  regmap_write JZ_REG_LCD_STATE 0 ;;
  regmap_update_bits JZ_REG_LCD_CTRL
    (Z.lor JZ_LCD_CTRL_ENABLE JZ_LCD_CTRL_DISABLE) JZ_LCD_CTRL_ENABLE ;;
  drm_crtc_vblank_on.

(** The function returns nothing; [None] says that it has not returned
    within [fuel] turns of the polling loop. *)
Definition ingenic_drm_crtc_atomic_disable (fuel : nat) (s : ingenic_drm)
    : option (unit * ingenic_drm) :=
  let s1 := exec (drm_crtc_vblank_off ;;
                  regmap_update_bits JZ_REG_LCD_CTRL
                    JZ_LCD_CTRL_DISABLE JZ_LCD_CTRL_DISABLE) s in
  match regmap_read_poll_timeout fuel JZ_REG_LCD_STATE
          (fun var => Zneqb (Z.land var JZ_LCD_STATE_DISABLED) 0)
          1000 0 s1 with
  | Some (_, s2) => Some (tt, s2)
  | None => None
  end.

(** The eight locals are [unsigned int] ([ingenic_drm_timings]); the
    value for REV is built from the [int] field [htotal] and becomes the
    [unsigned int] argument of [regmap_write]. *)
Definition ingenic_drm_crtc_update_timings (mode : drm_display_mode)
    : drv unit :=
  let t := ingenic_drm_timings mode in
  regmap_write JZ_REG_LCD_VSYNC
    (Z.lor (shl32 0 JZ_LCD_VSYNC_VPS_OFFSET)
           (shl32 (vpe t) JZ_LCD_VSYNC_VPE_OFFSET)) ;;
  regmap_write JZ_REG_LCD_HSYNC
    (Z.lor (shl32 0 JZ_LCD_HSYNC_HPS_OFFSET)
           (shl32 (hpe t) JZ_LCD_HSYNC_HPE_OFFSET)) ;;
  regmap_write JZ_REG_LCD_VAT
    (Z.lor (shl32 (ht t) JZ_LCD_VAT_HT_OFFSET)
           (shl32 (vt t) JZ_LCD_VAT_VT_OFFSET)) ;;
  regmap_write JZ_REG_LCD_DAH
    (Z.lor (shl32 (hds t) JZ_LCD_DAH_HDS_OFFSET)
           (shl32 (hde t) JZ_LCD_DAH_HDE_OFFSET)) ;;
  regmap_write JZ_REG_LCD_DAV
    (Z.lor (shl32 (vds t) JZ_LCD_DAV_VDS_OFFSET)
           (shl32 (vde t) JZ_LCD_DAV_VDE_OFFSET)) ;;
  priv <- get_priv ;;
  (if panel_is_sharp priv then
     regmap_write JZ_REG_LCD_PS (Z.lor (shl32 (hde t) 16) (u32 (hde t + 1))) ;;
     regmap_write JZ_REG_LCD_CLS (Z.lor (shl32 (hde t) 16) (u32 (hde t + 1))) ;;
     regmap_write JZ_REG_LCD_SPL (Z.lor (shl32 (hpe t) 16) (u32 (hpe t + 1))) ;;
     regmap_write JZ_REG_LCD_REV (shl32 (htotal mode) 16) ;;
     ret tt
   else ret tt) ;;
  regmap_update_bits JZ_REG_LCD_CTRL
    (Z.lor JZ_LCD_CTRL_OFUP JZ_LCD_CTRL_BURST_16)
    (Z.lor JZ_LCD_CTRL_OFUP JZ_LCD_CTRL_BURST_16) ;;
  regmap_write JZ_REG_LCD_IPUR
    (Z.lor JZ_LCD_IPUR_IPUREN
       (shl32 (u32 (ht t * vpe t) / 3) JZ_LCD_IPUR_IPUR_LSB)) ;;
  ret tt.

(** [priv->ipu_plane && ipu_state->fb], where [ipu_state] is the state of
    the plane [priv->ipu_plane] points to. *)
Definition ipu_fb_live (priv : ingenic_drm) (st : drm_atomic_state) : bool :=
  match ipu_plane priv with
  | Some p => non_null (ps_fb (drm_atomic_get_plane_state st p))
  | None => false
  end.

(** The check reads [priv] and the plane states of the transaction and
    may set [state->no_vblank]: it returns its [int] result and the CRTC
    state it leaves. The comparisons of the [int] mode fields with the
    [unsigned int] limits are unsigned. *)
Definition ingenic_drm_crtc_atomic_check (priv : ingenic_drm)
    (state : drm_crtc_state) (st : drm_atomic_state)
    : Z * drm_crtc_state :=
  if negb (drm_atomic_crtc_needs_modeset state) then (0, state)
  else if (max_width (soc_info priv) <? u32 (hdisplay (mode state)))
          || (max_height (soc_info priv) <? u32 (vdisplay (mode state)))
  then (- EINVAL, state)
  else
    let rate := clk_round_rate (u32 (clock (adjusted_mode state) * 1000)) in
    if rate <? 0 then (rate, state)
    else if has_osd (soc_info priv) then
      let f1_state := drm_atomic_get_plane_state st F1 in
      let f0_state := drm_atomic_get_plane_state st F0 in
      if non_null (ipu_plane priv) && non_null (ps_fb f1_state)
         && ipu_fb_live priv st
      then (- EINVAL, state)
      else if negb (non_null (ps_fb f1_state))
              && negb (non_null (ps_fb f0_state))
              && negb (ipu_fb_live priv st)
      then (0, set_no_vblank true state)
      else (0, state)
    else (0, state).

(** [crtc_state] is [crtc->state]; [cur] gives [plane->state] for the
    plane [priv->ipu_plane] points to. *)
Definition ingenic_drm_crtc_atomic_begin (crtc_state : drm_crtc_state)
    (cur : drm_atomic_state) : drv unit :=
  priv <- get_priv ;;
  if has_osd (soc_info priv) && drm_atomic_crtc_needs_modeset crtc_state then
    let ctrl := if ipu_fb_live priv cur
                then Z.lor 0 JZ_LCD_OSDCTRL_IPU else 0 in
    regmap_update_bits JZ_REG_LCD_OSDCTRL JZ_LCD_OSDCTRL_IPU ctrl ;;
    ret tt
  else ret tt.

(** [state] is [crtc->state]; the function clears [state->event], so the
    state it leaves is returned. *)
Definition ingenic_drm_crtc_atomic_flush (state : drm_crtc_state)
    : drv drm_crtc_state :=
  (if drm_atomic_crtc_needs_modeset state then
     ingenic_drm_crtc_update_timings (mode state) ;;
     clk_set_rate (u32 (clock (adjusted_mode state) * 1000)) ;;
     ret tt
   else ret tt) ;;
  match event state with
  | Some event =>
    spin_lock_irq ;;
    r <- drm_crtc_vblank_get ;;
    (if r =? 0 then drm_crtc_arm_vblank_event event
     else drm_crtc_send_vblank_event event) ;;
    spin_unlock_irq ;;
    ret (set_event None state)
  | None => ret state
  end.

(** The last disjunct of the modeset test,
    [plane->state->fb->format->format != state->fb->format->format]; it is
    evaluated only when both framebuffers are there. *)
Definition fb_format_differs (old new : option drm_framebuffer) : bool :=
  match old, new with
  | Some o, Some n => Zneqb (fb_format o) (fb_format n)
  | _, _ => false
  end.

(** The test under the comment "Require full modeset if enabling or
    disabling a plane, or changing its position, size or depth", without
    its [has_osd] conjunct. *)
Definition plane_modeset_test (old state : drm_plane_state) : bool :=
  negb (non_null (ps_fb old))
  || negb (non_null (ps_fb state))
  || Zneqb (crtc_x old) (crtc_x state)
  || Zneqb (crtc_y old) (crtc_y state)
  || Zneqb (crtc_w old) (crtc_w state)
  || Zneqb (crtc_h old) (crtc_h state)
  || fb_format_differs (ps_fb old) (ps_fb state).

(** [state->crtc ?: plane->state->crtc]. *)
Definition plane_crtc (old state : drm_plane_state) : option drm_crtc :=
  match ps_crtc state with
  | Some c => Some c
  | None => ps_crtc old
  end.

(** [old] is [plane->state], [state] the proposed state, and
    [existing_crtc_state] what [drm_atomic_get_existing_crtc_state]
    finds in the transaction. The result is the [int] returned and the
    CRTC state of the transaction afterwards. *)
Definition ingenic_drm_plane_atomic_check (priv : ingenic_drm)
    (old state : drm_plane_state)
    (existing_crtc_state : option drm_crtc_state)
    : Z * option drm_crtc_state :=
  match plane_crtc old state with
  | None => (0, existing_crtc_state)
  | Some _ =>
    match existing_crtc_state with
    | None => (- EINVAL, None)
    | Some crtc_state =>
      let ret := drm_atomic_helper_check_plane_state state crtc_state
                   DRM_PLANE_HELPER_NO_SCALING DRM_PLANE_HELPER_NO_SCALING
                   (has_osd (soc_info priv)) true in
      if Zneqb ret 0 then (ret, Some crtc_state)
      else if negb (has_osd (soc_info priv))
              && (Zneqb (src_x state) 0
                  || Zneqb (shr32 (src_w state) 16) (crtc_w state)
                  || Zneqb (shr32 (src_h state) 16) (crtc_h state))
      then (- EINVAL, Some crtc_state)
      else if has_osd (soc_info priv) && plane_modeset_test old state
      then (0, Some (set_mode_changed true crtc_state))
      else (0, Some crtc_state)
    end
  end.

Definition ingenic_drm_plane_enable (plane : drm_plane) : drv unit :=
  priv <- get_priv ;;
  if has_osd (soc_info priv) then
    let en_bit := if is_primary (plane_type plane)
                  then JZ_LCD_OSDC_F1EN else JZ_LCD_OSDC_F0EN in
    regmap_update_bits JZ_REG_LCD_OSDC en_bit en_bit ;;
    ret tt
  else ret tt.

Definition ingenic_drm_plane_disable (plane : drm_plane) : drv unit :=
  priv <- get_priv ;;
  if has_osd (soc_info priv) then
    let en_bit := if is_primary (plane_type plane)
                  then JZ_LCD_OSDC_F1EN else JZ_LCD_OSDC_F0EN in
    regmap_update_bits JZ_REG_LCD_OSDC en_bit 0 ;;
    ret tt
  else ret tt.

Definition ingenic_drm_plane_atomic_disable (plane : drm_plane) : drv unit :=
  ingenic_drm_plane_disable plane.

(** The two [switch (fourcc)] statements of [ingenic_drm_plane_config],
    with the fall-through from XRGB1555 into RGB565. *)
Definition osdctrl_bpp (fourcc : Z) : Z :=
  if fourcc =? DRM_FORMAT_XRGB1555
  then Z.lor (Z.lor 0 JZ_LCD_OSDCTRL_RGB555) JZ_LCD_OSDCTRL_BPP_15_16
  else if fourcc =? DRM_FORMAT_RGB565 then Z.lor 0 JZ_LCD_OSDCTRL_BPP_15_16
  else if fourcc =? DRM_FORMAT_XRGB8888 then Z.lor 0 JZ_LCD_OSDCTRL_BPP_18_24
  else 0.

Definition ctrl_bpp (fourcc : Z) : Z :=
  if fourcc =? DRM_FORMAT_XRGB1555
  then Z.lor (Z.lor 0 JZ_LCD_CTRL_RGB555) JZ_LCD_CTRL_BPP_15_16
  else if fourcc =? DRM_FORMAT_RGB565 then Z.lor 0 JZ_LCD_CTRL_BPP_15_16
  else if fourcc =? DRM_FORMAT_XRGB8888 then Z.lor 0 JZ_LCD_CTRL_BPP_18_24
  else 0.

(** [state] is [plane->state], which the callers of this function have
    checked to be there. The position is built from the [int] fields
    [crtc_x] and [crtc_y] and handed to [regmap_write] as its
    [unsigned int] argument, hence the [u32]; the size is built from
    unsigned fields. *)
Definition ingenic_drm_plane_config (plane : drm_plane)
    (state : drm_plane_state) (fourcc : Z) : drv unit :=
  ingenic_drm_plane_enable plane ;;
  priv <- get_priv ;;
  (if has_osd (soc_info priv) && is_primary (plane_type plane) then
     regmap_update_bits JZ_REG_LCD_OSDCTRL JZ_LCD_OSDCTRL_BPP_MASK
       (osdctrl_bpp fourcc)
   else
     regmap_update_bits JZ_REG_LCD_CTRL JZ_LCD_CTRL_BPP_MASK
       (ctrl_bpp fourcc)) ;;
  if has_osd (soc_info priv) then
    let xy_reg := if is_primary (plane_type plane)
                  then JZ_REG_LCD_XYP1 else JZ_REG_LCD_XYP0 in
    let size_reg := if is_primary (plane_type plane)
                    then JZ_REG_LCD_SIZE1 else JZ_REG_LCD_SIZE0 in
    regmap_write xy_reg
      (u32 (Z.lor (Z.shiftl (crtc_x state) JZ_LCD_XYP01_XPOS_LSB)
                  (Z.shiftl (crtc_y state) JZ_LCD_XYP01_YPOS_LSB))) ;;
    regmap_write size_reg
      (Z.lor (shl32 (crtc_w state) JZ_LCD_SIZE01_WIDTH_LSB)
             (shl32 (crtc_h state) JZ_LCD_SIZE01_HEIGHT_LSB)) ;;
    ret tt
  else ret tt.

(** The descriptor a plane uses: 0 without OSD, else
    [plane->type == DRM_PLANE_TYPE_PRIMARY]. *)
Definition hwdesc_idx (priv : ingenic_drm) (plane : drm_plane) : nat :=
  if negb (has_osd (soc_info priv)) then 0%nat
  else if is_primary (plane_type plane) then 1%nat else 0%nat.

(** Stores into [priv->dma_hwdesc[i]->addr] and [->cmd]. *)
Definition set_hwdesc_addr (v : Z) (d : ingenic_dma_hwdesc)
    : ingenic_dma_hwdesc :=
  {| hwdesc_next := hwdesc_next d; hwdesc_addr := v;
     hwdesc_id := hwdesc_id d; hwdesc_cmd := hwdesc_cmd d |}.

Definition set_hwdesc_cmd (v : Z) (d : ingenic_dma_hwdesc)
    : ingenic_dma_hwdesc :=
  {| hwdesc_next := hwdesc_next d; hwdesc_addr := hwdesc_addr d;
     hwdesc_id := hwdesc_id d; hwdesc_cmd := v |}.

Definition store_hwdesc (i : nat)
    (f : ingenic_dma_hwdesc -> ingenic_dma_hwdesc) : drv unit :=
  fun s => (tt, with_dma_hwdesc (alter f i (dma_hwdesc s)) s).

(** [crtc_state] is [state->crtc->state]. *)
Definition ingenic_drm_plane_atomic_update (plane : drm_plane)
    (crtc_state : drm_crtc_state) : drv unit :=
  match plane_state plane with
  | Some state =>
    match ps_fb state with
    | Some fb =>
      let addr := drm_fb_cma_get_gem_addr fb state 0 in
      let width := shr32 (src_w state) 16 in
      let height := shr32 (src_h state) 16 in
      let cpp := fb_cpp0 fb in
      (if ingenic_drm_cached_gem_buf
       then dma_cache_sync addr (u32 (width * height * cpp))
       else ret tt) ;;
      priv <- get_priv ;;
      let idx := hwdesc_idx priv plane in
      store_hwdesc idx (set_hwdesc_addr (u32 addr)) ;;
      store_hwdesc idx (set_hwdesc_cmd (u32 (width * height * cpp) / 4)) ;;
      store_hwdesc idx
        (fun d => set_hwdesc_cmd (Z.lor (hwdesc_cmd d) JZ_LCD_CMD_EOF_IRQ) d) ;;
      if drm_atomic_crtc_needs_modeset crtc_state
      then ingenic_drm_plane_config plane state (fb_format fb)
      else ret tt
    | None => ret tt
    end
  | None => ret tt
  end.

(** irqreturn_t. *)
Inductive irqreturn_t := IRQ_NONE | IRQ_HANDLED | IRQ_WAKE_THREAD.

Definition ingenic_drm_irq_handler : drv irqreturn_t :=
  state <- regmap_read JZ_REG_LCD_STATE ;;
  regmap_update_bits JZ_REG_LCD_STATE JZ_LCD_STATE_EOF_IRQ 0 ;;
  (if Zneqb (Z.land state JZ_LCD_STATE_EOF_IRQ) 0
   then drm_crtc_handle_vblank ;; ret tt
   else ret tt) ;;
  ret IRQ_HANDLED.

Definition ingenic_drm_enable_vblank : drv Z :=
  regmap_update_bits JZ_REG_LCD_CTRL JZ_LCD_CTRL_EOF_IRQ JZ_LCD_CTRL_EOF_IRQ ;;
  ret 0.

Definition ingenic_drm_disable_vblank : drv unit :=
  regmap_update_bits JZ_REG_LCD_CTRL JZ_LCD_CTRL_EOF_IRQ 0 ;;
  ret tt.

(** The part of [ingenic_drm_bind] that sets up the descriptors, on its
    successful path: [dma_alloc_coherent] hands out two zeroed
    descriptors at the bus addresses [phys0] and [phys1], each is chained
    to itself (the [u32] word [next] takes the address) and tagged, and
    the addresses go to DA0 and DA1, as the [unsigned int] argument of
    [regmap_write]; OSD is switched on where there is one. [ipu] is what
    [drm_plane_from_index] finds. *)
Definition ingenic_drm_bind (soc : jz_soc_info) (ipu : option plane_id)
    (phys0 phys1 : Z) : ingenic_drm :=
  let priv :=
    {| soc_info := soc;
       ipu_plane := if has_osd soc then ipu else None;
       lcd_regs := ∅;
       pix_clk := 0;
       dma_hwdesc :=
         [ {| hwdesc_next := u32 phys0; hwdesc_addr := 0;
              hwdesc_id := 0xdeafbead; hwdesc_cmd := 0 |};
           {| hwdesc_next := u32 phys1; hwdesc_addr := 0;
              hwdesc_id := 0xdeadbabe; hwdesc_cmd := 0 |} ];
       dma_hwdesc_phys := [phys0; phys1];
       panel_is_sharp := false;
       vblank := {| vbl_enabled := false; vbl_refcount := 0; vbl_count := 0;
                    vbl_armed := []; vbl_sent := [] |};
       ktime := 0;
       calls := [] |} in
  exec (regmap_write JZ_REG_LCD_DA0 (u32 phys0) ;;
        regmap_write JZ_REG_LCD_DA1 (u32 phys1) ;;
        if has_osd soc
        then regmap_write JZ_REG_LCD_OSDC JZ_LCD_OSDC_OSDEN ;; ret tt
        else ret tt) priv.

End Driver.

(** ** The encoder, and the loops of probe and bind *)

(** The constants the encoder code takes from headers that are not part
    of the sources: the CFG register and its bits (ingenic-drm.h), the bus
    flags and mode flags and the TV connector type of DRM, and the media
    bus formats. They are parameters, like those of [ingenic_drm_h]. *)
Class ingenic_drm_cfg_h := {
  JZ_REG_LCD_CFG : Z;
  JZ_LCD_CFG_PS_DISABLE : Z; JZ_LCD_CFG_CLS_DISABLE : Z;
  JZ_LCD_CFG_SPL_DISABLE : Z; JZ_LCD_CFG_REV_DISABLE : Z;
  JZ_LCD_CFG_HSYNC_ACTIVE_LOW : Z; JZ_LCD_CFG_VSYNC_ACTIVE_LOW : Z;
  JZ_LCD_CFG_DE_ACTIVE_LOW : Z; JZ_LCD_CFG_PCLK_FALLING_EDGE : Z;
  JZ_LCD_CFG_REV_POLARITY : Z;
  JZ_LCD_CFG_MODE_GENERIC_16BIT : Z; JZ_LCD_CFG_MODE_GENERIC_18BIT : Z;
  JZ_LCD_CFG_MODE_GENERIC_24BIT : Z; JZ_LCD_CFG_MODE_SPECIAL_TFT_1 : Z;
  JZ_LCD_CFG_MODE_TV_OUT_P : Z; JZ_LCD_CFG_MODE_TV_OUT_I : Z;
  JZ_LCD_CFG_MODE_8BIT_SERIAL : Z;
  DRM_BUS_FLAG_SHARP_SIGNALS : Z; DRM_BUS_FLAG_DE_LOW : Z;
  DRM_BUS_FLAG_PIXDATA_NEGEDGE : Z;
  DRM_MODE_FLAG_NHSYNC : Z; DRM_MODE_FLAG_NVSYNC : Z;
  DRM_MODE_FLAG_INTERLACE : Z;
  DRM_MODE_CONNECTOR_TV : Z;
  MEDIA_BUS_FMT_RGB565_1X16 : Z; MEDIA_BUS_FMT_RGB666_1X18 : Z;
  MEDIA_BUS_FMT_RGB888_1X24 : Z; MEDIA_BUS_FMT_RGB888_3X8 : Z
}.

(** struct drm_display_info, as the encoder reads it: [bus_format0] is
    [*info->bus_formats], the first entry of the array of formats. *)
Record drm_display_info := {
  bus_flags : Z;
  bus_format0 : Z;
  num_bus_formats : Z
}.

(** struct drm_connector, the two fields the encoder reads. *)
Record drm_connector := {
  connector_type : Z;
  display_info : drm_display_info
}.

Definition with_panel_is_sharp (b : bool) (s : ingenic_drm) : ingenic_drm :=
  {| soc_info := soc_info s; ipu_plane := ipu_plane s;
     lcd_regs := lcd_regs s;
     pix_clk := pix_clk s; dma_hwdesc := dma_hwdesc s;
     dma_hwdesc_phys := dma_hwdesc_phys s;
     panel_is_sharp := b; vblank := vblank s;
     ktime := ktime s; calls := calls s |}.

(** [x & flag] as a truth value. *)
Definition has_flag (x flag : Z) : bool := Zneqb (Z.land x flag) 0.

Section Encoder.

Context {hdr : ingenic_drm_h} {cfgh : ingenic_drm_cfg_h}.

Local Open Scope drv_scope.

(** The value [ingenic_drm_encoder_atomic_mode_set] builds in [cfg]:
    [sharp] is [priv->panel_is_sharp] as just assigned, [mode] the
    adjusted mode, [plane_state] is [crtc_state->crtc->primary->state]. *)
Definition ingenic_drm_encoder_cfg (sharp : bool) (mode : drm_display_mode)
    (conn : drm_connector) (plane_state : option drm_plane_state) : Z :=
  let info := display_info conn in
  let cfg :=
    if sharp
    then Z.lor JZ_LCD_CFG_MODE_SPECIAL_TFT_1 JZ_LCD_CFG_REV_POLARITY
    else Z.lor (Z.lor (Z.lor JZ_LCD_CFG_PS_DISABLE JZ_LCD_CFG_CLS_DISABLE)
                  JZ_LCD_CFG_SPL_DISABLE) JZ_LCD_CFG_REV_DISABLE in
  let cfg := if has_flag (flags mode) DRM_MODE_FLAG_NHSYNC
             then Z.lor cfg JZ_LCD_CFG_HSYNC_ACTIVE_LOW else cfg in
  let cfg := if has_flag (flags mode) DRM_MODE_FLAG_NVSYNC
             then Z.lor cfg JZ_LCD_CFG_VSYNC_ACTIVE_LOW else cfg in
  let cfg := if has_flag (bus_flags info) DRM_BUS_FLAG_DE_LOW
             then Z.lor cfg JZ_LCD_CFG_DE_ACTIVE_LOW else cfg in
  let cfg := if has_flag (bus_flags info) DRM_BUS_FLAG_PIXDATA_NEGEDGE
             then Z.lor cfg JZ_LCD_CFG_PCLK_FALLING_EDGE else cfg in
  if negb sharp then
    if connector_type conn =? DRM_MODE_CONNECTOR_TV then
      if has_flag (flags mode) DRM_MODE_FLAG_INTERLACE
      then Z.lor cfg JZ_LCD_CFG_MODE_TV_OUT_I
      else Z.lor cfg JZ_LCD_CFG_MODE_TV_OUT_P
    else if bus_format0 info =? MEDIA_BUS_FMT_RGB565_1X16
    then Z.lor cfg JZ_LCD_CFG_MODE_GENERIC_16BIT
    else if bus_format0 info =? MEDIA_BUS_FMT_RGB666_1X18
    then Z.lor cfg JZ_LCD_CFG_MODE_GENERIC_18BIT
    else if bus_format0 info =? MEDIA_BUS_FMT_RGB888_1X24
    then
      let finfo := match plane_state with
                   | Some ps => ps_fb ps
                   | None => None
                   end in
      match finfo with
      | Some fb =>
        if fb_cpp0 fb <? 3
        then Z.lor cfg JZ_LCD_CFG_MODE_GENERIC_18BIT
        else Z.lor cfg JZ_LCD_CFG_MODE_GENERIC_24BIT
      | None => Z.lor cfg JZ_LCD_CFG_MODE_GENERIC_24BIT
      end
    else if bus_format0 info =? MEDIA_BUS_FMT_RGB888_3X8
    then Z.lor cfg JZ_LCD_CFG_MODE_8BIT_SERIAL
    else cfg
  else cfg.

Definition ingenic_drm_encoder_atomic_mode_set (crtc_state : drm_crtc_state)
    (conn : drm_connector) (plane_state : option drm_plane_state)
    : drv unit :=
  let sharp := has_flag (bus_flags (display_info conn))
                 DRM_BUS_FLAG_SHARP_SIGNALS in
  (fun s => (tt, with_panel_is_sharp sharp s)) ;;
  regmap_write JZ_REG_LCD_CFG
    (ingenic_drm_encoder_cfg sharp (adjusted_mode crtc_state) conn
       plane_state) ;;
  ret tt.

Definition ingenic_drm_encoder_atomic_check (conn : drm_connector) : Z :=
  let info := display_info conn in
  if Zneqb (num_bus_formats info) 1 then - EINVAL
  else if connector_type conn =? DRM_MODE_CONNECTOR_TV then 0
  else if (bus_format0 info =? MEDIA_BUS_FMT_RGB565_1X16)
          || (bus_format0 info =? MEDIA_BUS_FMT_RGB666_1X18)
          || (bus_format0 info =? MEDIA_BUS_FMT_RGB888_1X24)
          || (bus_format0 info =? MEDIA_BUS_FMT_RGB888_3X8)
  then 0 else - EINVAL.

(** The generic part of the configuration word: the panel signals and the
    polarities, before a mode is chosen. *)
Definition encoder_cfg_base (sharp : bool) (mode : drm_display_mode)
    (info : drm_display_info) : Z :=
  let cfg :=
    if sharp
    then Z.lor JZ_LCD_CFG_MODE_SPECIAL_TFT_1 JZ_LCD_CFG_REV_POLARITY
    else Z.lor (Z.lor (Z.lor JZ_LCD_CFG_PS_DISABLE JZ_LCD_CFG_CLS_DISABLE)
                  JZ_LCD_CFG_SPL_DISABLE) JZ_LCD_CFG_REV_DISABLE in
  let cfg := if has_flag (flags mode) DRM_MODE_FLAG_NHSYNC
             then Z.lor cfg JZ_LCD_CFG_HSYNC_ACTIVE_LOW else cfg in
  let cfg := if has_flag (flags mode) DRM_MODE_FLAG_NVSYNC
             then Z.lor cfg JZ_LCD_CFG_VSYNC_ACTIVE_LOW else cfg in
  let cfg := if has_flag (bus_flags info) DRM_BUS_FLAG_DE_LOW
             then Z.lor cfg JZ_LCD_CFG_DE_ACTIVE_LOW else cfg in
  if has_flag (bus_flags info) DRM_BUS_FLAG_PIXDATA_NEGEDGE
  then Z.lor cfg JZ_LCD_CFG_PCLK_FALLING_EDGE else cfg.

(** The mode the mode set chooses for a panel without sharp signals: the
    branch for a TV connector and the cases of the
    [switch] on [*info->bus_formats], each with the constant it or-s into
    [cfg]; [None] is the [default] case, which or-s nothing. *)
Definition encoder_mode_choice (mode : drm_display_mode)
    (conn : drm_connector) (plane_state : option drm_plane_state)
    : option Z :=
  let info := display_info conn in
  if connector_type conn =? DRM_MODE_CONNECTOR_TV then
    Some (if has_flag (flags mode) DRM_MODE_FLAG_INTERLACE
          then JZ_LCD_CFG_MODE_TV_OUT_I else JZ_LCD_CFG_MODE_TV_OUT_P)
  else if bus_format0 info =? MEDIA_BUS_FMT_RGB565_1X16
  then Some JZ_LCD_CFG_MODE_GENERIC_16BIT
  else if bus_format0 info =? MEDIA_BUS_FMT_RGB666_1X18
  then Some JZ_LCD_CFG_MODE_GENERIC_18BIT
  else if bus_format0 info =? MEDIA_BUS_FMT_RGB888_1X24
  then
    match match plane_state with Some ps => ps_fb ps | None => None end with
    | Some fb =>
      Some (if fb_cpp0 fb <? 3
            then JZ_LCD_CFG_MODE_GENERIC_18BIT
            else JZ_LCD_CFG_MODE_GENERIC_24BIT)
    | None => Some JZ_LCD_CFG_MODE_GENERIC_24BIT
    end
  else if bus_format0 info =? MEDIA_BUS_FMT_RGB888_3X8
  then Some JZ_LCD_CFG_MODE_8BIT_SERIAL
  else None.

End Encoder.

(** The two loops over the encoders at the end of [ingenic_drm_bind]:
    [indices] are the encoders' [drm_encoder_index], in list order; the
    first loop gathers [clone_mask |= BIT(index)] in an [unsigned int], the
    second gives every encoder that mask as its [possible_clones]. *)
Definition ingenic_drm_clone_mask (indices : list Z) : Z :=
  fold_left (fun clone_mask idx => u32 (Z.lor clone_mask (Z.shiftl 1 idx)))
    indices 0.

Definition ingenic_drm_possible_clones (indices : list Z) : list Z :=
  map (fun _ => ingenic_drm_clone_mask indices) indices.

(** The loop of [ingenic_drm_probe], "Probe components at port address 8
    and upwards": [remote i] is what [of_graph_get_remote_node] finds at
    port [i]; the loop adds a match for each node until a port has none.
    The counter is an [unsigned int]. [fuel] bounds the turns followed;
    [None] says the loop is still running. *)
Fixpoint ingenic_drm_probe_loop {node : Type} (fuel : nat) (i : Z)
    (remote : Z -> option node) (matches : list node) : option (list node) :=
  match fuel with
  | O => None
  | S fuel' =>
    match remote i with
    | None => Some matches
    | Some np =>
      ingenic_drm_probe_loop fuel' (u32 (i + 1)) remote (matches ++ [np])
    end
  end.

Definition ingenic_drm_probe {node : Type} (fuel : nat)
    (remote : Z -> option node) : option (list node) :=
  ingenic_drm_probe_loop fuel 8 remote [].

(** ** Instances for the examples *)

(** One assignment of the header's constants: the register layout of the
    LCD controller of the JZ47xx family, the fourcc codes of
    drm_fourcc.h, and the errno of the MIPS port. *)
Definition jz47xx_h : ingenic_drm_h :=
  {| JZ_REG_LCD_VSYNC := 0x04; JZ_REG_LCD_HSYNC := 0x08;
     JZ_REG_LCD_VAT := 0x0c; JZ_REG_LCD_DAH := 0x10; JZ_REG_LCD_DAV := 0x14;
     JZ_REG_LCD_PS := 0x18; JZ_REG_LCD_CLS := 0x1c; JZ_REG_LCD_SPL := 0x20;
     JZ_REG_LCD_REV := 0x24;
     JZ_REG_LCD_CTRL := 0x30; JZ_REG_LCD_STATE := 0x34;
     JZ_REG_LCD_IID := 0x38;
     JZ_REG_LCD_DA0 := 0x40; JZ_REG_LCD_SA0 := 0x44;
     JZ_REG_LCD_FID0 := 0x48; JZ_REG_LCD_CMD0 := 0x4c;
     JZ_REG_LCD_DA1 := 0x50; JZ_REG_LCD_SA1 := 0x54;
     JZ_REG_LCD_FID1 := 0x58; JZ_REG_LCD_CMD1 := 0x5c;
     JZ_REG_LCD_OSDC := 0x100; JZ_REG_LCD_OSDCTRL := 0x104;
     JZ_REG_LCD_IPUR := 0x11c;
     JZ_REG_LCD_XYP0 := 0x120; JZ_REG_LCD_XYP1 := 0x124;
     JZ_REG_LCD_SIZE0 := 0x128; JZ_REG_LCD_SIZE1 := 0x12c;
     JZ_LCD_VSYNC_VPS_OFFSET := 16; JZ_LCD_VSYNC_VPE_OFFSET := 0;
     JZ_LCD_HSYNC_HPS_OFFSET := 16; JZ_LCD_HSYNC_HPE_OFFSET := 0;
     JZ_LCD_VAT_HT_OFFSET := 16; JZ_LCD_VAT_VT_OFFSET := 0;
     JZ_LCD_DAH_HDS_OFFSET := 16; JZ_LCD_DAH_HDE_OFFSET := 0;
     JZ_LCD_DAV_VDS_OFFSET := 16; JZ_LCD_DAV_VDE_OFFSET := 0;
     JZ_LCD_CTRL_BURST_16 := 0x20000000; JZ_LCD_CTRL_RGB555 := 0x8000000;
     JZ_LCD_CTRL_OFUP := 0x4000000;
     JZ_LCD_CTRL_EOF_IRQ := 0x2000; JZ_LCD_CTRL_DISABLE := 0x10;
     JZ_LCD_CTRL_ENABLE := 0x8;
     JZ_LCD_CTRL_BPP_15_16 := 4; JZ_LCD_CTRL_BPP_18_24 := 5;
     JZ_LCD_CTRL_BPP_MASK := 0x8000007;
     JZ_LCD_CMD_EOF_IRQ := 0x40000000;
     JZ_LCD_STATE_EOF_IRQ := 0x20; JZ_LCD_STATE_DISABLED := 0x1;
     JZ_LCD_OSDC_OSDEN := 0x1; JZ_LCD_OSDC_F0EN := 0x8;
     JZ_LCD_OSDC_F1EN := 0x10;
     JZ_LCD_OSDCTRL_IPU := 0x8000; JZ_LCD_OSDCTRL_RGB555 := 0x10;
     JZ_LCD_OSDCTRL_BPP_15_16 := 4; JZ_LCD_OSDCTRL_BPP_18_24 := 5;
     JZ_LCD_OSDCTRL_BPP_MASK := 0x17;
     JZ_LCD_IPUR_IPUREN := 0x80000000; JZ_LCD_IPUR_IPUR_LSB := 0;
     JZ_LCD_XYP01_XPOS_LSB := 0; JZ_LCD_XYP01_YPOS_LSB := 16;
     JZ_LCD_SIZE01_WIDTH_LSB := 0; JZ_LCD_SIZE01_HEIGHT_LSB := 16;
     DRM_FORMAT_XRGB1555 := 0x35315258; DRM_FORMAT_RGB565 := 0x36314752;
     DRM_FORMAT_XRGB8888 := 0x34325258;
     DRM_PLANE_HELPER_NO_SCALING := 0x10000;
     ETIMEDOUT := 145 |}.

(** A device as [ingenic_drm_bind] leaves it, on a JZ4770 with the IPU
    plane and on a JZ4740. *)
Definition priv_jz4770 : ingenic_drm :=
  ingenic_drm_bind (hdr := jz47xx_h) jz4770_soc_info (Some IPU)
    0x0f000000 0x0f000010.

Definition priv_jz4740 : ingenic_drm :=
  ingenic_drm_bind (hdr := jz47xx_h) jz4740_soc_info None
    0x0f000000 0x0f000010.

(** A 640x480 RGB565 framebuffer and a taller one for panning. *)
Definition fb_vga : drm_framebuffer :=
  {| fb_id := 1; fb_format := 0x36314752; fb_cpp0 := 2 |}.

Definition fb_vga_tall : drm_framebuffer :=
  {| fb_id := 2; fb_format := 0x36314752; fb_cpp0 := 2 |}.

(** A plane that shows [fb] full screen at 640x480, read from line
    [yoff] of the buffer on (16.16 fixed point). *)
Definition plane_state_vga (fb : drm_framebuffer) (yoff : Z)
    : drm_plane_state :=
  {| ps_crtc := Some the_crtc; ps_fb := Some fb;
     crtc_x := 0; crtc_y := 0; crtc_w := 640; crtc_h := 480;
     src_x := 0; src_y := yoff * 65536;
     src_w := 640 * 65536; src_h := 480 * 65536 |}.

(** A plane that is off. *)
Definition plane_state_off : drm_plane_state :=
  {| ps_crtc := None; ps_fb := None;
     crtc_x := 0; crtc_y := 0; crtc_w := 0; crtc_h := 0;
     src_x := 0; src_y := 0; src_w := 0; src_h := 0 |}.

(** A CRTC state for mode [m]; [ms] says whether the mode changes, [e] is
    the notification asked for. *)
Definition crtc_state_of (m : drm_display_mode) (ms : bool)
    (e : option drm_pending_vblank_event) : drm_crtc_state :=
  {| mode_changed := ms; active_changed := false;
     connectors_changed := false; no_vblank := false;
     mode := m; adjusted_mode := m; event := e |}.

(** A mode whose vertical sync pulse ends before it starts. *)
Definition mode_bad_vsync : drm_display_mode :=
  {| clock := 25175;
     hdisplay := 640; hsync_start := 656; hsync_end := 752; htotal := 800;
     vdisplay := 480; vsync_start := 492; vsync_end := 490; vtotal := 525;
     flags := 0 |}.

(** A controller that never reports that it is disabled: its registers
    stay as they are. *)
Definition lcd_hw_stuck : gmap Z Z -> gmap Z Z := fun regs => regs.

(** A controller that obeys: once the DISABLE bit of CTRL is set, its
    next step sets the DISABLED bit of STATE. *)
Definition lcd_hw_obeys : gmap Z Z -> gmap Z Z :=
  fun regs =>
    if Zneqb (Z.land (default 0 (regs !! 0x30)) 0x10) 0
    then <[0x34 := Z.lor (default 0 (regs !! 0x34)) 0x1]> regs
    else regs.

(** The JZ4770 after [ingenic_drm_crtc_atomic_enable]. *)
Definition priv_jz4770_enabled : ingenic_drm :=
  exec (ingenic_drm_crtc_atomic_enable (hdr := jz47xx_h)) priv_jz4770.

(** The primary plane f1 showing [fb_vga] full screen. *)
Definition plane_f1_vga : drm_plane :=
  {| plane_type := DRM_PLANE_TYPE_PRIMARY;
     plane_state := Some (plane_state_vga fb_vga 0) |}.

(** The overlay plane f0 showing [fb_vga_tall] full screen. *)
Definition plane_f0_vga : drm_plane :=
  {| plane_type := DRM_PLANE_TYPE_OVERLAY;
     plane_state := Some (plane_state_vga fb_vga_tall 0) |}.

(** A buffer provider for the examples: the buffer of a framebuffer
    starts at 16 MiB times its id, and the plane reads from the line its
    source offset says, 1280 bytes a line. *)
Definition gem_addr_example (fb : drm_framebuffer) (state : drm_plane_state)
    (plane : Z) : Z :=
  fb_id fb * 0x01000000 + Z.shiftr (src_y state) 16 * 1280.

(** One assignment of the encoder's constants, for the examples. *)
Definition jz47xx_cfg_h : ingenic_drm_cfg_h :=
  {| JZ_REG_LCD_CFG := 0x00;
     JZ_LCD_CFG_PS_DISABLE := 0x800000; JZ_LCD_CFG_CLS_DISABLE := 0x400000;
     JZ_LCD_CFG_SPL_DISABLE := 0x200000; JZ_LCD_CFG_REV_DISABLE := 0x100000;
     JZ_LCD_CFG_HSYNC_ACTIVE_LOW := 0x800; JZ_LCD_CFG_VSYNC_ACTIVE_LOW := 0x100;
     JZ_LCD_CFG_DE_ACTIVE_LOW := 0x200; JZ_LCD_CFG_PCLK_FALLING_EDGE := 0x400;
     JZ_LCD_CFG_REV_POLARITY := 0x10000;
     JZ_LCD_CFG_MODE_GENERIC_16BIT := 0; JZ_LCD_CFG_MODE_GENERIC_18BIT := 0x80;
     JZ_LCD_CFG_MODE_GENERIC_24BIT := 0x40;
     JZ_LCD_CFG_MODE_SPECIAL_TFT_1 := 1;
     JZ_LCD_CFG_MODE_TV_OUT_P := 4; JZ_LCD_CFG_MODE_TV_OUT_I := 6;
     JZ_LCD_CFG_MODE_8BIT_SERIAL := 12;
     DRM_BUS_FLAG_SHARP_SIGNALS := 0x100; DRM_BUS_FLAG_DE_LOW := 0x1;
     DRM_BUS_FLAG_PIXDATA_NEGEDGE := 0x8;
     DRM_MODE_FLAG_NHSYNC := 0x2; DRM_MODE_FLAG_NVSYNC := 0x8;
     DRM_MODE_FLAG_INTERLACE := 0x10;
     DRM_MODE_CONNECTOR_TV := 13;
     MEDIA_BUS_FMT_RGB565_1X16 := 0x1017; MEDIA_BUS_FMT_RGB666_1X18 := 0x1009;
     MEDIA_BUS_FMT_RGB888_1X24 := 0x100a; MEDIA_BUS_FMT_RGB888_3X8 := 0x101c |}.

(** A DPI panel with a 24-bit bus, and one with sharp signals. *)
Definition conn_panel_24bit : drm_connector :=
  {| connector_type := 17;
     display_info := {| bus_flags := 0; bus_format0 := 0x100a;
                        num_bus_formats := 1 |} |}.

Definition conn_panel_sharp : drm_connector :=
  {| connector_type := 17;
     display_info := {| bus_flags := 0x100; bus_format0 := 0x1017;
                        num_bus_formats := 1 |} |}.

(** A panel that announces one bus format the controller cannot drive
    (MEDIA_BUS_FMT_RGB444_1X12). *)
Definition conn_panel_rgb444 : drm_connector :=
  {| connector_type := 17;
     display_info := {| bus_flags := 0; bus_format0 := 0x1016;
                        num_bus_formats := 1 |} |}.

(** An ordered mode whose horizontal total does not fit 16 bits, and a
    plane placed partly off screen, 16 pixels to the left and 8 lines
    above the origin. *)
Definition mode_wide_total : drm_display_mode :=
  {| clock := 25175;
     hdisplay := 640; hsync_start := 656; hsync_end := 752; htotal := 70000;
     vdisplay := 480; vsync_start := 490; vsync_end := 492; vtotal := 525;
     flags := 0 |}.

Definition plane_state_offscreen : drm_plane_state :=
  {| ps_crtc := Some the_crtc; ps_fb := Some fb_vga;
     crtc_x := -16; crtc_y := -8; crtc_w := 640; crtc_h := 480;
     src_x := 0; src_y := 0;
     src_w := 640 * 65536; src_h := 480 * 65536 |}.

(** ** Statements of the specification, for comparison with the code *)

(** The classification in the words of the specification (4.2): a plane
    goes from no buffer to a buffer, from a buffer to none, or changes
    position, size or format while it has one. *)
Definition spec_plane_needs_modeset (old state : drm_plane_state) : bool :=
  match ps_fb old, ps_fb state with
  | None, None => false
  | None, Some _ => true
  | Some _, None => true
  | Some o, Some n =>
    Zneqb (crtc_x old) (crtc_x state) || Zneqb (crtc_y old) (crtc_y state)
    || Zneqb (crtc_w old) (crtc_w state) || Zneqb (crtc_h old) (crtc_h state)
    || Zneqb (fb_format o) (fb_format n)
  end.

(** No plane of the transaction ends with a buffer, as the commit check
    tests it. *)
Definition planes_all_off (priv : ingenic_drm) (st : drm_atomic_state)
    : bool :=
  negb (non_null (ps_fb (drm_atomic_get_plane_state st F1)))
  && negb (non_null (ps_fb (drm_atomic_get_plane_state st F0)))
  && negb (ipu_fb_live priv st).

(** A transaction whose three planes all show [fb_vga], and one where only
    the overlay f0 and the IPU plane do. *)
Definition planes_all_live : drm_atomic_state :=
  fun _ => plane_state_vga fb_vga 0.

Definition planes_f0_ipu_live : drm_atomic_state :=
  fun p => match p with
           | F1 => plane_state_off
           | _ => plane_state_vga fb_vga 0
           end.

Definition planes_none_live : drm_atomic_state := fun _ => plane_state_off.

Definition planes_f1_live : drm_atomic_state :=
  fun p => match p with
           | F1 => plane_state_vga fb_vga 0
           | _ => plane_state_off
           end.

Section Expected.

Context {hdr : ingenic_drm_h}.

(** The calls [ingenic_drm_crtc_update_timings] is expected to make for
    a mode, on a panel with sharp signals or without; every value is an
    [unsigned int]. *)
Definition timing_calls (m : drm_display_mode) (sharp : bool) : list call :=
  let t := ingenic_drm_timings m in
  [ CallRegmapWrite JZ_REG_LCD_VSYNC
      (Z.lor (shl32 0 JZ_LCD_VSYNC_VPS_OFFSET)
             (shl32 (vpe t) JZ_LCD_VSYNC_VPE_OFFSET));
    CallRegmapWrite JZ_REG_LCD_HSYNC
      (Z.lor (shl32 0 JZ_LCD_HSYNC_HPS_OFFSET)
             (shl32 (hpe t) JZ_LCD_HSYNC_HPE_OFFSET));
    CallRegmapWrite JZ_REG_LCD_VAT
      (Z.lor (shl32 (ht t) JZ_LCD_VAT_HT_OFFSET)
             (shl32 (vt t) JZ_LCD_VAT_VT_OFFSET));
    CallRegmapWrite JZ_REG_LCD_DAH
      (Z.lor (shl32 (hds t) JZ_LCD_DAH_HDS_OFFSET)
             (shl32 (hde t) JZ_LCD_DAH_HDE_OFFSET));
    CallRegmapWrite JZ_REG_LCD_DAV
      (Z.lor (shl32 (vds t) JZ_LCD_DAV_VDS_OFFSET)
             (shl32 (vde t) JZ_LCD_DAV_VDE_OFFSET)) ]
  ++ (if sharp then
        [ CallRegmapWrite JZ_REG_LCD_PS
            (Z.lor (shl32 (hde t) 16) (u32 (hde t + 1)));
          CallRegmapWrite JZ_REG_LCD_CLS
            (Z.lor (shl32 (hde t) 16) (u32 (hde t + 1)));
          CallRegmapWrite JZ_REG_LCD_SPL
            (Z.lor (shl32 (hpe t) 16) (u32 (hpe t + 1)));
          CallRegmapWrite JZ_REG_LCD_REV (shl32 (htotal m) 16) ]
      else [])
  ++ [ CallRegmapUpdateBits JZ_REG_LCD_CTRL
         (Z.lor JZ_LCD_CTRL_OFUP JZ_LCD_CTRL_BURST_16)
         (Z.lor JZ_LCD_CTRL_OFUP JZ_LCD_CTRL_BURST_16);
       CallRegmapWrite JZ_REG_LCD_IPUR
         (Z.lor JZ_LCD_IPUR_IPUREN
            (shl32 (u32 (ht t * vpe t) / 3) JZ_LCD_IPUR_IPUR_LSB)) ].

(** The end of a frame as the controller signals it: the end-of-frame bit
    of STATE goes up. *)
Definition lcd_raise_eof (s : ingenic_drm) : ingenic_drm :=
  with_regs (<[JZ_REG_LCD_STATE :=
                 Z.lor (reg_get (lcd_regs s) JZ_REG_LCD_STATE)
                       JZ_LCD_STATE_EOF_IRQ]> (lcd_regs s)) s.

(** The registers the timing translator programs, and those the
    configuration of a plane may program: the enable bit, the pixel
    format, and the position and size registers of that plane alone. *)
Definition timing_regs : list Z :=
  [ JZ_REG_LCD_VSYNC; JZ_REG_LCD_HSYNC; JZ_REG_LCD_VAT; JZ_REG_LCD_DAH;
    JZ_REG_LCD_DAV; JZ_REG_LCD_PS; JZ_REG_LCD_CLS; JZ_REG_LCD_SPL;
    JZ_REG_LCD_REV; JZ_REG_LCD_CTRL; JZ_REG_LCD_IPUR ].

Definition plane_regs (plane : drm_plane) : list Z :=
  if is_primary (plane_type plane)
  then [ JZ_REG_LCD_OSDC; JZ_REG_LCD_OSDCTRL; JZ_REG_LCD_CTRL;
         JZ_REG_LCD_XYP1; JZ_REG_LCD_SIZE1 ]
  else [ JZ_REG_LCD_OSDC; JZ_REG_LCD_CTRL;
         JZ_REG_LCD_XYP0; JZ_REG_LCD_SIZE0 ].

End Expected.

(** The register a call on the register interface writes to, if it is a
    writing call. *)
Definition call_written_reg (c : call) : option Z :=
  match c with
  | CallRegmapWrite reg _ => Some reg
  | CallRegmapUpdateBits reg _ _ => Some reg
  | _ => None
  end.

Definition aimed_within (regs : list Z) (c : call) : Prop :=
  match call_written_reg c with
  | Some reg => In reg regs
  | None => True
  end.

(** A computation writes within [regs] when every writing call it makes
    on the register interface is aimed at one of [regs], and every
    register outside [regs] holds afterwards what it held before. *)
Definition writes_within {A : Type} (regs : list Z) (c : drv A) : Prop :=
  forall s,
    (exists l, calls (exec c s) = calls s ++ l /\
               Forall (aimed_within regs) l) /\
    (forall reg,
       ~ In reg regs -> lcd_regs (exec c s) !! reg = lcd_regs s !! reg).

(** The calls the flush is expected to make for a notification: taken
    under the event lock, armed when a vertical-blank reference could be
    had ([enabled]) and sent at once when not. *)
Definition event_calls (e : option drm_pending_vblank_event) (enabled : bool)
    : list call :=
  match e with
  | None => []
  | Some ev =>
    [ CallSpinLockIrq; CallVblankGet;
      if enabled then CallArmVblankEvent ev else CallSendVblankEvent ev;
      CallSpinUnlockIrq ]
  end.

(** The descriptor chain as [ingenic_drm_bind] builds it: each descriptor
    points to itself, and the tags are the two constants of the source. *)
Definition hwdesc_wf (priv : ingenic_drm) : Prop :=
  map hwdesc_next (dma_hwdesc priv) = map u32 (dma_hwdesc_phys priv) /\
  map hwdesc_id (dma_hwdesc priv) = [0xdeafbead; 0xdeadbabe].

(** * Properties *)

(** ** Machine integers *)

Lemma u32_small z : 0 <= z < 2 ^ 32 -> u32 z = z.
Proof. intros Hz. unfold u32. apply Z.mod_small. exact Hz. Qed.

Lemma u32_range z : 0 <= u32 z < 2 ^ 32.
Proof. unfold u32. apply Z.mod_pos_bound. lia. Qed.

Lemma u32_idem z : u32 (u32 z) = u32 z.
Proof. unfold u32. apply Z.mod_mod. lia. Qed.

Lemma u32_testbit z i : 0 <= i < 32 -> Z.testbit (u32 z) i = Z.testbit z i.
Proof.
  intros Hi. unfold u32. rewrite Z.mod_pow2_bits_low by lia. reflexivity.
Qed.

(** ** Timing translator *)

Example timings_vga :
  ingenic_drm_timings mode_vga =
  {| vpe := 2; vds := 35; vde := 515; vt := 525;
     hpe := 96; hds := 144; hde := 784; ht := 800 |}.
Proof. reflexivity. Qed.

(** On an ordered mode no assignment wraps: the locals are the integers
    of the formulas, and the total is the mode's total. *)
Lemma timings_exact m :
  mode_timings_ordered m ->
  ingenic_drm_timings m =
  {| vpe := vsync_end m - vsync_start m;
     vds := vtotal m - vsync_start m;
     vde := vtotal m - vsync_start m + vdisplay m;
     vt := vtotal m;
     hpe := hsync_end m - hsync_start m;
     hds := htotal m - hsync_start m;
     hde := htotal m - hsync_start m + hdisplay m;
     ht := htotal m |}.
Proof.
  intros [Hh Hv]. unfold ingenic_drm_timings.
  rewrite (u32_small (vsync_end m - vsync_start m)) by lia.
  rewrite (u32_small (vtotal m - vsync_start m)) by lia.
  rewrite (u32_small (vtotal m - vsync_start m + vdisplay m)) by lia.
  rewrite (u32_small (hsync_end m - hsync_start m)) by lia.
  rewrite (u32_small (htotal m - hsync_start m)) by lia.
  rewrite (u32_small (htotal m - hsync_start m + hdisplay m)) by lia.
  replace (vtotal m - vsync_start m + vdisplay m + vsync_start m - vdisplay m)
    with (vtotal m) by lia.
  replace (htotal m - hsync_start m + hdisplay m + hsync_start m - hdisplay m)
    with (htotal m) by lia.
  rewrite (u32_small (vtotal m)) by lia.
  rewrite (u32_small (htotal m)) by lia.
  reflexivity.
Qed.

(** C1, as amended: for every mode whose timing fields are ordered
    (0 < display <= sync start <= sync end <= total, as [int]), the derived
    fields satisfy total >= data end > data start >= 0 in both directions,
    and the total is strictly above the data end exactly when the front
    porch is not empty (sync start > display). *)
Theorem timings_ordering (m : drm_display_mode) :
  mode_timings_ordered m ->
  let t := ingenic_drm_timings m in
  (0 <= vds t /\ vds t < vde t /\ vde t <= vt t /\
   (vde t < vt t <-> vdisplay m < vsync_start m)) /\
  (0 <= hds t /\ hds t < hde t /\ hde t <= ht t /\
   (hde t < ht t <-> hdisplay m < hsync_start m)).
Proof.
  intros Hm. rewrite (timings_exact m Hm). destruct Hm as [Hh Hv].
  cbn. split; repeat split; lia.
Qed.

Lemma timings_ordering_witness :
  mode_timings_ordered mode_vga /\
  let t := ingenic_drm_timings mode_vga in
  (0 <= vds t /\ vds t < vde t /\ vde t <= vt t /\
   (vde t < vt t <-> vdisplay mode_vga < vsync_start mode_vga)) /\
  (0 <= hds t /\ hds t < hde t /\ hde t <= ht t /\
   (hde t < ht t <-> hdisplay mode_vga < hsync_start mode_vga)).
Proof.
  assert (Hm : mode_timings_ordered mode_vga).
  { unfold mode_timings_ordered, mode_vga; cbn; lia. }
  split; [exact Hm | exact (timings_ordering mode_vga Hm)].
Defined.


(** The zero-front-porch mode passes every test there is: its fields are
    ordered, its derived intervals are positive, the commit check of a
    JZ4770 accepts it (whatever rate the clock rounds to, unless it is an
    error), and yet the vertical total equals the data end. *)
Lemma timings_total_equals_data_end :
  mode_timings_ordered mode_vga_no_vfp /\
  derived_intervals_positive mode_vga_no_vfp /\
  fst (ingenic_drm_crtc_atomic_check (fun rate => rate) priv_jz4770
         (crtc_state_of mode_vga_no_vfp true None) planes_f1_live) = 0 /\
  vt (ingenic_drm_timings mode_vga_no_vfp) = 525 /\
  vde (ingenic_drm_timings mode_vga_no_vfp) = 525.
Proof.
  unfold mode_timings_ordered, derived_intervals_positive, mode_vga_no_vfp.
  cbn [hdisplay hsync_start hsync_end htotal vdisplay vsync_start vsync_end
       vtotal].
  repeat split; try lia; vm_compute; reflexivity.
Qed.

(** ** Commit check and plane check *)

Section Checks.

Context {hdr : ingenic_drm_h}.
Variable clk_round_rate : Z -> Z.
Variable drm_atomic_helper_check_plane_state :
  drm_plane_state -> drm_crtc_state -> Z -> Z -> bool -> bool -> Z.

Abbreviation crtc_check := (ingenic_drm_crtc_atomic_check clk_round_rate).
Abbreviation plane_check :=
  (ingenic_drm_plane_atomic_check drm_atomic_helper_check_plane_state).

Lemma ipu_fb_live_has_plane priv st :
  ipu_fb_live priv st = true -> non_null (ipu_plane priv) = true.
Proof.
  unfold ipu_fb_live. destruct (ipu_plane priv); [reflexivity | discriminate].
Qed.

(** A transaction that needs no modeset passes the commit check
    untouched, whatever its mode and planes are. *)
Lemma crtc_check_skips_fast_update priv state st :
  drm_atomic_crtc_needs_modeset state = false ->
  crtc_check priv state st = (0, state).
Proof.
  intros Hm. unfold ingenic_drm_crtc_atomic_check. rewrite Hm. reflexivity.
Qed.

(** Whatever the commit check answers, the only thing it may change in
    the CRTC state is [no_vblank], and only when it accepts. *)
Lemma crtc_check_state priv state st :
  snd (crtc_check priv state st) = state \/
  crtc_check priv state st = (0, set_no_vblank true state).
Proof.
  unfold ingenic_drm_crtc_atomic_check.
  repeat match goal with
         | |- context [if ?b then _ else _] => destruct b
         end; cbn [fst snd]; auto.
Qed.

(** C2, as amended: for every transaction that needs a modeset on
    hardware with OSD, if the F1 plane (the driver's primary plane, the
    one the IPU plane excludes) and the IPU plane would both end with a
    buffer, the commit check returns an error and leaves the CRTC state
    as it is. *)
Theorem crtc_check_rejects_f1_with_ipu
    (priv : ingenic_drm) (state : drm_crtc_state) (st : drm_atomic_state) :
  drm_atomic_crtc_needs_modeset state = true ->
  has_osd (soc_info priv) = true ->
  non_null (ps_fb (drm_atomic_get_plane_state st F1)) = true ->
  ipu_fb_live priv st = true ->
  fst (crtc_check priv state st) < 0 /\
  snd (crtc_check priv state st) = state.
Proof.
  intros Hm Hosd Hf1 Hipu. unfold ingenic_drm_crtc_atomic_check.
  rewrite Hm, Hosd, Hf1, Hipu, (ipu_fb_live_has_plane _ _ Hipu).
  cbn [negb andb].
  destruct (_ || _); cbn [fst snd].
  { split; [unfold EINVAL; lia | reflexivity]. }
  destruct (Z.ltb_spec
              (clk_round_rate (u32 (clock (adjusted_mode state) * 1000))) 0);
    cbn [fst snd].
  - split; [assumption | reflexivity].
  - split; [unfold EINVAL; lia | reflexivity].
Qed.

(** The commit check sets [no_vblank] exactly when it reaches its plane
    test (modeset needed, OSD there, mode and clock accepted) and finds
    every plane without a buffer. *)
Lemma crtc_check_no_vblank priv state st :
  fst (crtc_check priv state st) = 0 ->
  no_vblank (snd (crtc_check priv state st)) =
  no_vblank state
  || (drm_atomic_crtc_needs_modeset state && has_osd (soc_info priv)
      && planes_all_off priv st).
Proof.
  unfold ingenic_drm_crtc_atomic_check, planes_all_off.
  destruct (drm_atomic_crtc_needs_modeset state); cbn [negb andb].
  2: { intros _. cbn [snd]. rewrite orb_false_r. reflexivity. }
  destruct (_ || _); cbn [fst snd].
  { unfold EINVAL. intros H. lia. }
  destruct (Z.ltb_spec
              (clk_round_rate (u32 (clock (adjusted_mode state) * 1000))) 0);
    cbn [fst snd].
  { intros H'. lia. }
  destruct (has_osd (soc_info priv)); cbn [andb].
  2: { intros _. cbn [snd]. rewrite orb_false_r. reflexivity. }
  destruct (non_null (ipu_plane priv)),
           (non_null (ps_fb (drm_atomic_get_plane_state st F1))),
           (non_null (ps_fb (drm_atomic_get_plane_state st F0))),
           (ipu_fb_live priv st);
    cbn [negb andb fst snd]; unfold EINVAL; intros H0;
    try lia; cbn [no_vblank set_no_vblank];
    rewrite ?orb_true_r, ?orb_false_r; reflexivity.
Qed.

(** The test of the code against the words of the specification: they
    differ on a plane that has no buffer before and none after. *)
Lemma plane_modeset_test_spec old state :
  plane_modeset_test old state =
  spec_plane_needs_modeset old state
  || (negb (non_null (ps_fb old)) && negb (non_null (ps_fb state))).
Proof.
  unfold plane_modeset_test, spec_plane_needs_modeset, fb_format_differs.
  destruct (ps_fb old), (ps_fb state); cbn [non_null negb andb orb].
  - rewrite orb_false_r. reflexivity.
  - reflexivity.
  - reflexivity.
  - reflexivity.
Qed.

(** The three ways out of the plane check for a plane on a CRTC whose
    state is in the transaction. *)
Lemma plane_check_reached priv old state cs :
  plane_crtc old state <> None ->
  plane_check priv old state (Some cs) =
  let ret := drm_atomic_helper_check_plane_state state cs
               DRM_PLANE_HELPER_NO_SCALING DRM_PLANE_HELPER_NO_SCALING
               (has_osd (soc_info priv)) true in
  if Zneqb ret 0 then (ret, Some cs)
  else if negb (has_osd (soc_info priv))
          && (Zneqb (src_x state) 0
              || Zneqb (shr32 (src_w state) 16) (crtc_w state)
              || Zneqb (shr32 (src_h state) 16) (crtc_h state))
  then (- EINVAL, Some cs)
  else if has_osd (soc_info priv) && plane_modeset_test old state
  then (0, Some (set_mode_changed true cs))
  else (0, Some cs).
Proof.
  intros Hc. unfold ingenic_drm_plane_atomic_check.
  destruct (plane_crtc old state); [reflexivity | congruence].
Qed.

(** C3, as amended: on hardware with OSD, for every plane update that
    reaches the classification (the plane is on a CRTC and the generic
    check passes), the plane check sets [mode_changed] exactly when the
    plane gains a buffer, loses it, changes position, size or format while
    it has one, or has no buffer before and after; so a plane that keeps
    its buffer, geometry and format is never classified as needing a
    modeset. On hardware without OSD the plane check never sets
    [mode_changed]. *)
Theorem plane_check_classification
    (priv : ingenic_drm) (old state : drm_plane_state)
    (cs : drm_crtc_state) :
  plane_crtc old state <> None ->
  drm_atomic_helper_check_plane_state state cs
    DRM_PLANE_HELPER_NO_SCALING DRM_PLANE_HELPER_NO_SCALING
    (has_osd (soc_info priv)) true = 0 ->
  (has_osd (soc_info priv) = true ->
   plane_check priv old state (Some cs) =
   (0, Some (if spec_plane_needs_modeset old state
                || (negb (non_null (ps_fb old))
                    && negb (non_null (ps_fb state)))
             then set_mode_changed true cs else cs))) /\
  (has_osd (soc_info priv) = false ->
   snd (plane_check priv old state (Some cs)) = Some cs).
Proof.
  intros Hc Hh. rewrite (plane_check_reached _ _ _ _ Hc).
  cbv zeta. rewrite Hh. cbn [Zneqb Z.eqb negb].
  split; intros Hosd; rewrite Hosd; cbn [negb andb].
  - rewrite <- plane_modeset_test_spec.
    destruct (plane_modeset_test old state); reflexivity.
  - destruct (_ || _); reflexivity.
Qed.

(** C7, as amended: on hardware without OSD, for a plane on a CRTC, the
    plane check rejects every update with a non-zero horizontal source
    offset [src_x] or a source size (the integer part of the 16.16 values)
    that differs from the destination size, and otherwise answers what the
    generic check answers, accepting in particular a full-screen update
    that the generic check accepts. The vertical source offset [src_y] is
    not looked at. *)
Theorem plane_check_single_plane
    (priv : ingenic_drm) (old state : drm_plane_state)
    (cs : drm_crtc_state) :
  has_osd (soc_info priv) = false ->
  plane_crtc old state <> None ->
  let r := fst (plane_check priv old state (Some cs)) in
  let h := drm_atomic_helper_check_plane_state state cs
             DRM_PLANE_HELPER_NO_SCALING DRM_PLANE_HELPER_NO_SCALING
             false true in
  (src_x state <> 0 \/ shr32 (src_w state) 16 <> crtc_w state
   \/ shr32 (src_h state) 16 <> crtc_h state -> r <> 0) /\
  (src_x state = 0 -> shr32 (src_w state) 16 = crtc_w state ->
   shr32 (src_h state) 16 = crtc_h state -> r = h).
Proof.
  intros Hosd Hc. rewrite (plane_check_reached _ _ _ _ Hc).
  cbv zeta. rewrite Hosd. cbn [negb andb]. unfold Zneqb.
  destruct (Z.eqb_spec
              (drm_atomic_helper_check_plane_state state cs
                 DRM_PLANE_HELPER_NO_SCALING DRM_PLANE_HELPER_NO_SCALING
                 false true) 0) as [Hh | Hh]; cbn [negb].
  - split.
    + intros Hbad.
      assert (Hb : negb (src_x state =? 0)
                   || negb (shr32 (src_w state) 16 =? crtc_w state)
                   || negb (shr32 (src_h state) 16 =? crtc_h state) = true).
      { destruct (Z.eqb_spec (src_x state) 0),
                 (Z.eqb_spec (shr32 (src_w state) 16) (crtc_w state)),
                 (Z.eqb_spec (shr32 (src_h state) 16) (crtc_h state));
          cbn; try reflexivity. exfalso. tauto. }
      rewrite Hb. cbn [fst]. unfold EINVAL. lia.
    + intros Hx Hw Hhh. rewrite Hx, Hw, Hhh, !Z.eqb_refl. cbn. congruence.
  - split.
    + intros _. cbn [fst]. exact Hh.
    + intros _ _ _. reflexivity.
Qed.

End Checks.

(** A fast update passes the commit check with all three planes live: the
    overlay f0, the primary f1 and the IPU plane each end with a buffer,
    and the check answers 0 for any clock. *)
Lemma crtc_check_accepts_all_live_fast_update :
  non_null (ps_fb (planes_all_live F0)) = true /\
  non_null (ps_fb (planes_all_live F1)) = true /\
  ipu_fb_live priv_jz4770 planes_all_live = true /\
  forall clk_round_rate,
    ingenic_drm_crtc_atomic_check clk_round_rate priv_jz4770
      (crtc_state_of mode_vga false (Some 1%nat)) planes_all_live
    = (0, crtc_state_of mode_vga false (Some 1%nat)).
Proof.
  repeat split.
Qed.

(** With a modeset, the overlay f0 and the IPU plane may both be live as
    long as f1 is off: the exclusion is between f1 and the IPU plane. *)
Remark crtc_check_accepts_f0_with_ipu :
  non_null (ps_fb (planes_f0_ipu_live F0)) = true /\
  ipu_fb_live priv_jz4770 planes_f0_ipu_live = true /\
  ingenic_drm_crtc_atomic_check (fun rate => rate) priv_jz4770
    (crtc_state_of mode_vga true None) planes_f0_ipu_live
  = (0, crtc_state_of mode_vga true None).
Proof. repeat split. Qed.

Lemma crtc_check_rejects_f1_with_ipu_witness :
  fst (ingenic_drm_crtc_atomic_check (fun rate => rate) priv_jz4770
         (crtc_state_of mode_vga true None) planes_all_live) < 0 /\
  snd (ingenic_drm_crtc_atomic_check (fun rate => rate) priv_jz4770
         (crtc_state_of mode_vga true None) planes_all_live)
  = crtc_state_of mode_vga true None.
Proof.
  apply (crtc_check_rejects_f1_with_ipu (fun rate => rate) priv_jz4770
           (crtc_state_of mode_vga true None) planes_all_live);
    reflexivity.
Defined.

(** Without OSD, switching a plane on is not classified: the plane goes
    from no buffer to a buffer, and the plane check leaves the CRTC state
    of the transaction as it found it, for any header and any generic
    check that accepts the update. *)
Lemma plane_check_enable_without_osd_not_classified :
  spec_plane_needs_modeset plane_state_off (plane_state_vga fb_vga 0) = true /\
  has_osd (soc_info priv_jz4740) = false /\
  forall (hdr : ingenic_drm_h) helper cs,
    helper (plane_state_vga fb_vga 0) cs
      DRM_PLANE_HELPER_NO_SCALING DRM_PLANE_HELPER_NO_SCALING false true = 0 ->
    ingenic_drm_plane_atomic_check helper priv_jz4740 plane_state_off
      (plane_state_vga fb_vga 0) (Some cs) = (0, Some cs).
Proof.
  split; [reflexivity |]. split; [reflexivity |].
  intros hdr helper cs Hh.
  unfold ingenic_drm_plane_atomic_check.
  cbn [plane_crtc plane_state_vga ps_crtc].
  change (has_osd (soc_info priv_jz4740)) with false.
  rewrite Hh. reflexivity.
Qed.

Lemma plane_check_classification_witness :
  (has_osd (soc_info priv_jz4770) = true ->
   ingenic_drm_plane_atomic_check (hdr := jz47xx_h)
     (fun _ _ _ _ _ _ => 0) priv_jz4770
     (plane_state_vga fb_vga 0) (plane_state_vga fb_vga 480)
     (Some (crtc_state_of mode_vga false None))
   = (0, Some (crtc_state_of mode_vga false None))) /\
  (has_osd (soc_info priv_jz4770) = false ->
   snd (ingenic_drm_plane_atomic_check (hdr := jz47xx_h)
          (fun _ _ _ _ _ _ => 0) priv_jz4770
          (plane_state_vga fb_vga 0) (plane_state_vga fb_vga 480)
          (Some (crtc_state_of mode_vga false None)))
   = Some (crtc_state_of mode_vga false None)).
Proof.
  apply (plane_check_classification (hdr := jz47xx_h)
           (fun _ _ _ _ _ _ => 0) priv_jz4770
           (plane_state_vga fb_vga 0) (plane_state_vga fb_vga 480)
           (crtc_state_of mode_vga false None)).
  - discriminate.
  - reflexivity.
Defined.

(** Without OSD, a plane update read from line 480 of its buffer, at
    full size and without horizontal offset, passes the plane check
    whenever the generic check passes it: a vertical source offset is not
    refused. *)
Lemma plane_check_accepts_vertical_offset :
  src_y (plane_state_vga fb_vga_tall 480) <> 0 /\
  has_osd (soc_info priv_jz4740) = false /\
  forall (hdr : ingenic_drm_h) helper old cs,
    helper (plane_state_vga fb_vga_tall 480) cs
      DRM_PLANE_HELPER_NO_SCALING DRM_PLANE_HELPER_NO_SCALING false true = 0 ->
    fst (ingenic_drm_plane_atomic_check helper priv_jz4740 old
           (plane_state_vga fb_vga_tall 480) (Some cs)) = 0.
Proof.
  split; [cbn; lia |]. split; [reflexivity |].
  intros hdr helper old cs Hh.
  unfold ingenic_drm_plane_atomic_check.
  cbn [plane_crtc plane_state_vga ps_crtc].
  change (has_osd (soc_info priv_jz4740)) with false.
  rewrite Hh. reflexivity.
Qed.

Lemma plane_check_single_plane_witness :
  (src_x (plane_state_vga fb_vga 0) <> 0
   \/ shr32 (src_w (plane_state_vga fb_vga 0)) 16
      <> crtc_w (plane_state_vga fb_vga 0)
   \/ shr32 (src_h (plane_state_vga fb_vga 0)) 16
      <> crtc_h (plane_state_vga fb_vga 0) ->
   fst (ingenic_drm_plane_atomic_check (hdr := jz47xx_h)
          (fun _ _ _ _ _ _ => 0) priv_jz4740 plane_state_off
          (plane_state_vga fb_vga 0)
          (Some (crtc_state_of mode_vga true None))) <> 0) /\
  (src_x (plane_state_vga fb_vga 0) = 0 ->
   shr32 (src_w (plane_state_vga fb_vga 0)) 16
   = crtc_w (plane_state_vga fb_vga 0) ->
   shr32 (src_h (plane_state_vga fb_vga 0)) 16
   = crtc_h (plane_state_vga fb_vga 0) ->
   fst (ingenic_drm_plane_atomic_check (hdr := jz47xx_h)
          (fun _ _ _ _ _ _ => 0) priv_jz4740 plane_state_off
          (plane_state_vga fb_vga 0)
          (Some (crtc_state_of mode_vga true None))) = 0).
Proof.
  apply (plane_check_single_plane (hdr := jz47xx_h)
           (fun _ _ _ _ _ _ => 0) priv_jz4740 plane_state_off
           (plane_state_vga fb_vga 0) (crtc_state_of mode_vga true None)).
  - reflexivity.
  - discriminate.
Defined.

(** ** Running the driver *)

(** Unfolds the state monad and the collaborators on a state given by its
    fields. *)
Ltac drv_eval :=
  lazy beta iota zeta delta
    [exec result bind ret fst snd get_priv log_call
     regmap_write regmap_update_bits regmap_read reg_store
     clk_set_rate spin_lock_irq spin_unlock_irq dma_cache_sync usleep_range
     with_vbl drm_crtc_vblank_on drm_crtc_vblank_off drm_crtc_vblank_get
     drm_crtc_arm_vblank_event drm_crtc_send_vblank_event
     drm_crtc_handle_vblank store_hwdesc
     soc_info ipu_plane lcd_regs pix_clk dma_hwdesc dma_hwdesc_phys
     panel_is_sharp vblank ktime calls
     with_regs with_pix_clk with_dma_hwdesc with_vblank with_ktime with_calls
     vbl_enabled vbl_refcount vbl_count vbl_armed vbl_sent].

Ltac norm_calls := rewrite <- ?app_assoc; cbn [app].

Section Effects.

Context {hdr : ingenic_drm_h}.
Variable ingenic_drm_cached_gem_buf : bool.
Variable drm_fb_cma_get_gem_addr : drm_framebuffer -> drm_plane_state -> Z -> Z.
Variable lcd_hw_step : gmap Z Z -> gmap Z Z.
Variable clk_round_rate : Z -> Z.

(** *** Timing translator *)

(** Programming the timings touches the register block and the call log
    and nothing else, and the calls are those of [timing_calls]. *)
Lemma update_timings_exec m s :
  exec (ingenic_drm_crtc_update_timings m) s =
  with_calls (calls s ++ timing_calls m (panel_is_sharp s))
    (with_regs (lcd_regs (exec (ingenic_drm_crtc_update_timings m) s)) s).
Proof.
  destruct s as [soc ipu regs clk descs phys sharp vbl kt cl].
  unfold ingenic_drm_crtc_update_timings, timing_calls.
  destruct sharp; drv_eval; norm_calls; reflexivity.
Qed.

Lemma timing_calls_length m sharp :
  length (timing_calls m sharp) = if sharp then 11%nat else 7%nat.
Proof. destruct sharp; reflexivity. Qed.

(** C5, as amended: the timing translator has no failure path. For every
    mode, ordered or not, it returns after calling the register interface
    seven times (eleven on a panel with sharp signals) with the values of
    the formulas of 4.1 taken modulo 2^32, the horizontal total shifted
    by 16 bits that goes to REV included; it changes the register block
    and nothing else of the device; and on an ordered mode none of the
    eight formulas wraps, so the eight derived values are the integers of
    the formulas. *)
Theorem update_timings_always_writes (m : drm_display_mode) (s : ingenic_drm) :
  let s' := exec (ingenic_drm_crtc_update_timings m) s in
  calls s' = calls s ++ timing_calls m (panel_is_sharp s) /\
  (7 <= length (timing_calls m (panel_is_sharp s)))%nat /\
  s' = with_calls (calls s') (with_regs (lcd_regs s') s) /\
  (mode_timings_ordered m ->
   vpe (ingenic_drm_timings m) = vsync_end m - vsync_start m /\
   vds (ingenic_drm_timings m) = vtotal m - vsync_start m /\
   vde (ingenic_drm_timings m) = vtotal m - vsync_start m + vdisplay m /\
   vt (ingenic_drm_timings m) = vtotal m /\
   hpe (ingenic_drm_timings m) = hsync_end m - hsync_start m /\
   hds (ingenic_drm_timings m) = htotal m - hsync_start m /\
   hde (ingenic_drm_timings m) = htotal m - hsync_start m + hdisplay m /\
   ht (ingenic_drm_timings m) = htotal m).
Proof.
  cbv zeta. split; [| split; [| split]].
  - rewrite update_timings_exec. reflexivity.
  - rewrite timing_calls_length. destruct (panel_is_sharp s); lia.
  - rewrite update_timings_exec at 1.
    rewrite update_timings_exec at 2. reflexivity.
  - intros Hm. rewrite (timings_exact m Hm). cbn. repeat split.
Qed.

(** *** Interrupt handler *)

Lemma reg_get_insert regs r v : reg_get (<[r := v]> regs) r = v.
Proof. unfold reg_get. rewrite lookup_insert_eq. reflexivity. Qed.

Lemma reg_get_insert_ne regs r r' v :
  r <> r' -> reg_get (<[r := v]> regs) r' = reg_get regs r'.
Proof. intros Hr. unfold reg_get. rewrite lookup_insert_ne by exact Hr. reflexivity. Qed.

Lemma land_zero_r_ldiff status mask :
  Z.lor (Z.ldiff status mask) (Z.land 0 mask) = Z.ldiff status mask.
Proof. rewrite Z.land_0_l, Z.lor_0_r. reflexivity. Qed.

(** What the handler does, in one equation: it reads STATE, updates it
    with the end-of-frame bit cleared, and hands the vertical blank on
    when the bit was set in what it read. *)
Lemma irq_handler_exec s :
  let status := reg_get (lcd_regs s) JZ_REG_LCD_STATE in
  let eof := Zneqb (Z.land status JZ_LCD_STATE_EOF_IRQ) 0 in
  let s1 :=
    with_calls (calls s ++ [CallRegmapRead JZ_REG_LCD_STATE;
                            CallRegmapUpdateBits JZ_REG_LCD_STATE
                              JZ_LCD_STATE_EOF_IRQ 0])
      (with_regs
         ((if ingenic_drm_writeable_reg JZ_REG_LCD_STATE
           then <[JZ_REG_LCD_STATE :=
                    u32 (Z.ldiff status JZ_LCD_STATE_EOF_IRQ)]>
           else fun regs => regs) (lcd_regs s)) s) in
  ingenic_drm_irq_handler s =
  (IRQ_HANDLED,
   if eof then exec drm_crtc_handle_vblank s1 else s1).
Proof.
  destruct s as [soc ipu regs clk descs phys sharp vbl kt cl].
  cbv zeta. unfold ingenic_drm_irq_handler.
  drv_eval. rewrite land_zero_r_ldiff.
  destruct (Zneqb _ 0); drv_eval; norm_calls; reflexivity.
Qed.

(** C8: for every status the handler reads, it returns IRQ_HANDLED and
    leaves STATE holding that status with the end-of-frame bit cleared and
    every other bit as it was (no other register changes); it notifies
    the vertical-blank subsystem, once, if the end-of-frame bit was set in
    the status it read, and not at all if it was clear. STATE is assumed
    to be writeable, as it is in the header. *)
Theorem irq_handler_clears_eof (s : ingenic_drm) :
  ingenic_drm_writeable_reg JZ_REG_LCD_STATE = true ->
  let status := reg_get (lcd_regs s) JZ_REG_LCD_STATE in
  let s' := exec ingenic_drm_irq_handler s in
  result ingenic_drm_irq_handler s = IRQ_HANDLED /\
  reg_get (lcd_regs s') JZ_REG_LCD_STATE
  = u32 (Z.ldiff status JZ_LCD_STATE_EOF_IRQ) /\
  (forall i, 0 <= i < 32 ->
     Z.testbit (reg_get (lcd_regs s') JZ_REG_LCD_STATE) i
     = Z.testbit status i && negb (Z.testbit JZ_LCD_STATE_EOF_IRQ i)) /\
  (forall r, r <> JZ_REG_LCD_STATE -> lcd_regs s' !! r = lcd_regs s !! r) /\
  (Z.land status JZ_LCD_STATE_EOF_IRQ <> 0 ->
   calls s' = calls s ++ [CallRegmapRead JZ_REG_LCD_STATE;
                          CallRegmapUpdateBits JZ_REG_LCD_STATE
                            JZ_LCD_STATE_EOF_IRQ 0;
                          CallHandleVblank] /\
   vbl_count (vblank s') = vbl_count (vblank s) + 1 /\
   vbl_armed (vblank s') = [] /\
   vbl_sent (vblank s') = vbl_sent (vblank s) ++ vbl_armed (vblank s)) /\
  (Z.land status JZ_LCD_STATE_EOF_IRQ = 0 ->
   calls s' = calls s ++ [CallRegmapRead JZ_REG_LCD_STATE;
                          CallRegmapUpdateBits JZ_REG_LCD_STATE
                            JZ_LCD_STATE_EOF_IRQ 0] /\
   vblank s' = vblank s).
Proof.
  intros Hw. cbv zeta. unfold result, exec.
  pose proof (irq_handler_exec s) as He. cbv zeta in He. rewrite He.
  rewrite Hw. cbn [fst snd]. clear He.
  destruct s as [soc ipu regs clk descs phys sharp vbl kt cl].
  cbn [lcd_regs calls vblank]. unfold Zneqb.
  destruct (Z.eqb_spec
              (Z.land (reg_get regs JZ_REG_LCD_STATE) JZ_LCD_STATE_EOF_IRQ) 0)
    as [Hz | Hnz]; cbn [negb]; drv_eval.
  - split; [reflexivity |]. split; [apply reg_get_insert |].
    split.
    { intros i Hi. rewrite reg_get_insert, u32_testbit by exact Hi.
      apply Z.ldiff_spec. }
    split.
    { intros r Hr. apply lookup_insert_ne. congruence. }
    split; [intros Hc; contradiction |].
    intros _. split; reflexivity.
  - split; [reflexivity |]. split; [apply reg_get_insert |].
    split.
    { intros i Hi. rewrite reg_get_insert, u32_testbit by exact Hi.
      apply Z.ldiff_spec. }
    split.
    { intros r Hr. apply lookup_insert_ne. congruence. }
    split.
    { intros _. norm_calls. repeat split. }
    intros Hc. contradiction.
Qed.

(** *** Commit flush *)

Ltac flush_eval :=
  unfold ingenic_drm_crtc_atomic_flush, ingenic_drm_crtc_update_timings;
  drv_eval;
  change (0 =? 0) with true; change (- EINVAL =? 0) with false;
  drv_eval.

(** The calls of a flush: the timing registers and the pixel clock when a
    modeset is in effect and only then, followed by the notification under
    the event lock when there is one. *)
Lemma flush_calls state s :
  calls (exec (ingenic_drm_crtc_atomic_flush state) s) =
  calls s
  ++ (if drm_atomic_crtc_needs_modeset state
      then timing_calls (mode state) (panel_is_sharp s)
           ++ [CallClkSetRate (u32 (clock (adjusted_mode state) * 1000))]
      else [])
  ++ event_calls (event state) (vbl_enabled (vblank s)).
Proof.
  destruct s as [soc ipu regs clk descs phys sharp
                 [enabled refs count armed sent] kt cl].
  unfold timing_calls, event_calls.
  destruct (drm_atomic_crtc_needs_modeset state) eqn:Hm,
           (event state) as [e |] eqn:He, enabled, sharp;
    flush_eval; rewrite ?Hm, ?He; flush_eval;
    norm_calls; rewrite ?app_nil_r; reflexivity.
Qed.

(** What a flush does to the vertical-blank bookkeeping: a notification
    is armed, with a reference taken, when vertical blanks are on, and
    delivered at once when they are off. *)
Lemma flush_vblank state s :
  vblank (exec (ingenic_drm_crtc_atomic_flush state) s) =
  match event state with
  | None => vblank s
  | Some e =>
    if vbl_enabled (vblank s) then
      {| vbl_enabled := true;
         vbl_refcount := vbl_refcount (vblank s) + 1;
         vbl_count := vbl_count (vblank s);
         vbl_armed := vbl_armed (vblank s) ++ [e];
         vbl_sent := vbl_sent (vblank s) |}
    else
      {| vbl_enabled := false;
         vbl_refcount := vbl_refcount (vblank s);
         vbl_count := vbl_count (vblank s);
         vbl_armed := vbl_armed (vblank s);
         vbl_sent := vbl_sent (vblank s) ++ [e] |}
  end.
Proof.
  destruct s as [soc ipu regs clk descs phys sharp
                 [enabled refs count armed sent] kt cl].
  destruct (drm_atomic_crtc_needs_modeset state) eqn:Hm,
           (event state) as [e |] eqn:He, enabled, sharp;
    flush_eval; rewrite ?Hm, ?He; flush_eval; reflexivity.
Qed.

(** A flush leaves the CRTC state without a pending notification. *)
Lemma flush_clears_event state s :
  result (ingenic_drm_crtc_atomic_flush state) s = set_event None state.
Proof.
  destruct s as [soc ipu regs clk descs phys sharp
                 [enabled refs count armed sent] kt cl].
  destruct state as [mc ac cc nv m am [e |]];
    destruct (mc || ac || cc) eqn:Hm, enabled, sharp;
    unfold drm_atomic_crtc_needs_modeset;
    flush_eval; cbn [mode_changed active_changed connectors_changed event];
    rewrite ?Hm; flush_eval; reflexivity.
Qed.

(** Without a modeset a flush touches neither the register block nor the
    pixel clock. *)
Lemma flush_fast_update_frame state s :
  drm_atomic_crtc_needs_modeset state = false ->
  lcd_regs (exec (ingenic_drm_crtc_atomic_flush state) s) = lcd_regs s /\
  pix_clk (exec (ingenic_drm_crtc_atomic_flush state) s) = pix_clk s.
Proof.
  intros Hm.
  destruct s as [soc ipu regs clk descs phys sharp
                 [enabled refs count armed sent] kt cl].
  destruct (event state) as [e |] eqn:He, enabled;
    flush_eval; rewrite ?Hm, ?He; flush_eval; split; reflexivity.
Qed.

(** C9: a flush with no modeset in effect makes no call on the register
    interface and none on the clock, and leaves the register block and the
    pixel clock rate as they are; with or without a modeset, a flush that
    carries a notification takes the event lock, asks for a vertical-blank
    reference, arms the notification if it gets one and delivers it at
    once if not, releases the lock, and leaves the CRTC state without a
    pending notification. *)
Theorem flush_fast_update_and_notification
    (state : drm_crtc_state) (s : ingenic_drm) :
  let s' := exec (ingenic_drm_crtc_atomic_flush state) s in
  (drm_atomic_crtc_needs_modeset state = false ->
   lcd_regs s' = lcd_regs s /\ pix_clk s' = pix_clk s /\
   calls s' = calls s ++ event_calls (event state) (vbl_enabled (vblank s))) /\
  calls s' =
  calls s
  ++ (if drm_atomic_crtc_needs_modeset state
      then timing_calls (mode state) (panel_is_sharp s)
           ++ [CallClkSetRate (u32 (clock (adjusted_mode state) * 1000))]
      else [])
  ++ event_calls (event state) (vbl_enabled (vblank s)) /\
  (forall e, event state = Some e ->
   event_calls (event state) (vbl_enabled (vblank s)) =
   [ CallSpinLockIrq; CallVblankGet;
     if vbl_enabled (vblank s)
     then CallArmVblankEvent e else CallSendVblankEvent e;
     CallSpinUnlockIrq ] /\
   vbl_armed (vblank s') =
   (if vbl_enabled (vblank s)
    then vbl_armed (vblank s) ++ [e] else vbl_armed (vblank s)) /\
   vbl_sent (vblank s') =
   (if vbl_enabled (vblank s)
    then vbl_sent (vblank s) else vbl_sent (vblank s) ++ [e])) /\
  event (result (ingenic_drm_crtc_atomic_flush state) s) = None.
Proof.
  cbv zeta. split; [| split; [| split]].
  - intros Hm. destruct (flush_fast_update_frame state s Hm) as [Hr Hc].
    split; [exact Hr |]. split; [exact Hc |].
    rewrite flush_calls, Hm. reflexivity.
  - apply flush_calls.
  - intros e He. rewrite flush_vblank, He. split; [reflexivity |].
    destruct (vbl_enabled (vblank s)); split; reflexivity.
  - rewrite flush_clears_event. reflexivity.
Qed.

Lemma Z_land_lor_absorb a m : Z.land (Z.lor a m) m = m.
Proof.
  apply Z.bits_inj'. intros i Hi.
  rewrite Z.land_spec, Z.lor_spec.
  destruct (Z.testbit a i), (Z.testbit m i); reflexivity.
Qed.

(** Raising the end-of-frame bit shows in the status and touches nothing
    of the vertical-blank bookkeeping. *)
Lemma lcd_raise_eof_vblank s : vblank (lcd_raise_eof s) = vblank s.
Proof. reflexivity. Qed.

Lemma lcd_raise_eof_status s :
  Z.land (reg_get (lcd_regs (lcd_raise_eof s)) JZ_REG_LCD_STATE)
    JZ_LCD_STATE_EOF_IRQ = JZ_LCD_STATE_EOF_IRQ.
Proof.
  unfold lcd_raise_eof. cbn [lcd_regs with_regs].
  rewrite reg_get_insert. apply Z_land_lor_absorb.
Qed.

(** What the handler does to the vertical-blank bookkeeping: nothing when
    the end-of-frame bit is clear in the status it reads, and when it is
    set one more frame is counted and everything armed is delivered. *)
Lemma irq_handler_vblank s :
  vblank (exec ingenic_drm_irq_handler s) =
  if Zneqb (Z.land (reg_get (lcd_regs s) JZ_REG_LCD_STATE)
              JZ_LCD_STATE_EOF_IRQ) 0
  then {| vbl_enabled := vbl_enabled (vblank s);
          vbl_refcount :=
            vbl_refcount (vblank s) - Z.of_nat (length (vbl_armed (vblank s)));
          vbl_count := vbl_count (vblank s) + 1;
          vbl_armed := [];
          vbl_sent := vbl_sent (vblank s) ++ vbl_armed (vblank s) |}
  else vblank s.
Proof.
  unfold exec. pose proof (irq_handler_exec s) as He.
  cbv zeta in He. rewrite He. clear He. cbn [snd].
  destruct s as [soc ipu regs clk descs phys sharp vbl kt cl].
  cbn [lcd_regs vblank].
  destruct (Zneqb _ 0); drv_eval; reflexivity.
Qed.

(** When some plane ends with a buffer the commit check, if it accepts,
    hands the CRTC state on as it got it. *)
Lemma crtc_check_live_keeps_state priv state st :
  planes_all_off priv st = false ->
  fst (ingenic_drm_crtc_atomic_check clk_round_rate priv state st) = 0 ->
  snd (ingenic_drm_crtc_atomic_check clk_round_rate priv state st) = state.
Proof.
  unfold ingenic_drm_crtc_atomic_check, planes_all_off. intros Hlive.
  repeat match goal with
         | |- context [if ?b then _ else _] =>
             lazymatch b with
             | context [if _ then _ else _] => fail
             | _ => idtac
             end;
             destruct b eqn:?
         end; cbn [fst snd]; intros Hacc; try reflexivity.
  congruence.
Qed.

(** C4, as amended. The mark: the commit check marks a transaction it
    accepts as producing no frame-completion signal exactly when the
    transaction needs a modeset, the hardware has OSD, and f1, f0 and the
    IPU plane (where there is one) all end without a buffer; in every
    other case, also when every plane ends without a buffer, it leaves the
    mark as it was, and it changes nothing else of the CRTC state. The
    notification: an accepted transaction in which some plane ends with a
    buffer reaches the flush unchanged, and if it carries a notification
    request the flush takes the request out of the CRTC state and either
    delivers it at once (vertical blanks off) or arms it (vertical blanks
    on); an armed request stays armed through every interrupt whose
    status shows no end of frame and is delivered by the first interrupt
    whose status shows one, after which nothing is armed: the request is
    delivered exactly once. *)
Theorem no_vblank_and_single_notification
    (priv : ingenic_drm) (state : drm_crtc_state) (st : drm_atomic_state)
    (s : ingenic_drm) :
  fst (ingenic_drm_crtc_atomic_check clk_round_rate priv state st) = 0 ->
  let state' :=
    snd (ingenic_drm_crtc_atomic_check clk_round_rate priv state st) in
  let s1 := exec (ingenic_drm_crtc_atomic_flush state') s in
  let eof s2 :=
    Z.land (reg_get (lcd_regs s2) JZ_REG_LCD_STATE) JZ_LCD_STATE_EOF_IRQ in
  (no_vblank state'
   = no_vblank state
     || (drm_atomic_crtc_needs_modeset state && has_osd (soc_info priv)
         && planes_all_off priv st) /\
   state' = set_no_vblank (no_vblank state') state) /\
  (planes_all_off priv st = false ->
   forall e, event state = Some e ->
   state' = state /\
   event (result (ingenic_drm_crtc_atomic_flush state') s) = None /\
   (vbl_enabled (vblank s) = false ->
    vbl_armed (vblank s1) = vbl_armed (vblank s) /\
    vbl_sent (vblank s1) = vbl_sent (vblank s) ++ [e]) /\
   (vbl_enabled (vblank s) = true ->
    vbl_armed (vblank s1) = vbl_armed (vblank s) ++ [e] /\
    vbl_sent (vblank s1) = vbl_sent (vblank s) /\
    forall s2, vblank s2 = vblank s1 ->
      let s3 := exec ingenic_drm_irq_handler s2 in
      (eof s2 = 0 -> vblank s3 = vblank s1) /\
      (eof s2 <> 0 ->
       vbl_armed (vblank s3) = [] /\
       vbl_sent (vblank s3)
       = vbl_sent (vblank s) ++ vbl_armed (vblank s) ++ [e] /\
       count_occ Nat.eq_dec (vbl_sent (vblank s3)) e
       = (count_occ Nat.eq_dec (vbl_sent (vblank s)) e
          + count_occ Nat.eq_dec (vbl_armed (vblank s)) e + 1)%nat))).
Proof.
  intros Hacc. cbv zeta. split.
  - split; [apply crtc_check_no_vblank; exact Hacc |].
    destruct (crtc_check_state clk_round_rate priv state st) as [H | H];
      rewrite H; cbn [snd]; destruct state; reflexivity.
  - intros Hlive e He.
    rewrite (crtc_check_live_keeps_state _ _ _ Hlive Hacc).
    split; [reflexivity |].
    rewrite flush_clears_event. split; [reflexivity |].
    rewrite flush_vblank, He. split.
    + intros Hen. rewrite Hen. split; reflexivity.
    + intros Hen. rewrite Hen. cbn [vbl_armed vbl_sent].
      split; [reflexivity |]. split; [reflexivity |].
      intros s2 Hv. rewrite irq_handler_vblank, Hv. unfold Zneqb. split.
      * intros Hz. rewrite Hz. reflexivity.
      * intros Hnz.
        destruct (Z.eqb_spec
                    (Z.land (reg_get (lcd_regs s2) JZ_REG_LCD_STATE)
                       JZ_LCD_STATE_EOF_IRQ) 0) as [Hz | _];
          [contradiction |].
        cbn [negb vbl_armed vbl_sent].
        split; [reflexivity |]. split; [reflexivity |].
        rewrite !count_occ_app. cbn [count_occ].
        destruct (Nat.eq_dec e e); [| contradiction]. apply Nat.add_assoc.
Qed.

(** *** Disabling the controller *)

(** One turn of the polling loop as the driver calls it (sleep 1000,
    timeout 0): leave when the condition holds on the value read, sleep
    and go round again when it does not. The timeout test is never
    taken. *)
Lemma poll_loop_turn fuel addr cond t s :
  regmap_read_poll_loop lcd_hw_step (S fuel) addr cond 1000 0 t s =
  if cond (reg_get (lcd_regs s) addr)
  then Some ((0, reg_get (lcd_regs s) addr), exec (regmap_read addr) s)
  else regmap_read_poll_loop lcd_hw_step fuel addr cond 1000 0 t
         (exec (usleep_range lcd_hw_step 251 1000)
            (exec (regmap_read addr) s)).
Proof. reflexivity. Qed.

Lemma poll_turn_state addr s :
  let s2 := exec (usleep_range lcd_hw_step 251 1000)
              (exec (regmap_read addr) s) in
  lcd_regs s2 = lcd_hw_step (lcd_regs s) /\ ktime s2 = ktime s + 1000 /\
  vblank s2 = vblank s /\ pix_clk s2 = pix_clk s /\
  dma_hwdesc s2 = dma_hwdesc s.
Proof.
  destruct s as [soc ipu regs clk descs phys sharp vbl kt cl].
  cbv zeta. drv_eval. repeat split.
Qed.

(** A controller that never shows the condition keeps the loop turning:
    no amount of fuel lets it return. *)
Lemma poll_loop_never addr cond t :
  forall fuel s,
    (forall k, cond (reg_get (Nat.iter k lcd_hw_step (lcd_regs s)) addr)
               = false) ->
    regmap_read_poll_loop lcd_hw_step fuel addr cond 1000 0 t s = None.
Proof.
  induction fuel as [| fuel IH]; intros s Hnever; [reflexivity |].
  rewrite poll_loop_turn.
  pose proof (Hnever 0%nat) as H0. cbn [Nat.iter nat_rect] in H0.
  rewrite H0. apply IH. intros k.
  destruct (poll_turn_state addr s) as [Hr _]. rewrite Hr.
  rewrite <- Nat.iter_succ_r. apply Hnever.
Qed.

(** A controller that shows the condition on its [n]th step, and not
    before, lets the loop return 0 after [n] sleeps. *)
Lemma poll_loop_returns addr cond t :
  forall n s fuel,
    (forall k, (k < n)%nat ->
       cond (reg_get (Nat.iter k lcd_hw_step (lcd_regs s)) addr) = false) ->
    cond (reg_get (Nat.iter n lcd_hw_step (lcd_regs s)) addr) = true ->
    (n < fuel)%nat ->
    exists s',
      regmap_read_poll_loop lcd_hw_step fuel addr cond 1000 0 t s
      = Some ((0, reg_get (Nat.iter n lcd_hw_step (lcd_regs s)) addr), s') /\
      lcd_regs s' = Nat.iter n lcd_hw_step (lcd_regs s) /\
      ktime s' = ktime s + 1000 * Z.of_nat n /\
      vblank s' = vblank s /\ pix_clk s' = pix_clk s /\
      dma_hwdesc s' = dma_hwdesc s.
Proof.
  induction n as [| n IH]; intros s fuel Hbefore Hat Hfuel.
  - destruct fuel as [| fuel]; [lia |].
    rewrite poll_loop_turn. cbn [Nat.iter nat_rect] in Hat |- *.
    rewrite Hat. eexists. split; [reflexivity |].
    destruct s as [soc ipu regs clk descs phys sharp vbl kt cl].
    drv_eval. repeat split. lia.
  - destruct fuel as [| fuel]; [lia |].
    rewrite poll_loop_turn.
    pose proof (Hbefore 0%nat ltac:(lia)) as H0.
    cbn [Nat.iter nat_rect] in H0. rewrite H0.
    destruct (poll_turn_state addr s) as (Hr & Hk & Hv & Hc & Hd).
    cbv zeta in Hr, Hk, Hv, Hc, Hd.
    destruct (IH (exec (usleep_range lcd_hw_step 251 1000)
                    (exec (regmap_read addr) s)) fuel)
      as (s' & Hrun & Hr' & Hk' & Hv' & Hc' & Hd').
    + intros k Hlt. rewrite Hr, <- Nat.iter_succ_r. apply Hbefore. lia.
    + rewrite Hr, <- Nat.iter_succ_r. exact Hat.
    + lia.
    + exists s'. rewrite Hrun, Hr', Hk', Hv', Hc', Hd', Hr, Hk, Hv, Hc, Hd.
      rewrite <- !Nat.iter_succ_r. repeat split. lia.
Qed.

(** The state in which [ingenic_drm_crtc_atomic_disable] starts to poll. *)
Lemma disable_prologue s :
  let s1 := exec (bind drm_crtc_vblank_off (fun _ =>
                    regmap_update_bits JZ_REG_LCD_CTRL
                      JZ_LCD_CTRL_DISABLE JZ_LCD_CTRL_DISABLE)) s in
  vbl_enabled (vblank s1) = false /\ ktime s1 = ktime s /\
  vbl_armed (vblank s1) = vbl_armed (vblank s) /\
  vbl_sent (vblank s1) = vbl_sent (vblank s) /\
  dma_hwdesc s1 = dma_hwdesc s /\ pix_clk s1 = pix_clk s.
Proof.
  destruct s as [soc ipu regs clk descs phys sharp
                 [enabled refs count armed sent] kt cl].
  cbv zeta. drv_eval. repeat split.
Qed.

(** C6, as amended: the disable transition switches vertical blanks off,
    sets the disable bit and polls the disabled bit of STATE every
    millisecond with no timeout (the timeout argument is 0). It returns,
    with nothing to report to its caller, as soon as the controller shows
    the bit: after [n] sleeps if that happens on the controller's [n]th
    step; and if the controller never shows the bit it never returns. *)
Theorem crtc_disable_polls_until_disabled (s : ingenic_drm) (n : nat) :
  let s1 := exec (bind drm_crtc_vblank_off (fun _ =>
                    regmap_update_bits JZ_REG_LCD_CTRL
                      JZ_LCD_CTRL_DISABLE JZ_LCD_CTRL_DISABLE)) s in
  let disabled k :=
    Zneqb (Z.land (reg_get (Nat.iter k lcd_hw_step (lcd_regs s1))
                     JZ_REG_LCD_STATE) JZ_LCD_STATE_DISABLED) 0 in
  ((forall k, (k < n)%nat -> disabled k = false) ->
   disabled n = true ->
   forall fuel, (n < fuel)%nat ->
   exists s',
     ingenic_drm_crtc_atomic_disable lcd_hw_step fuel s = Some (tt, s') /\
     lcd_regs s' = Nat.iter n lcd_hw_step (lcd_regs s1) /\
     ktime s' = ktime s + 1000 * Z.of_nat n /\
     vbl_enabled (vblank s') = false) /\
  ((forall k, disabled k = false) ->
   forall fuel, ingenic_drm_crtc_atomic_disable lcd_hw_step fuel s = None).
Proof.
  cbv zeta. split.
  - intros Hbefore Hat fuel Hfuel.
    unfold ingenic_drm_crtc_atomic_disable, regmap_read_poll_timeout.
    destruct (poll_loop_returns JZ_REG_LCD_STATE
                (fun var => Zneqb (Z.land var JZ_LCD_STATE_DISABLED) 0)
                (ktime (exec (bind drm_crtc_vblank_off (fun _ =>
                    regmap_update_bits JZ_REG_LCD_CTRL
                      JZ_LCD_CTRL_DISABLE JZ_LCD_CTRL_DISABLE)) s) + 0)
                n _ fuel Hbefore Hat Hfuel)
      as (s' & Hrun & Hr & Hk & Hv & _).
    exists s'.
    change (drm_crtc_vblank_off;;
            regmap_update_bits JZ_REG_LCD_CTRL JZ_LCD_CTRL_DISABLE
              JZ_LCD_CTRL_DISABLE)%drv
      with (bind drm_crtc_vblank_off (fun _ =>
              regmap_update_bits JZ_REG_LCD_CTRL
                JZ_LCD_CTRL_DISABLE JZ_LCD_CTRL_DISABLE)).
    rewrite Hrun.
    destruct (disable_prologue s) as (He & Hk0 & _).
    cbv zeta in He, Hk0.
    split; [reflexivity |]. split; [exact Hr |].
    split; [rewrite Hk, Hk0; reflexivity |].
    rewrite Hv. exact He.
  - intros Hnever fuel.
    unfold ingenic_drm_crtc_atomic_disable, regmap_read_poll_timeout.
    change (drm_crtc_vblank_off;;
            regmap_update_bits JZ_REG_LCD_CTRL JZ_LCD_CTRL_DISABLE
              JZ_LCD_CTRL_DISABLE)%drv
      with (bind drm_crtc_vblank_off (fun _ =>
              regmap_update_bits JZ_REG_LCD_CTRL
                JZ_LCD_CTRL_DISABLE JZ_LCD_CTRL_DISABLE)).
    rewrite poll_loop_never; [reflexivity |]. exact Hnever.
Qed.

(** *** Plane update and the descriptor chain *)

Lemma map_alter_keeps {A B : Type} (g : A -> B) (f : A -> A) i (l : list A) :
  (forall x, g (f x) = g x) -> map g (alter f i l) = map g l.
Proof.
  intros Hf. revert i. induction l as [| x l IH]; intros [| i]; cbn;
    try reflexivity.
  - rewrite Hf. reflexivity.
  - f_equal. apply IH.
Qed.

(** The descriptors after a plane update: nothing changes for a plane
    without a state or without a buffer; otherwise the descriptor of the
    plane gets the address, the length in words and the end-of-frame
    request, in three stores. *)
Lemma plane_update_hwdesc plane cs s :
  let s' := exec (ingenic_drm_plane_atomic_update ingenic_drm_cached_gem_buf
                    drm_fb_cma_get_gem_addr plane cs) s in
  dma_hwdesc_phys s' = dma_hwdesc_phys s /\
  dma_hwdesc s' =
  match plane_state plane with
  | Some state =>
    match ps_fb state with
    | Some fb =>
      alter (fun d => set_hwdesc_cmd
                        (Z.lor (hwdesc_cmd d) JZ_LCD_CMD_EOF_IRQ) d)
        (hwdesc_idx s plane)
        (alter (set_hwdesc_cmd
                  (u32 (shr32 (src_w state) 16 * shr32 (src_h state) 16
                        * fb_cpp0 fb) / 4))
           (hwdesc_idx s plane)
           (alter (set_hwdesc_addr
                     (u32 (drm_fb_cma_get_gem_addr fb state 0)))
              (hwdesc_idx s plane) (dma_hwdesc s)))
    | None => dma_hwdesc s
    end
  | None => dma_hwdesc s
  end.
Proof.
  destruct s as [soc ipu regs clk descs phys sharp vbl kt cl].
  cbv zeta. unfold ingenic_drm_plane_atomic_update.
  destruct (plane_state plane) as [state |]; [| split; reflexivity].
  destruct (ps_fb state) as [fb |]; [| split; reflexivity].
  unfold ingenic_drm_plane_config, ingenic_drm_plane_enable, hwdesc_idx.
  destruct ingenic_drm_cached_gem_buf,
           (drm_atomic_crtc_needs_modeset cs),
           (has_osd soc) eqn:Hosd, (is_primary (plane_type plane));
    drv_eval; rewrite ?Hosd; drv_eval; cbn [negb andb]; drv_eval;
    split; reflexivity.
Qed.

(** C10: every plane update keeps the descriptor chain as bind built it
    (each descriptor's next word is its own bus address, each tag is the
    constant set at bind), leaves the bus addresses of the descriptors
    alone, does not touch the descriptor of the other index, and changes
    nothing but the buffer address and the command word in the descriptor
    it uses; the index it uses is 0 or 1 and depends only on the OSD
    capability and the plane's type. *)
Theorem plane_update_keeps_descriptor_chain
    (plane : drm_plane) (cs : drm_crtc_state) (s : ingenic_drm) :
  hwdesc_wf s ->
  let s' := exec (ingenic_drm_plane_atomic_update ingenic_drm_cached_gem_buf
                    drm_fb_cma_get_gem_addr plane cs) s in
  hwdesc_wf s' /\
  dma_hwdesc_phys s' = dma_hwdesc_phys s /\
  map hwdesc_next (dma_hwdesc s') = map hwdesc_next (dma_hwdesc s) /\
  map hwdesc_id (dma_hwdesc s') = map hwdesc_id (dma_hwdesc s) /\
  (forall i, i <> hwdesc_idx s plane ->
     dma_hwdesc s' !! i = dma_hwdesc s !! i) /\
  (hwdesc_idx s plane < 2)%nat /\
  hwdesc_idx s plane =
  (if has_osd (soc_info s) && is_primary (plane_type plane)
   then 1%nat else 0%nat).
Proof.
  intros [Hnext Hid]. cbv zeta.
  destruct (plane_update_hwdesc plane cs s) as [Hphys Hdesc].
  cbv zeta in Hphys, Hdesc.
  assert (Hn : map hwdesc_next
                 (dma_hwdesc
                    (exec (ingenic_drm_plane_atomic_update
                             ingenic_drm_cached_gem_buf
                             drm_fb_cma_get_gem_addr plane cs) s))
               = map hwdesc_next (dma_hwdesc s)).
  { rewrite Hdesc. destruct (plane_state plane) as [state |]; [| reflexivity].
    destruct (ps_fb state) as [fb |]; [| reflexivity].
    rewrite !map_alter_keeps by (intros x; reflexivity). reflexivity. }
  assert (Hi : map hwdesc_id
                 (dma_hwdesc
                    (exec (ingenic_drm_plane_atomic_update
                             ingenic_drm_cached_gem_buf
                             drm_fb_cma_get_gem_addr plane cs) s))
               = map hwdesc_id (dma_hwdesc s)).
  { rewrite Hdesc. destruct (plane_state plane) as [state |]; [| reflexivity].
    destruct (ps_fb state) as [fb |]; [| reflexivity].
    rewrite !map_alter_keeps by (intros x; reflexivity). reflexivity. }
  split.
  { unfold hwdesc_wf. rewrite Hn, Hi, Hphys. split; assumption. }
  split; [exact Hphys |]. split; [exact Hn |]. split; [exact Hi |].
  split.
  { intros i Hne. rewrite Hdesc.
    destruct (plane_state plane) as [state |]; [| reflexivity].
    destruct (ps_fb state) as [fb |]; [| reflexivity].
    rewrite !list_lookup_alter_ne by congruence. reflexivity. }
  unfold hwdesc_idx.
  destruct (has_osd (soc_info s)), (is_primary (plane_type plane));
    cbn [negb andb]; split; (lia || reflexivity).
Qed.

(** The descriptors that bind sets up form such a chain. *)
Lemma bind_hwdesc_wf soc ipu phys0 phys1 :
  hwdesc_wf (ingenic_drm_bind soc ipu phys0 phys1).
Proof.
  unfold ingenic_drm_bind. destruct (has_osd soc); drv_eval; split; reflexivity.
Qed.

End Effects.

(** ** Instances *)

(** The commit check accepts a modeset on a JZ4740 (no OSD) in which no
    plane ends with a buffer, and a fast update on a JZ4770 in which none
    does, and in both cases leaves [no_vblank] off. *)
Lemma crtc_check_all_off_keeps_vblank :
  planes_all_off priv_jz4740 planes_none_live = true /\
  planes_all_off priv_jz4770 planes_none_live = true /\
  no_vblank (crtc_state_of mode_vga true None) = false /\
  ingenic_drm_crtc_atomic_check (fun rate => rate) priv_jz4740
    (crtc_state_of mode_vga true None) planes_none_live
  = (0, crtc_state_of mode_vga true None) /\
  ingenic_drm_crtc_atomic_check (fun rate => rate) priv_jz4770
    (crtc_state_of mode_vga false None) planes_none_live
  = (0, crtc_state_of mode_vga false None).
Proof. repeat split. Qed.

Lemma no_vblank_and_single_notification_witness :
  fst (ingenic_drm_crtc_atomic_check (fun rate => rate) priv_jz4770
         (crtc_state_of mode_vga true (Some 7%nat)) planes_f1_live) = 0 /\
  planes_all_off priv_jz4770 planes_f1_live = false /\
  vbl_enabled (vblank priv_jz4770_enabled) = true /\
  let s1 := exec (ingenic_drm_crtc_atomic_flush (hdr := jz47xx_h)
                    (crtc_state_of mode_vga true (Some 7%nat)))
              priv_jz4770_enabled in
  let s3 := exec (ingenic_drm_irq_handler (hdr := jz47xx_h))
              (lcd_raise_eof (hdr := jz47xx_h) s1) in
  vbl_armed (vblank s1) = [7%nat] /\ vbl_sent (vblank s1) = [] /\
  vbl_armed (vblank s3) = [] /\ vbl_sent (vblank s3) = [7%nat].
Proof.
  split; [reflexivity |]. split; [reflexivity |]. split; [reflexivity |].
  pose proof (no_vblank_and_single_notification (hdr := jz47xx_h)
                (fun rate => rate) priv_jz4770
                (crtc_state_of mode_vga true (Some 7%nat)) planes_f1_live
                priv_jz4770_enabled eq_refl) as [_ H].
  destruct (H eq_refl 7%nat eq_refl) as (_ & _ & _ & Hon).
  destruct (Hon eq_refl) as (Ha & Hs & Hirq).
  destruct (Hirq _ (lcd_raise_eof_vblank (hdr := jz47xx_h) _)) as [_ Heof].
  rewrite (lcd_raise_eof_status (hdr := jz47xx_h)) in Heof.
  destruct (Heof ltac:(discriminate)) as (Ha3 & Hs3 & _).
  cbv zeta. split; [exact Ha |]. split; [exact Hs |].
  split; [exact Ha3 | exact Hs3].
Defined.

(** A mode whose vertical sync ends before it starts has a negative
    derived interval; the timing translator programs it all the same, for
    any header and device, with the pulse length wrapped to 2^32 - 2. *)
Lemma update_timings_writes_on_bad_mode :
  ~ derived_intervals_positive mode_bad_vsync /\
  vpe (ingenic_drm_timings mode_bad_vsync) = 4294967294 /\
  (forall (hdr : ingenic_drm_h) s,
     calls (exec (ingenic_drm_crtc_update_timings mode_bad_vsync) s)
     = calls s ++ timing_calls mode_bad_vsync (panel_is_sharp s)) /\
  lcd_regs (exec (ingenic_drm_crtc_update_timings (hdr := jz47xx_h)
                    mode_bad_vsync) priv_jz4770) !! 0x04
  = Some 4294967294.
Proof.
  split.
  { unfold derived_intervals_positive, mode_bad_vsync. cbn. lia. }
  split; [reflexivity |]. split.
  - intros hdr s. rewrite update_timings_exec. reflexivity.
  - vm_compute. reflexivity.
Qed.

Lemma update_timings_always_writes_witness :
  mode_timings_ordered mode_vga /\
  calls (exec (ingenic_drm_crtc_update_timings (hdr := jz47xx_h) mode_vga)
           priv_jz4770)
  = calls priv_jz4770 ++ timing_calls (hdr := jz47xx_h) mode_vga false /\
  vt (ingenic_drm_timings mode_vga) = vtotal mode_vga.
Proof.
  assert (Hm : mode_timings_ordered mode_vga).
  { unfold mode_timings_ordered, mode_vga; cbn; lia. }
  pose proof (update_timings_always_writes (hdr := jz47xx_h) mode_vga
                priv_jz4770) as (Hc & _ & _ & Ht).
  split; [exact Hm |]. split; [exact Hc |].
  exact (proj1 (proj2 (proj2 (proj2 (Ht Hm))))).
Defined.

(** The value for REV is cut to 32 bits like every other: with a
    horizontal total of 70000 the translator hands 70000 * 2^16 mod 2^32
    to the register interface, and that is what REV then holds. *)
Example update_timings_rev_wraps :
  mode_timings_ordered mode_wide_total /\
  nth 8 (timing_calls (hdr := jz47xx_h) mode_wide_total true)
    CallSpinLockIrq = CallRegmapWrite 0x24 292552704 /\
  reg_get
    (lcd_regs (exec (ingenic_drm_crtc_update_timings (hdr := jz47xx_h)
                       mode_wide_total)
                 (with_panel_is_sharp true priv_jz4770))) 0x24
  = 292552704.
Proof.
  split; [unfold mode_timings_ordered, mode_wide_total; cbn; lia |].
  split; [reflexivity | vm_compute; reflexivity].
Qed.

Lemma iter_stuck k regs : Nat.iter k lcd_hw_stuck regs = regs.
Proof. induction k as [| k IH]; [reflexivity |]. cbn. exact IH. Qed.

(** On a controller that never reports disabled, the disable transition
    of an enabled JZ4770 does not return, however long it is followed. *)
Lemma crtc_disable_never_returns_on_stuck_controller :
  (forall k,
     Z.land (reg_get (Nat.iter k lcd_hw_stuck (lcd_regs priv_jz4770_enabled))
               0x34) 0x1 = 0) /\
  forall fuel,
    ingenic_drm_crtc_atomic_disable (hdr := jz47xx_h) lcd_hw_stuck fuel
      priv_jz4770_enabled = None.
Proof.
  split.
  - intros k. rewrite iter_stuck. reflexivity.
  - intros fuel.
    unfold ingenic_drm_crtc_atomic_disable, regmap_read_poll_timeout.
    rewrite poll_loop_never; [reflexivity |].
    intros k. rewrite iter_stuck. reflexivity.
Qed.

Lemma crtc_disable_polls_until_disabled_witness :
  exists s',
    ingenic_drm_crtc_atomic_disable (hdr := jz47xx_h) lcd_hw_obeys 2
      priv_jz4770_enabled = Some (tt, s') /\
    ktime s' = 1000 /\ vbl_enabled (vblank s') = false /\
    reg_get (lcd_regs s') 0x34 = 1.
Proof.
  destruct (proj1 (crtc_disable_polls_until_disabled (hdr := jz47xx_h)
                     lcd_hw_obeys priv_jz4770_enabled 1))
    with (fuel := 2%nat) as (s' & Hrun & Hr & Hk & Hv).
  - intros k Hk. destruct k as [| k]; [reflexivity | lia].
  - reflexivity.
  - lia.
  - exists s'. split; [exact Hrun |]. split; [exact Hk |].
    split; [exact Hv |]. rewrite Hr. reflexivity.
Defined.

Lemma irq_handler_clears_eof_witness :
  ingenic_drm_writeable_reg (hdr := jz47xx_h) 0x34 = true /\
  reg_get (lcd_regs (lcd_raise_eof (hdr := jz47xx_h) priv_jz4770_enabled))
    0x34 = 0x20 /\
  reg_get (lcd_regs (exec (ingenic_drm_irq_handler (hdr := jz47xx_h))
                       (lcd_raise_eof (hdr := jz47xx_h)
                          priv_jz4770_enabled))) 0x34 = 0 /\
  result (ingenic_drm_irq_handler (hdr := jz47xx_h))
    (lcd_raise_eof (hdr := jz47xx_h) priv_jz4770_enabled) = IRQ_HANDLED.
Proof.
  pose proof (irq_handler_clears_eof (hdr := jz47xx_h)
                (lcd_raise_eof (hdr := jz47xx_h) priv_jz4770_enabled)
                eq_refl) as (Hres & Hreg & _).
  split; [reflexivity |]. split; [reflexivity |].
  split; [eapply eq_trans; [exact Hreg | reflexivity] | exact Hres].
Defined.

Lemma flush_fast_update_and_notification_witness :
  drm_atomic_crtc_needs_modeset (crtc_state_of mode_vga false (Some 7%nat))
  = false /\
  let s' := exec (ingenic_drm_crtc_atomic_flush (hdr := jz47xx_h)
                    (crtc_state_of mode_vga false (Some 7%nat)))
              priv_jz4770_enabled in
  lcd_regs s' = lcd_regs priv_jz4770_enabled /\
  pix_clk s' = pix_clk priv_jz4770_enabled /\
  calls s' = calls priv_jz4770_enabled
             ++ [CallSpinLockIrq; CallVblankGet; CallArmVblankEvent 7%nat;
                 CallSpinUnlockIrq].
Proof.
  split; [reflexivity |].
  exact (proj1 (flush_fast_update_and_notification (hdr := jz47xx_h)
                  (crtc_state_of mode_vga false (Some 7%nat))
                  priv_jz4770_enabled) eq_refl).
Defined.

Lemma plane_update_keeps_descriptor_chain_witness :
  hwdesc_wf priv_jz4770 /\
  let s' := exec (ingenic_drm_plane_atomic_update (hdr := jz47xx_h) false
                    (fun _ _ _ => 0x01000000) plane_f1_vga
                    (crtc_state_of mode_vga false None)) priv_jz4770 in
  hwdesc_wf s' /\
  dma_hwdesc_phys s' = dma_hwdesc_phys priv_jz4770 /\
  map hwdesc_next (dma_hwdesc s') = [0x0f000000; 0x0f000010] /\
  map hwdesc_id (dma_hwdesc s') = [0xdeafbead; 0xdeadbabe].
Proof.
  assert (Hwf : hwdesc_wf priv_jz4770) by (split; reflexivity).
  pose proof (plane_update_keeps_descriptor_chain (hdr := jz47xx_h) false
                (fun _ _ _ => 0x01000000) plane_f1_vga
                (crtc_state_of mode_vga false None) priv_jz4770 Hwf)
    as (Hwf' & Hp & Hn & Hi & _).
  split; [exact Hwf |]. split; [exact Hwf' |]. split; [exact Hp |].
  split; [rewrite Hn; reflexivity | rewrite Hi; reflexivity].
Defined.

(** * Further properties of the driver *)

(** ** Commit check and plane check, edge behaviour *)

Section ChecksMore.

Context {hdr : ingenic_drm_h}.
Variable clk_round_rate : Z -> Z.
Variable drm_atomic_helper_check_plane_state :
  drm_plane_state -> drm_crtc_state -> Z -> Z -> bool -> bool -> Z.

Abbreviation crtc_check' := (ingenic_drm_crtc_atomic_check clk_round_rate).
Abbreviation plane_check' :=
  (ingenic_drm_plane_atomic_check drm_atomic_helper_check_plane_state).

(** A modeset that the commit check accepts fits the controller: its
    active width and height, read as [int], are not negative and not
    above the limits of the SoC, and the clock framework did not answer
    the requested pixel clock with an error. *)
Theorem crtc_check_accepted_mode_fits
    (priv : ingenic_drm) (state : drm_crtc_state) (st : drm_atomic_state) :
  drm_atomic_crtc_needs_modeset state = true ->
  fst (crtc_check' priv state st) = 0 ->
  - 2 ^ 31 <= hdisplay (mode state) < 2 ^ 31 ->
  - 2 ^ 31 <= vdisplay (mode state) < 2 ^ 31 ->
  max_width (soc_info priv) < 2 ^ 31 ->
  max_height (soc_info priv) < 2 ^ 31 ->
  0 <= hdisplay (mode state) <= max_width (soc_info priv) /\
  0 <= vdisplay (mode state) <= max_height (soc_info priv) /\
  0 <= clk_round_rate (u32 (clock (adjusted_mode state) * 1000)).
Proof.
  intros Hm Hacc Hh Hv Hmw Hmh. revert Hacc.
  unfold ingenic_drm_crtc_atomic_check. rewrite Hm. cbn [negb].
  destruct (Z.ltb_spec (max_width (soc_info priv))
              (u32 (hdisplay (mode state)))) as [Hw | Hw]; cbn [orb fst].
  { unfold EINVAL. lia. }
  destruct (Z.ltb_spec (max_height (soc_info priv))
              (u32 (vdisplay (mode state)))) as [Hht | Hht]; cbn [fst].
  { unfold EINVAL. lia. }
  destruct (Z.ltb_spec
              (clk_round_rate (u32 (clock (adjusted_mode state) * 1000))) 0)
    as [Hr | Hr]; cbn [fst].
  { lia. }
  intros _. unfold u32 in Hw, Hht.
  assert (Hx : 0 <= hdisplay (mode state)).
  { destruct (Z_lt_le_dec (hdisplay (mode state)) 0) as [Hneg | ]; [| lia].
    exfalso.
    replace (hdisplay (mode state))
      with (hdisplay (mode state) + 2 ^ 32 + (-1) * 2 ^ 32) in Hw by lia.
    rewrite Z.mod_add in Hw by lia. rewrite Z.mod_small in Hw by lia. lia. }
  assert (Hy : 0 <= vdisplay (mode state)).
  { destruct (Z_lt_le_dec (vdisplay (mode state)) 0) as [Hneg | ]; [| lia].
    exfalso.
    replace (vdisplay (mode state))
      with (vdisplay (mode state) + 2 ^ 32 + (-1) * 2 ^ 32) in Hht by lia.
    rewrite Z.mod_add in Hht by lia. rewrite Z.mod_small in Hht by lia. lia. }
  rewrite Z.mod_small in Hw by lia. rewrite Z.mod_small in Hht by lia.
  lia.
Qed.

(** The commit check answers 0, [-EINVAL], or the negative value the
    clock framework gave; whenever it answers an error the CRTC state is
    exactly as it was. *)
Theorem crtc_check_error_leaves_state
    (priv : ingenic_drm) (state : drm_crtc_state) (st : drm_atomic_state) :
  let r := crtc_check' priv state st in
  let rate := clk_round_rate (u32 (clock (adjusted_mode state) * 1000)) in
  (fst r = 0 \/ fst r = - EINVAL \/ (fst r = rate /\ rate < 0)) /\
  (fst r <> 0 -> snd r = state).
Proof.
  cbv zeta. unfold ingenic_drm_crtc_atomic_check.
  destruct (drm_atomic_crtc_needs_modeset state); cbn [negb fst snd].
  2: { split; [left; reflexivity | reflexivity]. }
  destruct (_ || _); cbn [fst snd].
  { split; [right; left; reflexivity | reflexivity]. }
  destruct (Z.ltb_spec
              (clk_round_rate (u32 (clock (adjusted_mode state) * 1000))) 0);
    cbn [fst snd].
  { split; [right; right; split; [reflexivity | assumption] | reflexivity]. }
  destruct (has_osd (soc_info priv)); cbn [fst snd].
  2: { split; [left; reflexivity | reflexivity]. }
  destruct (_ && _ && _); cbn [fst snd].
  { split; [right; left; reflexivity | reflexivity]. }
  destruct (_ && _ && _); cbn [fst snd];
    (split; [left; reflexivity | intros Hc; contradiction]).
Qed.

(** The ways out of the plane check before it looks at the geometry: a
    plane that is on no CRTC, before or after, is accepted unseen; a plane
    on a CRTC whose state is not in the transaction is refused with
    [-EINVAL]; and an error of the generic check is handed on as it is,
    the CRTC state untouched. *)
Theorem plane_check_early_exits
    (priv : ingenic_drm) (old state : drm_plane_state)
    (ecs : option drm_crtc_state) (cs : drm_crtc_state) :
  (plane_crtc old state = None ->
   plane_check' priv old state ecs = (0, ecs)) /\
  (plane_crtc old state <> None ->
   plane_check' priv old state None = (- EINVAL, None)) /\
  (plane_crtc old state <> None ->
   drm_atomic_helper_check_plane_state state cs
     DRM_PLANE_HELPER_NO_SCALING DRM_PLANE_HELPER_NO_SCALING
     (has_osd (soc_info priv)) true <> 0 ->
   plane_check' priv old state (Some cs) =
   (drm_atomic_helper_check_plane_state state cs
      DRM_PLANE_HELPER_NO_SCALING DRM_PLANE_HELPER_NO_SCALING
      (has_osd (soc_info priv)) true, Some cs)).
Proof.
  unfold ingenic_drm_plane_atomic_check.
  split; [| split].
  - intros Hc. rewrite Hc. reflexivity.
  - intros Hc. destruct (plane_crtc old state); [reflexivity | congruence].
  - intros Hc Hh. destruct (plane_crtc old state); [| congruence].
    unfold Zneqb.
    destruct (Z.eqb_spec
                (drm_atomic_helper_check_plane_state state cs
                   DRM_PLANE_HELPER_NO_SCALING DRM_PLANE_HELPER_NO_SCALING
                   (has_osd (soc_info priv)) true) 0) as [H0 | _];
      [contradiction | reflexivity].
Qed.

(** The plane check never clears a modeset that is already asked for, and
    changes nothing else in the CRTC state of the transaction: what comes
    out is what went in, or that with [mode_changed] set. *)
Theorem plane_check_only_sets_mode_changed
    (priv : ingenic_drm) (old state : drm_plane_state)
    (cs cs' : drm_crtc_state) :
  snd (plane_check' priv old state (Some cs)) = Some cs' ->
  (cs' = cs \/ cs' = set_mode_changed true cs) /\
  (mode_changed cs = true -> mode_changed cs' = true) /\
  (drm_atomic_crtc_needs_modeset cs = true ->
   drm_atomic_crtc_needs_modeset cs' = true).
Proof.
  intros Hs.
  assert (H : cs' = cs \/ cs' = set_mode_changed true cs).
  { revert Hs. unfold ingenic_drm_plane_atomic_check.
    destruct (plane_crtc old state); cbn [snd]; [| intros [= <-]; auto].
    repeat match goal with
           | |- context [if ?b then _ else _] => destruct b
           end; cbn [snd]; intros [= <-]; auto. }
  split; [exact H |].
  destruct H as [-> | ->]; split; auto.
Qed.

End ChecksMore.

Lemma crtc_check_accepted_mode_fits_witness :
  0 <= hdisplay mode_vga <= 1280 /\ 0 <= vdisplay mode_vga <= 720 /\
  0 <= u32 (clock mode_vga * 1000).
Proof.
  exact (crtc_check_accepted_mode_fits (fun rate => rate) priv_jz4770
           (crtc_state_of mode_vga true None) planes_f1_live
           eq_refl eq_refl
           ltac:(cbn; lia) ltac:(cbn; lia) ltac:(cbn; lia) ltac:(cbn; lia)).
Defined.

Lemma crtc_check_error_leaves_state_witness :
  fst (ingenic_drm_crtc_atomic_check (fun _ => -5) priv_jz4770
         (crtc_state_of mode_vga true None) planes_f1_live) = -5 /\
  snd (ingenic_drm_crtc_atomic_check (fun _ => -5) priv_jz4770
         (crtc_state_of mode_vga true None) planes_f1_live)
  = crtc_state_of mode_vga true None.
Proof.
  split; [reflexivity |].
  apply (proj2 (crtc_check_error_leaves_state (fun _ => -5) priv_jz4770
                  (crtc_state_of mode_vga true None) planes_f1_live)).
  discriminate.
Defined.

Lemma plane_check_early_exits_witness :
  ingenic_drm_plane_atomic_check (hdr := jz47xx_h) (fun _ _ _ _ _ _ => 0)
    priv_jz4770 plane_state_off plane_state_off None = (0, None) /\
  ingenic_drm_plane_atomic_check (hdr := jz47xx_h) (fun _ _ _ _ _ _ => 0)
    priv_jz4770 plane_state_off (plane_state_vga fb_vga 0) None
  = (- EINVAL, None) /\
  ingenic_drm_plane_atomic_check (hdr := jz47xx_h) (fun _ _ _ _ _ _ => -34)
    priv_jz4770 plane_state_off (plane_state_vga fb_vga 0)
    (Some (crtc_state_of mode_vga false None))
  = (-34, Some (crtc_state_of mode_vga false None)).
Proof.
  split; [| split].
  - apply (proj1 (plane_check_early_exits (hdr := jz47xx_h)
                    (fun _ _ _ _ _ _ => 0) priv_jz4770 plane_state_off
                    plane_state_off None (crtc_state_of mode_vga false None))).
    reflexivity.
  - apply (proj1 (proj2 (plane_check_early_exits (hdr := jz47xx_h)
                    (fun _ _ _ _ _ _ => 0) priv_jz4770 plane_state_off
                    (plane_state_vga fb_vga 0) None
                    (crtc_state_of mode_vga false None)))).
    discriminate.
  - apply (proj2 (proj2 (plane_check_early_exits (hdr := jz47xx_h)
                    (fun _ _ _ _ _ _ => -34) priv_jz4770 plane_state_off
                    (plane_state_vga fb_vga 0) None
                    (crtc_state_of mode_vga false None))));
      discriminate.
Defined.

Lemma plane_check_only_sets_mode_changed_witness :
  snd (ingenic_drm_plane_atomic_check (hdr := jz47xx_h)
         (fun _ _ _ _ _ _ => 0) priv_jz4770 plane_state_off
         (plane_state_vga fb_vga 0)
         (Some (crtc_state_of mode_vga false None)))
  = Some (crtc_state_of mode_vga true None) /\
  (crtc_state_of mode_vga true None = crtc_state_of mode_vga false None \/
   crtc_state_of mode_vga true None
   = set_mode_changed true (crtc_state_of mode_vga false None)).
Proof.
  split; [reflexivity |].
  exact (proj1 (plane_check_only_sets_mode_changed (hdr := jz47xx_h)
                  (fun _ _ _ _ _ _ => 0) priv_jz4770 plane_state_off
                  (plane_state_vga fb_vga 0)
                  (crtc_state_of mode_vga false None)
                  (crtc_state_of mode_vga true None) eq_refl)).
Defined.

(** ** Register updates, bit by bit *)

Section RegisterBits.

Context {hdr : ingenic_drm_h}.

Lemma update_bits_testbit orig mask val i :
  0 <= i < 32 ->
  Z.testbit (u32 (Z.lor (Z.ldiff orig mask) (Z.land val mask))) i
  = if Z.testbit mask i then Z.testbit val i else Z.testbit orig i.
Proof.
  intros Hi. rewrite u32_testbit by exact Hi.
  rewrite Z.lor_spec, Z.ldiff_spec, Z.land_spec.
  destruct (Z.testbit mask i), (Z.testbit val i), (Z.testbit orig i);
    reflexivity.
Qed.

Lemma u32_high_bits z i : 32 <= i -> Z.testbit (u32 z) i = false.
Proof.
  intros Hi. unfold u32. apply Z.mod_pow2_bits_high. lia.
Qed.

Lemma regmap_update_bits_exec reg mask val s :
  exec (regmap_update_bits reg mask val) s =
  with_calls (calls s ++ [CallRegmapUpdateBits reg mask val])
    (with_regs
       ((if ingenic_drm_writeable_reg reg
         then <[reg := u32 (Z.lor (Z.ldiff (reg_get (lcd_regs s) reg) mask)
                              (Z.land val mask))]>
         else fun regs => regs) (lcd_regs s)) s).
Proof.
  destruct s as [soc ipu regs clk descs phys sharp vbl kt cl].
  drv_eval. reflexivity.
Qed.

Lemma regmap_write_exec reg val s :
  exec (regmap_write reg val) s =
  with_calls (calls s ++ [CallRegmapWrite reg val])
    (with_regs
       ((if ingenic_drm_writeable_reg reg
         then <[reg := u32 val]> else fun regs => regs) (lcd_regs s)) s).
Proof.
  destruct s as [soc ipu regs clk descs phys sharp vbl kt cl].
  drv_eval. reflexivity.
Qed.

(** The seven status mirrors are read-only whatever the header assigns to
    them, and a write or an update aimed at a read-only register is
    answered with [-EIO] and leaves the whole register block as it was. *)
Theorem readonly_registers_refuse_writes (reg val mask : Z) (s : ingenic_drm) :
  (In reg [JZ_REG_LCD_IID; JZ_REG_LCD_SA0; JZ_REG_LCD_FID0; JZ_REG_LCD_CMD0;
           JZ_REG_LCD_SA1; JZ_REG_LCD_FID1; JZ_REG_LCD_CMD1] <->
   ingenic_drm_writeable_reg reg = false) /\
  (ingenic_drm_writeable_reg reg = false ->
   result (regmap_write reg val) s = - EIO /\
   lcd_regs (exec (regmap_write reg val) s) = lcd_regs s /\
   result (regmap_update_bits reg mask val) s = - EIO /\
   lcd_regs (exec (regmap_update_bits reg mask val) s) = lcd_regs s).
Proof.
  split.
  - unfold ingenic_drm_writeable_reg. cbn [In]. split.
    + intros Hin.
      repeat (destruct Hin as [<- | Hin];
              [rewrite Z.eqb_refl, ?orb_true_r; reflexivity |]).
      contradiction.
    + destruct (Z.eqb_spec reg JZ_REG_LCD_IID); [auto |].
      destruct (Z.eqb_spec reg JZ_REG_LCD_SA0); [auto |].
      destruct (Z.eqb_spec reg JZ_REG_LCD_FID0); [auto 6 |].
      destruct (Z.eqb_spec reg JZ_REG_LCD_CMD0); [auto 6 |].
      destruct (Z.eqb_spec reg JZ_REG_LCD_SA1); [auto 7 |].
      destruct (Z.eqb_spec reg JZ_REG_LCD_FID1); [auto 8 |].
      destruct (Z.eqb_spec reg JZ_REG_LCD_CMD1); [auto 9 |].
      cbn. discriminate.
  - intros Hro. rewrite regmap_write_exec, regmap_update_bits_exec, Hro.
    destruct s as [soc ipu regs clk descs phys sharp vbl kt cl].
    drv_eval. rewrite Hro. repeat split.
Qed.

(** Switching the end-of-frame interrupt on and off: the enable always
    answers 0 and sets the interrupt bits of CTRL, the disable clears
    them; every other bit of CTRL and every other register is as it was,
    before, between and after. *)
Theorem vblank_irq_enable_then_disable (s : ingenic_drm) :
  ingenic_drm_writeable_reg JZ_REG_LCD_CTRL = true ->
  let ctrl s := reg_get (lcd_regs s) JZ_REG_LCD_CTRL in
  let s1 := exec ingenic_drm_enable_vblank s in
  let s2 := exec ingenic_drm_disable_vblank s1 in
  result ingenic_drm_enable_vblank s = 0 /\
  (forall i, 0 <= i < 32 ->
     Z.testbit (ctrl s1) i
     = Z.testbit JZ_LCD_CTRL_EOF_IRQ i || Z.testbit (ctrl s) i) /\
  (forall i, 0 <= i < 32 ->
     Z.testbit (ctrl s2) i
     = negb (Z.testbit JZ_LCD_CTRL_EOF_IRQ i) && Z.testbit (ctrl s) i) /\
  (forall r, r <> JZ_REG_LCD_CTRL ->
     lcd_regs s1 !! r = lcd_regs s !! r /\ lcd_regs s2 !! r = lcd_regs s !! r).
Proof.
  intros Hw. cbv zeta.
  unfold ingenic_drm_enable_vblank, ingenic_drm_disable_vblank.
  destruct s as [soc ipu regs clk descs phys sharp vbl kt cl].
  drv_eval. rewrite Hw. cbn [fst snd]. drv_eval.
  split; [reflexivity |]. split; [| split].
  - intros i Hi. rewrite reg_get_insert, update_bits_testbit by exact Hi.
    destruct (Z.testbit JZ_LCD_CTRL_EOF_IRQ i); reflexivity.
  - intros i Hi. rewrite !reg_get_insert.
    rewrite update_bits_testbit by exact Hi.
    rewrite update_bits_testbit by exact Hi.
    rewrite Z.bits_0.
    destruct (Z.testbit JZ_LCD_CTRL_EOF_IRQ i); reflexivity.
  - intros r Hr. rewrite !lookup_insert_ne by congruence. split; reflexivity.
Qed.

End RegisterBits.

Lemma readonly_registers_refuse_writes_witness :
  ingenic_drm_writeable_reg (hdr := jz47xx_h) 0x44 = false /\
  result (regmap_write (hdr := jz47xx_h) 0x44 0x01000000) priv_jz4770 = -5 /\
  lcd_regs (exec (regmap_write (hdr := jz47xx_h) 0x44 0x01000000) priv_jz4770)
  = lcd_regs priv_jz4770.
Proof.
  pose proof (proj2 (readonly_registers_refuse_writes (hdr := jz47xx_h)
                       0x44 0x01000000 0 priv_jz4770) eq_refl)
    as (Hr & He & _).
  split; [reflexivity |]. split; [exact Hr | exact He].
Defined.

Lemma vblank_irq_enable_then_disable_witness :
  ingenic_drm_writeable_reg (hdr := jz47xx_h) 0x30 = true /\
  result (ingenic_drm_enable_vblank (hdr := jz47xx_h)) priv_jz4770_enabled
  = 0 /\
  reg_get (lcd_regs priv_jz4770_enabled) 0x30 = 0x8 /\
  reg_get (lcd_regs (exec (ingenic_drm_enable_vblank (hdr := jz47xx_h))
                       priv_jz4770_enabled)) 0x30 = 0x2008.
Proof.
  pose proof (vblank_irq_enable_then_disable (hdr := jz47xx_h)
                priv_jz4770_enabled eq_refl) as (Hr & _).
  split; [reflexivity |]. split; [exact Hr |]. split; reflexivity.
Defined.

(** ** The registers each operation writes *)

Section Footprint.

Context {hdr : ingenic_drm_h} {cfgh : ingenic_drm_cfg_h}.
Variable ingenic_drm_cached_gem_buf : bool.
Variable drm_fb_cma_get_gem_addr : drm_framebuffer -> drm_plane_state -> Z -> Z.

Lemma writes_within_ret {A : Type} regs (a : A) : writes_within regs (ret a).
Proof.
  intros s. split; [| reflexivity].
  exists []. split; [symmetry; apply app_nil_r | constructor].
Qed.

Lemma writes_within_bind {A B : Type} regs (c : drv A) (k : A -> drv B) :
  writes_within regs c -> (forall a, writes_within regs (k a)) ->
  writes_within regs (bind c k).
Proof.
  intros Hc Hk s.
  change (exec (bind c k) s) with (exec (k (result c s)) (exec c s)).
  destruct (Hc s) as [(l1 & Hl1 & Hf1) Hr1].
  destruct (Hk (result c s) (exec c s)) as [(l2 & Hl2 & Hf2) Hr2].
  split.
  - exists (l1 ++ l2). split.
    + rewrite Hl2, Hl1, app_assoc. reflexivity.
    + apply Forall_app. split; assumption.
  - intros reg Hreg. rewrite (Hr2 reg Hreg). apply Hr1. exact Hreg.
Qed.

Lemma writes_within_if {A : Type} regs (b : bool) (c1 c2 : drv A) :
  writes_within regs c1 -> writes_within regs c2 ->
  writes_within regs (if b then c1 else c2).
Proof. destruct b; auto. Qed.

Lemma writes_within_with_priv {A : Type} regs (k : ingenic_drm -> drv A) :
  (forall p, writes_within regs (k p)) -> writes_within regs (bind get_priv k).
Proof.
  intros Hk. apply writes_within_bind; [| exact Hk].
  intros s. split; [| reflexivity].
  exists []. split; [symmetry; apply app_nil_r | constructor].
Qed.

Lemma writes_within_mono {A : Type} regs regs' (c : drv A) :
  incl regs regs' -> writes_within regs c -> writes_within regs' c.
Proof.
  intros Hi Hc s. destruct (Hc s) as [(l & Hl & Hf) Hr]. split.
  - exists l. split; [exact Hl |].
    eapply Forall_impl; [exact Hf |]. intros c0. unfold aimed_within.
    destruct (call_written_reg c0); [apply Hi | trivial].
  - intros reg Hreg. apply Hr. intros Hin. apply Hreg, Hi, Hin.
Qed.

(** The two writing primitives write where they are aimed. *)
Lemma writes_within_write regs reg val :
  In reg regs -> writes_within regs (regmap_write reg val).
Proof.
  intros Hin s. rewrite regmap_write_exec.
  cbn [calls lcd_regs with_calls with_regs]. split.
  - eexists. split; [reflexivity |]. repeat constructor. exact Hin.
  - intros r Hr. destruct (ingenic_drm_writeable_reg reg); [| reflexivity].
    apply lookup_insert_ne. intros ->. contradiction.
Qed.

Lemma writes_within_update_bits regs reg mask val :
  In reg regs -> writes_within regs (regmap_update_bits reg mask val).
Proof.
  intros Hin s. rewrite regmap_update_bits_exec.
  cbn [calls lcd_regs with_calls with_regs]. split.
  - eexists. split; [reflexivity |]. repeat constructor. exact Hin.
  - intros r Hr. destruct (ingenic_drm_writeable_reg reg); [| reflexivity].
    apply lookup_insert_ne. intros ->. contradiction.
Qed.

(** Everything else the driver calls leaves the register block alone. *)
Lemma writes_within_read regs reg : writes_within regs (regmap_read reg).
Proof.
  intros []. split; [| reflexivity].
  eexists. split; [reflexivity |]. repeat constructor.
Qed.

Lemma writes_within_log regs c :
  call_written_reg c = None -> writes_within regs (log_call c).
Proof.
  intros Hc []. split; [| reflexivity].
  eexists. split; [reflexivity |]. repeat constructor.
  unfold aimed_within. rewrite Hc. exact I.
Qed.

Lemma writes_within_with_vbl regs f c :
  call_written_reg c = None -> writes_within regs (with_vbl f c).
Proof.
  intros Hc []. split; [| reflexivity].
  eexists. split; [reflexivity |]. repeat constructor.
  unfold aimed_within. rewrite Hc. exact I.
Qed.

Lemma writes_within_clk regs rate : writes_within regs (clk_set_rate rate).
Proof.
  intros []. split; [| reflexivity].
  eexists. split; [reflexivity |]. repeat constructor.
Qed.

Lemma writes_within_store_hwdesc regs i f :
  writes_within regs (store_hwdesc i f).
Proof.
  intros []. split; [| reflexivity].
  exists []. split; [symmetry; apply app_nil_r | constructor].
Qed.

Lemma writes_within_vblank_get regs : writes_within regs drm_crtc_vblank_get.
Proof.
  unfold drm_crtc_vblank_get. apply writes_within_with_priv. intros p.
  apply writes_within_if; apply writes_within_bind;
    auto using writes_within_with_vbl, writes_within_log, writes_within_ret.
Qed.

Create HintDb footprint.
#[local] Hint Resolve writes_within_ret
  writes_within_write writes_within_update_bits writes_within_read
  writes_within_log writes_within_with_vbl writes_within_clk
  writes_within_store_hwdesc writes_within_vblank_get : footprint.
#[local] Hint Extern 1 (In _ _) => cbn [In]; tauto : footprint.
#[local] Hint Extern 1 (call_written_reg _ = None) => reflexivity : footprint.

Ltac footprint :=
  repeat first
    [ solve [auto 3 with footprint]
    | apply writes_within_with_priv; intros ?
    | apply writes_within_bind; [| intros ?]
    | apply writes_within_if
    | match goal with
      | |- writes_within _ (match ?o with Some _ => _ | None => _ end) =>
          destruct o
      end ].

Lemma update_timings_footprint m :
  writes_within timing_regs (ingenic_drm_crtc_update_timings m).
Proof.
  unfold ingenic_drm_crtc_update_timings, timing_regs. footprint.
Qed.

Lemma plane_enable_footprint plane :
  writes_within [JZ_REG_LCD_OSDC] (ingenic_drm_plane_enable plane).
Proof. unfold ingenic_drm_plane_enable. footprint. Qed.

Lemma plane_config_footprint plane state fourcc :
  writes_within (plane_regs plane)
    (ingenic_drm_plane_config plane state fourcc).
Proof.
  unfold ingenic_drm_plane_config, plane_regs.
  apply writes_within_bind.
  - apply (writes_within_mono [JZ_REG_LCD_OSDC]);
      [| apply plane_enable_footprint].
    intros r [<- | []]. destruct (is_primary (plane_type plane)); left;
      reflexivity.
  - intros _. apply writes_within_with_priv. intros p.
    destruct (is_primary (plane_type plane)); rewrite ?andb_false_r;
      footprint.
Qed.

(** Every operation of the driver stays within registers of its own: the
    CRTC enable within STATE and CTRL, the timing translator and the
    flush within the timing registers, the begin of a commit within
    OSDCTRL, enabling and disabling a plane within OSDC, configuring and
    updating a plane within the enable, format, position and size
    registers of that plane (never those of the other plane), the
    interrupt handler within STATE, the vertical-blank switches within
    CTRL, and the encoder's mode set within CFG. Each writing call is
    aimed at one of these registers, and every other register, any
    read-only status mirror that the header keeps apart from them
    included, holds afterwards what it held before. *)
Theorem driver_register_footprint
    (m : drm_display_mode) (cs : drm_crtc_state) (cur : drm_atomic_state)
    (plane : drm_plane) (pstate : drm_plane_state) (fourcc : Z)
    (conn : drm_connector) (ps : option drm_plane_state) :
  writes_within [JZ_REG_LCD_STATE; JZ_REG_LCD_CTRL]
    ingenic_drm_crtc_atomic_enable /\
  writes_within timing_regs (ingenic_drm_crtc_update_timings m) /\
  writes_within [JZ_REG_LCD_OSDCTRL] (ingenic_drm_crtc_atomic_begin cs cur) /\
  writes_within timing_regs (ingenic_drm_crtc_atomic_flush cs) /\
  writes_within [JZ_REG_LCD_OSDC] (ingenic_drm_plane_enable plane) /\
  writes_within [JZ_REG_LCD_OSDC] (ingenic_drm_plane_disable plane) /\
  writes_within [JZ_REG_LCD_OSDC] (ingenic_drm_plane_atomic_disable plane) /\
  writes_within (plane_regs plane)
    (ingenic_drm_plane_config plane pstate fourcc) /\
  writes_within (plane_regs plane)
    (ingenic_drm_plane_atomic_update
       ingenic_drm_cached_gem_buf drm_fb_cma_get_gem_addr plane cs) /\
  writes_within [JZ_REG_LCD_STATE] ingenic_drm_irq_handler /\
  writes_within [JZ_REG_LCD_CTRL] ingenic_drm_enable_vblank /\
  writes_within [JZ_REG_LCD_CTRL] ingenic_drm_disable_vblank /\
  writes_within [JZ_REG_LCD_CFG]
    (ingenic_drm_encoder_atomic_mode_set cs conn ps).
Proof.
  repeat match goal with |- _ /\ _ => split end.
  - unfold ingenic_drm_crtc_atomic_enable, drm_crtc_vblank_on. footprint.
  - apply update_timings_footprint.
  - unfold ingenic_drm_crtc_atomic_begin. footprint.
  - unfold ingenic_drm_crtc_atomic_flush.
    apply writes_within_bind.
    + apply writes_within_if; [| footprint].
      apply writes_within_bind; [apply update_timings_footprint |].
      intros _. footprint.
    + intros _. unfold spin_lock_irq, spin_unlock_irq,
        drm_crtc_arm_vblank_event, drm_crtc_send_vblank_event. footprint.
  - apply plane_enable_footprint.
  - unfold ingenic_drm_plane_disable. footprint.
  - unfold ingenic_drm_plane_atomic_disable, ingenic_drm_plane_disable.
    footprint.
  - apply plane_config_footprint.
  - unfold ingenic_drm_plane_atomic_update, dma_cache_sync.
    destruct (plane_state plane) as [state |]; [| footprint].
    destruct (ps_fb state) as [fb |]; [| footprint].
    apply writes_within_bind; [footprint |]. intros _.
    apply writes_within_with_priv. intros p.
    repeat (apply writes_within_bind; [footprint | intros _]).
    apply writes_within_if; [apply plane_config_footprint | footprint].
  - unfold ingenic_drm_irq_handler, drm_crtc_handle_vblank. footprint.
  - unfold ingenic_drm_enable_vblank. footprint.
  - unfold ingenic_drm_disable_vblank. footprint.
  - unfold ingenic_drm_encoder_atomic_mode_set.
    apply writes_within_bind; [| intros _; footprint].
    intros s. split; [| reflexivity].
    exists []. split; [symmetry; apply app_nil_r | constructor].
Qed.

End Footprint.

(** With the offsets of the JZ47xx header no operation has a read-only
    register among those it writes, so no write of the driver is ever
    refused. *)
Example jz47xx_footprints_writeable :
  forallb (ingenic_drm_writeable_reg (hdr := jz47xx_h))
    ([0x34; 0x30; 0x104; 0x100; 0x00]
     ++ timing_regs (hdr := jz47xx_h)
     ++ plane_regs (hdr := jz47xx_h) plane_f1_vga
     ++ plane_regs (hdr := jz47xx_h) plane_f0_vga) = true.
Proof. reflexivity. Qed.

Lemma driver_register_footprint_witness :
  ~ In 0x40 (timing_regs (hdr := jz47xx_h)) /\
  lcd_regs (exec (ingenic_drm_crtc_update_timings (hdr := jz47xx_h) mode_vga)
              priv_jz4770) !! 0x40 = Some 0x0f000000 /\
  ~ In 0x120 (plane_regs (hdr := jz47xx_h) plane_f1_vga) /\
  lcd_regs (exec (ingenic_drm_plane_config (hdr := jz47xx_h) plane_f1_vga
                    plane_state_offscreen 0x36314752) priv_jz4770) !! 0x120
  = None.
Proof.
  assert (H40 : ~ In 0x40 (timing_regs (hdr := jz47xx_h))).
  { vm_compute. intuition discriminate. }
  assert (H120 : ~ In 0x120 (plane_regs (hdr := jz47xx_h) plane_f1_vga)).
  { vm_compute. intuition discriminate. }
  pose proof (driver_register_footprint (hdr := jz47xx_h)
                (cfgh := jz47xx_cfg_h) false gem_addr_example
                mode_vga (crtc_state_of mode_vga true None) planes_f1_live
                plane_f1_vga plane_state_offscreen 0x36314752
                conn_panel_24bit None)
    as (_ & Ht & _ & _ & _ & _ & _ & Hp & _).
  split; [exact H40 |]. split.
  - rewrite (proj2 (Ht priv_jz4770) _ H40). reflexivity.
  - split; [exact H120 |].
    rewrite (proj2 (Hp priv_jz4770) _ H120). reflexivity.
Defined.

(** The property separates operations: a write aimed at the status
    mirror SA0 is not within the footprint of the vertical-blank
    switches, although the register interface would refuse it. *)
Example footprint_excludes_status_mirror :
  ingenic_drm_writeable_reg (hdr := jz47xx_h) 0x44 = false /\
  ~ writes_within [0x30] (regmap_write (hdr := jz47xx_h) 0x44 1).
Proof.
  split; [reflexivity |]. intros H.
  destruct (H priv_jz4770) as [(l & Hl & Hf) _].
  rewrite regmap_write_exec in Hl. cbn [calls with_calls with_regs] in Hl.
  apply app_inv_head in Hl. subst l.
  apply Forall_cons in Hf. destruct Hf as [Hin _].
  cbn in Hin. destruct Hin as [Hin | []]. discriminate.
Qed.

(** ** Enable bits, routing and the interrupt handler, composed *)

Section EffectsMore.

Context {hdr : ingenic_drm_h}.

Lemma clear_bits_idem orig mask :
  u32 (Z.lor (Z.ldiff (u32 (Z.lor (Z.ldiff orig mask) (Z.land 0 mask))) mask)
         (Z.land 0 mask))
  = u32 (Z.lor (Z.ldiff orig mask) (Z.land 0 mask)).
Proof.
  apply Z.bits_inj'. intros i Hi.
  destruct (Z_lt_le_dec i 32) as [Hlt | Hge].
  - rewrite !update_bits_testbit by lia. rewrite Z.bits_0.
    destruct (Z.testbit mask i); reflexivity.
  - rewrite !u32_high_bits by lia. reflexivity.
Qed.

Lemma cleared_bits_land orig mask :
  Z.land (u32 (Z.lor (Z.ldiff orig mask) (Z.land 0 mask))) mask = 0.
Proof.
  apply Z.bits_inj'. intros i Hi. rewrite Z.land_spec, Z.bits_0.
  destruct (Z_lt_le_dec i 32) as [Hlt | Hge].
  - rewrite update_bits_testbit by lia. rewrite Z.bits_0.
    destruct (Z.testbit mask i); [reflexivity | apply andb_false_r].
  - rewrite u32_high_bits by lia. reflexivity.
Qed.

(** Disabling a plane clears its enable bit in OSDC (F1EN for the
    primary plane, F0EN for any other) and keeps the other bits; doing it
    a second time changes no register; and on hardware without OSD it does
    nothing at all, not even a call. *)
Theorem plane_disable_twice (plane : drm_plane) (s : ingenic_drm) :
  ingenic_drm_writeable_reg JZ_REG_LCD_OSDC = true ->
  let en_bit := if is_primary (plane_type plane)
                then JZ_LCD_OSDC_F1EN else JZ_LCD_OSDC_F0EN in
  let s1 := exec (ingenic_drm_plane_disable plane) s in
  let s2 := exec (ingenic_drm_plane_disable plane) s1 in
  lcd_regs s2 = lcd_regs s1 /\
  (has_osd (soc_info s) = true ->
   forall i, 0 <= i < 32 ->
     Z.testbit (reg_get (lcd_regs s1) JZ_REG_LCD_OSDC) i
     = negb (Z.testbit en_bit i)
       && Z.testbit (reg_get (lcd_regs s) JZ_REG_LCD_OSDC) i) /\
  (has_osd (soc_info s) = false -> s1 = s).
Proof.
  intros Hw. cbv zeta. unfold ingenic_drm_plane_disable.
  destruct s as [soc ipu regs clk descs phys sharp vbl kt cl].
  cbn [soc_info].
  destruct (has_osd soc) eqn:Hosd; drv_eval; rewrite ?Hosd; drv_eval;
    rewrite ?Hosd, ?Hw; drv_eval.
  - split; [| split].
    + rewrite reg_get_insert, clear_bits_idem. apply insert_insert_eq.
    + intros _ i Hi. rewrite reg_get_insert, update_bits_testbit by exact Hi.
      rewrite Z.bits_0.
      destruct (Z.testbit (if is_primary (plane_type plane)
                           then JZ_LCD_OSDC_F1EN else JZ_LCD_OSDC_F0EN) i);
        reflexivity.
    + discriminate.
  - split; [reflexivity |]. split; [discriminate | reflexivity].
Qed.

(** Enabling a plane and then disabling it leaves every OSDC bit outside
    the plane's enable mask as it was before, and the enable mask clear:
    the disable undoes the enable. *)
Theorem plane_enable_then_disable (plane : drm_plane) (s : ingenic_drm) :
  ingenic_drm_writeable_reg JZ_REG_LCD_OSDC = true ->
  has_osd (soc_info s) = true ->
  let en_bit := if is_primary (plane_type plane)
                then JZ_LCD_OSDC_F1EN else JZ_LCD_OSDC_F0EN in
  let s1 := exec (ingenic_drm_plane_enable plane) s in
  let s2 := exec (ingenic_drm_plane_disable plane) s1 in
  forall i, 0 <= i < 32 ->
    Z.testbit (reg_get (lcd_regs s1) JZ_REG_LCD_OSDC) i
    = Z.testbit en_bit i
      || Z.testbit (reg_get (lcd_regs s) JZ_REG_LCD_OSDC) i /\
    Z.testbit (reg_get (lcd_regs s2) JZ_REG_LCD_OSDC) i
    = negb (Z.testbit en_bit i)
      && Z.testbit (reg_get (lcd_regs s) JZ_REG_LCD_OSDC) i.
Proof.
  intros Hw Hosd. cbv zeta.
  unfold ingenic_drm_plane_disable, ingenic_drm_plane_enable.
  destruct s as [soc ipu regs clk descs phys sharp vbl kt cl].
  cbn [soc_info] in Hosd.
  drv_eval; rewrite ?Hosd; drv_eval; rewrite ?Hosd, ?Hw; drv_eval.
  intros i Hi. rewrite !reg_get_insert.
  rewrite !update_bits_testbit by exact Hi. rewrite Z.bits_0.
  destruct (Z.testbit (if is_primary (plane_type plane)
                       then JZ_LCD_OSDC_F1EN else JZ_LCD_OSDC_F0EN) i);
    split; reflexivity.
Qed.

(** The begin phase does nothing at all unless the hardware has OSD and
    a modeset is in effect; when both hold it makes one register update,
    after which the IPU routing bits of OSDCTRL say whether the IPU plane
    has a buffer, and every other bit and register is as before. *)
Theorem crtc_begin_routes_ipu
    (cs : drm_crtc_state) (cur : drm_atomic_state) (s : ingenic_drm) :
  ingenic_drm_writeable_reg JZ_REG_LCD_OSDCTRL = true ->
  let s' := exec (ingenic_drm_crtc_atomic_begin cs cur) s in
  (has_osd (soc_info s) && drm_atomic_crtc_needs_modeset cs = false ->
   s' = s) /\
  (has_osd (soc_info s) && drm_atomic_crtc_needs_modeset cs = true ->
   (forall i, 0 <= i < 32 ->
      Z.testbit (reg_get (lcd_regs s') JZ_REG_LCD_OSDCTRL) i
      = if Z.testbit JZ_LCD_OSDCTRL_IPU i then ipu_fb_live s cur
        else Z.testbit (reg_get (lcd_regs s) JZ_REG_LCD_OSDCTRL) i) /\
   (forall r, r <> JZ_REG_LCD_OSDCTRL -> lcd_regs s' !! r = lcd_regs s !! r) /\
   length (calls s') = S (length (calls s))).
Proof.
  intros Hw. cbv zeta. unfold ingenic_drm_crtc_atomic_begin.
  destruct s as [soc ipu regs clk descs phys sharp vbl kt cl].
  cbn [soc_info].
  destruct (has_osd soc && drm_atomic_crtc_needs_modeset cs) eqn:Hb;
    drv_eval; rewrite ?Hb; drv_eval; rewrite ?Hw; drv_eval.
  - split; [discriminate |]. intros _. split; [| split].
    + intros i Hi. rewrite reg_get_insert, update_bits_testbit by exact Hi.
      unfold ipu_fb_live. cbn [ipu_plane].
      destruct (Z.testbit JZ_LCD_OSDCTRL_IPU i) eqn:Hbit; [| reflexivity].
      destruct (match ipu with
                | Some p => non_null (ps_fb (drm_atomic_get_plane_state cur p))
                | None => false
                end).
      * rewrite Z.lor_0_l. exact Hbit.
      * apply Z.bits_0.
    + intros r Hr. apply lookup_insert_ne. congruence.
    + rewrite length_app. cbn. lia.
  - split; [reflexivity | discriminate].
Qed.

(** Enabling the CRTC clears STATE, sets the enable bits of CTRL and
    clears those disable bits that are not enable bits, keeps every other
    bit of CTRL, and switches vertical blanks on. *)
Theorem crtc_enable_programs_ctrl (s : ingenic_drm) :
  ingenic_drm_writeable_reg JZ_REG_LCD_STATE = true ->
  ingenic_drm_writeable_reg JZ_REG_LCD_CTRL = true ->
  JZ_REG_LCD_STATE <> JZ_REG_LCD_CTRL ->
  let s' := exec ingenic_drm_crtc_atomic_enable s in
  reg_get (lcd_regs s') JZ_REG_LCD_STATE = 0 /\
  (forall i, 0 <= i < 32 ->
     Z.testbit (reg_get (lcd_regs s') JZ_REG_LCD_CTRL) i
     = Z.testbit JZ_LCD_CTRL_ENABLE i
       || negb (Z.testbit JZ_LCD_CTRL_DISABLE i)
          && Z.testbit (reg_get (lcd_regs s) JZ_REG_LCD_CTRL) i) /\
  vbl_enabled (vblank s') = true /\
  calls s' = calls s ++ [CallRegmapWrite JZ_REG_LCD_STATE 0;
                         CallRegmapUpdateBits JZ_REG_LCD_CTRL
                           (Z.lor JZ_LCD_CTRL_ENABLE JZ_LCD_CTRL_DISABLE)
                           JZ_LCD_CTRL_ENABLE;
                         CallVblankOn].
Proof.
  intros Hws Hwc Hne. cbv zeta. unfold ingenic_drm_crtc_atomic_enable.
  destruct s as [soc ipu regs clk descs phys sharp
                 [enabled refs count armed sent] kt cl].
  drv_eval. rewrite Hws, Hwc. drv_eval.
  split; [| split; [| split]].
  - rewrite reg_get_insert_ne by congruence. rewrite reg_get_insert.
    reflexivity.
  - intros i Hi. rewrite reg_get_insert, update_bits_testbit by exact Hi.
    rewrite reg_get_insert_ne by exact Hne. rewrite Z.lor_spec.
    destruct (Z.testbit JZ_LCD_CTRL_ENABLE i),
             (Z.testbit JZ_LCD_CTRL_DISABLE i); reflexivity.
  - reflexivity.
  - norm_calls. reflexivity.
Qed.

(** One end of frame is handed on once: when the handler runs a second
    time on the state it left, it finds the end-of-frame bit clear, does
    not notify, and changes neither the registers nor the vertical-blank
    bookkeeping. *)
Theorem irq_handler_second_run_is_silent (s : ingenic_drm) :
  ingenic_drm_writeable_reg JZ_REG_LCD_STATE = true ->
  let s1 := exec ingenic_drm_irq_handler s in
  let s2 := exec ingenic_drm_irq_handler s1 in
  Z.land (reg_get (lcd_regs s1) JZ_REG_LCD_STATE) JZ_LCD_STATE_EOF_IRQ = 0 /\
  vblank s2 = vblank s1 /\ lcd_regs s2 = lcd_regs s1 /\
  calls s2 = calls s1 ++ [CallRegmapRead JZ_REG_LCD_STATE;
                          CallRegmapUpdateBits JZ_REG_LCD_STATE
                            JZ_LCD_STATE_EOF_IRQ 0].
Proof.
  intros Hw. cbv zeta.
  set (s1 := exec ingenic_drm_irq_handler s).
  set (v1 := u32 (Z.lor (Z.ldiff (reg_get (lcd_regs s) JZ_REG_LCD_STATE)
                           JZ_LCD_STATE_EOF_IRQ)
                    (Z.land 0 JZ_LCD_STATE_EOF_IRQ))).
  assert (Hlook : lcd_regs s1 !! JZ_REG_LCD_STATE = Some v1).
  { unfold s1, v1, exec. pose proof (irq_handler_exec s) as H1.
    cbv zeta in H1. rewrite H1, Hw. cbn [snd]. rewrite land_zero_r_ldiff.
    destruct (Zneqb _ 0);
      destruct s as [soc ipu regs clk descs phys sharp vbl kt cl];
      drv_eval; apply lookup_insert_eq. }
  assert (Hreg : reg_get (lcd_regs s1) JZ_REG_LCD_STATE = v1).
  { unfold reg_get. rewrite Hlook. reflexivity. }
  assert (H2 : exec ingenic_drm_irq_handler s1 =
               with_calls (calls s1 ++ [CallRegmapRead JZ_REG_LCD_STATE;
                                        CallRegmapUpdateBits JZ_REG_LCD_STATE
                                          JZ_LCD_STATE_EOF_IRQ 0])
                 (with_regs (<[JZ_REG_LCD_STATE := v1]> (lcd_regs s1)) s1)).
  { unfold exec. pose proof (irq_handler_exec s1) as H. cbv zeta in H.
    rewrite H, Hw, Hreg. cbn [snd].
    replace (Z.land v1 JZ_LCD_STATE_EOF_IRQ) with 0
      by (symmetry; apply cleared_bits_land).
    cbn [Zneqb Z.eqb negb].
    rewrite <- (land_zero_r_ldiff v1). unfold v1. rewrite clear_bits_idem.
    reflexivity. }
  rewrite H2. cbn [vblank lcd_regs calls with_calls with_regs].
  rewrite Hreg. split; [apply cleared_bits_land |].
  split; [reflexivity |]. split; [| reflexivity].
  apply insert_id. exact Hlook.
Qed.

End EffectsMore.

Lemma plane_disable_twice_witness :
  ingenic_drm_writeable_reg (hdr := jz47xx_h) 0x100 = true /\
  reg_get (lcd_regs (exec (ingenic_drm_plane_enable (hdr := jz47xx_h)
                             plane_f1_vga) priv_jz4770)) 0x100 = 0x11 /\
  let s1 := exec (ingenic_drm_plane_disable (hdr := jz47xx_h) plane_f1_vga)
              (exec (ingenic_drm_plane_enable (hdr := jz47xx_h)
                       plane_f1_vga) priv_jz4770) in
  lcd_regs (exec (ingenic_drm_plane_disable (hdr := jz47xx_h) plane_f1_vga)
              s1) = lcd_regs s1 /\
  reg_get (lcd_regs s1) 0x100 = 0x1.
Proof.
  split; [reflexivity |]. split; [reflexivity |].
  split; [| reflexivity].
  exact (proj1 (plane_disable_twice (hdr := jz47xx_h) plane_f1_vga
                  (exec (ingenic_drm_plane_enable (hdr := jz47xx_h)
                           plane_f1_vga) priv_jz4770) eq_refl)).
Defined.

Lemma plane_enable_then_disable_witness :
  Z.testbit (reg_get (lcd_regs
               (exec (ingenic_drm_plane_enable (hdr := jz47xx_h)
                        plane_f1_vga) priv_jz4770)) 0x100) 4 = true /\
  Z.testbit (reg_get (lcd_regs
               (exec (ingenic_drm_plane_disable (hdr := jz47xx_h)
                        plane_f1_vga)
                  (exec (ingenic_drm_plane_enable (hdr := jz47xx_h)
                           plane_f1_vga) priv_jz4770))) 0x100) 4 = false.
Proof.
  destruct (plane_enable_then_disable (hdr := jz47xx_h) plane_f1_vga
              priv_jz4770 eq_refl eq_refl 4 ltac:(lia)) as [H1 H2].
  split; [eapply eq_trans; [exact H1 | reflexivity]
         | eapply eq_trans; [exact H2 | reflexivity]].
Defined.

Lemma crtc_begin_routes_ipu_witness :
  exec (ingenic_drm_crtc_atomic_begin (hdr := jz47xx_h)
          (crtc_state_of mode_vga false None) planes_f0_ipu_live)
    priv_jz4770 = priv_jz4770 /\
  Z.testbit (reg_get (lcd_regs
               (exec (ingenic_drm_crtc_atomic_begin (hdr := jz47xx_h)
                        (crtc_state_of mode_vga true None)
                        planes_f0_ipu_live) priv_jz4770)) 0x104) 15 = true.
Proof.
  split.
  - apply (proj1 (crtc_begin_routes_ipu (hdr := jz47xx_h)
                    (crtc_state_of mode_vga false None) planes_f0_ipu_live
                    priv_jz4770 eq_refl)).
    reflexivity.
  - destruct (proj2 (crtc_begin_routes_ipu (hdr := jz47xx_h)
                       (crtc_state_of mode_vga true None) planes_f0_ipu_live
                       priv_jz4770 eq_refl) eq_refl) as (Hbits & _).
    eapply eq_trans; [exact (Hbits 15 ltac:(lia)) | reflexivity].
Defined.

Lemma crtc_enable_programs_ctrl_witness :
  reg_get (lcd_regs (exec (ingenic_drm_crtc_atomic_enable (hdr := jz47xx_h))
                       priv_jz4770)) 0x34 = 0 /\
  vbl_enabled (vblank (exec (ingenic_drm_crtc_atomic_enable
                               (hdr := jz47xx_h)) priv_jz4770)) = true.
Proof.
  pose proof (crtc_enable_programs_ctrl (hdr := jz47xx_h) priv_jz4770
                eq_refl eq_refl ltac:(discriminate)) as (Hs & _ & Hv & _).
  split; [exact Hs | exact Hv].
Defined.

Lemma irq_handler_second_run_is_silent_witness :
  let s := lcd_raise_eof (hdr := jz47xx_h) priv_jz4770_enabled in
  let s1 := exec (ingenic_drm_irq_handler (hdr := jz47xx_h)) s in
  let s2 := exec (ingenic_drm_irq_handler (hdr := jz47xx_h)) s1 in
  vbl_count (vblank s) = 0 /\ vbl_count (vblank s1) = 1 /\
  vblank s2 = vblank s1 /\ lcd_regs s2 = lcd_regs s1.
Proof.
  cbv zeta.
  pose proof (irq_handler_second_run_is_silent (hdr := jz47xx_h)
                (lcd_raise_eof (hdr := jz47xx_h) priv_jz4770_enabled)
                eq_refl) as (_ & Hv & Hr & _).
  split; [reflexivity |]. split; [reflexivity |].
  split; [exact Hv | exact Hr].
Defined.

(** ** Flush and plane update, composed *)

Ltac flush_run :=
  unfold ingenic_drm_crtc_atomic_flush, ingenic_drm_crtc_update_timings;
  drv_eval;
  change (0 =? 0) with true; change (- EINVAL =? 0) with false;
  drv_eval.

Section PlanesMore.

Context {hdr : ingenic_drm_h}.
Variable ingenic_drm_cached_gem_buf : bool.
Variable drm_fb_cma_get_gem_addr : drm_framebuffer -> drm_plane_state -> Z -> Z.

Abbreviation plane_update :=
  (ingenic_drm_plane_atomic_update ingenic_drm_cached_gem_buf
     drm_fb_cma_get_gem_addr).

(** A notification is delivered by one flush only: flushing again with
    the CRTC state the first flush left arms and sends nothing, leaves the
    vertical-blank bookkeeping alone, and for a fast update changes
    nothing at all. *)
Theorem flush_again_delivers_nothing
    (state : drm_crtc_state) (s : ingenic_drm) :
  let state1 := result (ingenic_drm_crtc_atomic_flush state) s in
  let s1 := exec (ingenic_drm_crtc_atomic_flush state) s in
  let s2 := exec (ingenic_drm_crtc_atomic_flush state1) s1 in
  vblank s2 = vblank s1 /\
  calls s2 =
  calls s1
  ++ (if drm_atomic_crtc_needs_modeset state
      then timing_calls (mode state) (panel_is_sharp s1)
           ++ [CallClkSetRate (u32 (clock (adjusted_mode state) * 1000))]
      else []) /\
  (drm_atomic_crtc_needs_modeset state = false -> s2 = s1).
Proof.
  cbv zeta. rewrite flush_clears_event.
  split; [| split].
  - rewrite flush_vblank. reflexivity.
  - rewrite flush_calls. cbn [event set_event event_calls].
    rewrite app_nil_r. reflexivity.
  - intros Hm. unfold ingenic_drm_crtc_atomic_flush at 1.
    change (drm_atomic_crtc_needs_modeset (set_event None state))
      with (drm_atomic_crtc_needs_modeset state).
    rewrite Hm. reflexivity.
Qed.

(** After the flush of a modeset the pixel clock runs at the adjusted
    mode's clock, given in kHz, times 1000, as long as that fits 32 bits;
    the rate is asked for after the timing registers are written. *)
Theorem flush_modeset_sets_pixel_clock
    (state : drm_crtc_state) (s : ingenic_drm) :
  drm_atomic_crtc_needs_modeset state = true ->
  0 <= clock (adjusted_mode state) < 4294967 ->
  let s' := exec (ingenic_drm_crtc_atomic_flush state) s in
  pix_clk s' = clock (adjusted_mode state) * 1000 /\
  calls s' =
  calls s ++ timing_calls (mode state) (panel_is_sharp s)
  ++ [CallClkSetRate (clock (adjusted_mode state) * 1000)]
  ++ event_calls (event state) (vbl_enabled (vblank s)).
Proof.
  intros Hm Hc. cbv zeta.
  assert (Hu : u32 (clock (adjusted_mode state) * 1000)
               = clock (adjusted_mode state) * 1000)
    by (apply u32_small; lia).
  split.
  - destruct s as [soc ipu regs clk descs phys sharp
                   [enabled refs count armed sent] kt cl].
    destruct (event state) as [e |] eqn:He, enabled, sharp;
      flush_run; rewrite ?Hm, ?He; flush_run; exact Hu.
  - rewrite flush_calls, Hm, Hu, <- !app_assoc. reflexivity.
Qed.

Lemma plane_update_soc_info plane cs s :
  soc_info (exec (plane_update plane cs) s) = soc_info s.
Proof.
  destruct s as [soc ipu regs clk descs phys sharp vbl kt cl].
  unfold ingenic_drm_plane_atomic_update.
  destruct (plane_state plane) as [state |]; [| reflexivity].
  destruct (ps_fb state) as [fb |]; [| reflexivity].
  unfold ingenic_drm_plane_config, ingenic_drm_plane_enable.
  destruct ingenic_drm_cached_gem_buf,
           (drm_atomic_crtc_needs_modeset cs),
           (has_osd soc) eqn:Hosd, (is_primary (plane_type plane));
    drv_eval; rewrite ?Hosd; drv_eval; cbn [negb andb]; drv_eval;
    reflexivity.
Qed.

Lemma plane_update_descriptor_at plane cs s d state fb :
  dma_hwdesc s !! hwdesc_idx s plane = Some d ->
  plane_state plane = Some state -> ps_fb state = Some fb ->
  dma_hwdesc (exec (plane_update plane cs) s) !! hwdesc_idx s plane =
  Some {| hwdesc_next := hwdesc_next d;
          hwdesc_addr := u32 (drm_fb_cma_get_gem_addr fb state 0);
          hwdesc_id := hwdesc_id d;
          hwdesc_cmd :=
            Z.lor (u32 (shr32 (src_w state) 16 * shr32 (src_h state) 16
                        * fb_cpp0 fb) / 4) JZ_LCD_CMD_EOF_IRQ |}.
Proof.
  intros Hd Hst Hfb.
  destruct (plane_update_hwdesc ingenic_drm_cached_gem_buf
              drm_fb_cma_get_gem_addr plane cs s) as [_ Hdesc].
  cbv zeta in Hdesc. rewrite Hdesc, Hst, Hfb.
  rewrite !list_lookup_alter_eq, Hd. reflexivity.
Qed.

(** What a plane update leaves in the descriptor of the plane: the bus
    address of the buffer, and a command word that is the length of the
    transfer in 32-bit words (width x height x bytes per pixel, over 4)
    with the end-of-frame interrupt request set; next pointer and tag
    are kept. A plane without a state or without a framebuffer is not
    programmed at all: the device is exactly as before. *)
Theorem plane_update_programs_descriptor
    (plane : drm_plane) (cs : drm_crtc_state) (s : ingenic_drm)
    (d : ingenic_dma_hwdesc) :
  dma_hwdesc s !! hwdesc_idx s plane = Some d ->
  let s' := exec (plane_update plane cs) s in
  (forall state fb,
     plane_state plane = Some state -> ps_fb state = Some fb ->
     dma_hwdesc s' !! hwdesc_idx s plane =
     Some {| hwdesc_next := hwdesc_next d;
             hwdesc_addr := u32 (drm_fb_cma_get_gem_addr fb state 0);
             hwdesc_id := hwdesc_id d;
             hwdesc_cmd :=
               Z.lor (u32 (shr32 (src_w state) 16 * shr32 (src_h state) 16
                           * fb_cpp0 fb) / 4) JZ_LCD_CMD_EOF_IRQ |}) /\
  (plane_state plane = None \/
   (exists state, plane_state plane = Some state /\ ps_fb state = None) ->
   s' = s).
Proof.
  intros Hd. cbv zeta. split.
  - intros state fb Hst Hfb.
    apply plane_update_descriptor_at; assumption.
  - unfold ingenic_drm_plane_atomic_update.
    intros [Hn | (state & Hst & Hfb)].
    + rewrite Hn. reflexivity.
    + rewrite Hst, Hfb. reflexivity.
Qed.

(** A page flip changes the buffer address and nothing else in the
    descriptor: when a plane is updated again with a state of the same
    source size and bytes per pixel, the command word stays and the
    address is that of the new buffer. *)
Theorem page_flip_changes_only_address
    (t : drm_plane_type) (st1 st2 : drm_plane_state)
    (fb1 fb2 : drm_framebuffer) (cs1 cs2 : drm_crtc_state)
    (s : ingenic_drm) (d : ingenic_dma_hwdesc) :
  let p1 := {| plane_type := t; plane_state := Some st1 |} in
  let p2 := {| plane_type := t; plane_state := Some st2 |} in
  ps_fb st1 = Some fb1 -> ps_fb st2 = Some fb2 ->
  src_w st2 = src_w st1 -> src_h st2 = src_h st1 ->
  fb_cpp0 fb2 = fb_cpp0 fb1 ->
  dma_hwdesc s !! hwdesc_idx s p1 = Some d ->
  let s1 := exec (plane_update p1 cs1) s in
  let s2 := exec (plane_update p2 cs2) s1 in
  exists d1,
    dma_hwdesc s1 !! hwdesc_idx s p1 = Some d1 /\
    dma_hwdesc s2 !! hwdesc_idx s p1 =
    Some (set_hwdesc_addr (u32 (drm_fb_cma_get_gem_addr fb2 st2 0)) d1).
Proof.
  cbv zeta. intros Hfb1 Hfb2 Hw Hh Hcpp Hd.
  set (p1 := {| plane_type := t; plane_state := Some st1 |}).
  set (p2 := {| plane_type := t; plane_state := Some st2 |}).
  assert (Hidx : hwdesc_idx (exec (plane_update p1 cs1) s) p2
                 = hwdesc_idx s p1).
  { unfold hwdesc_idx. rewrite plane_update_soc_info. reflexivity. }
  pose proof (plane_update_descriptor_at p1 cs1 s d st1 fb1 Hd
                eq_refl Hfb1) as H1.
  eexists. split; [exact H1 |].
  rewrite <- Hidx in H1 |- *.
  rewrite (plane_update_descriptor_at p2 cs2 _ _ st2 fb2 H1 eq_refl Hfb2).
  cbn [hwdesc_next hwdesc_id set_hwdesc_addr hwdesc_cmd].
  rewrite Hw, Hh, Hcpp. reflexivity.
Qed.

(** On hardware with OSD the primary plane and an overlay plane have a
    descriptor each (1 and 0), so their updates do not disturb one
    another: in either order they leave the same descriptors. *)
Theorem plane_updates_commute
    (pp po : drm_plane) (cs1 cs2 : drm_crtc_state) (s : ingenic_drm) :
  has_osd (soc_info s) = true ->
  is_primary (plane_type pp) = true ->
  is_primary (plane_type po) = false ->
  dma_hwdesc (exec (plane_update po cs2) (exec (plane_update pp cs1) s))
  = dma_hwdesc (exec (plane_update pp cs1) (exec (plane_update po cs2) s)).
Proof.
  intros Hosd Hp Ho.
  assert (Hip : forall s', soc_info s' = soc_info s ->
                           hwdesc_idx s' pp = 1%nat).
  { intros s' Hs. unfold hwdesc_idx. rewrite Hs, Hosd, Hp. reflexivity. }
  assert (Hio : forall s', soc_info s' = soc_info s ->
                           hwdesc_idx s' po = 0%nat).
  { intros s' Hs. unfold hwdesc_idx. rewrite Hs, Hosd, Ho. reflexivity. }
  destruct (plane_update_hwdesc ingenic_drm_cached_gem_buf
              drm_fb_cma_get_gem_addr po cs2
              (exec (plane_update pp cs1) s)) as [_ H1].
  destruct (plane_update_hwdesc ingenic_drm_cached_gem_buf
              drm_fb_cma_get_gem_addr pp cs1 s) as [_ H2].
  destruct (plane_update_hwdesc ingenic_drm_cached_gem_buf
              drm_fb_cma_get_gem_addr pp cs1
              (exec (plane_update po cs2) s)) as [_ H3].
  destruct (plane_update_hwdesc ingenic_drm_cached_gem_buf
              drm_fb_cma_get_gem_addr po cs2 s) as [_ H4].
  cbv zeta in H1, H2, H3, H4. rewrite H1, H3, H2, H4.
  rewrite (Hio _ (plane_update_soc_info pp cs1 s)).
  rewrite (Hip _ (plane_update_soc_info po cs2 s)).
  rewrite (Hip s eq_refl), (Hio s eq_refl).
  destruct (plane_state po) as [sto |]; [| reflexivity].
  destruct (ps_fb sto) as [fbo |]; [| reflexivity].
  destruct (plane_state pp) as [stp |]; [| reflexivity].
  destruct (ps_fb stp) as [fbp |]; [| reflexivity].
  destruct (dma_hwdesc s) as [| a [| b l]]; reflexivity.
Qed.

(** Configuring a plane on hardware without OSD makes one call, the
    update of the pixel format field of CTRL: there is no enable bit to
    set and no position or size register to write. On hardware with OSD
    it sets the plane's enable bit, updates the format field (in OSDCTRL
    for the primary plane, in CTRL for another), and writes the plane's
    position and size registers; the position, built from signed
    coordinates, reaches the register interface modulo 2^32. *)
Theorem plane_config_calls
    (plane : drm_plane) (state : drm_plane_state) (fourcc : Z)
    (s : ingenic_drm) :
  let s' := exec (ingenic_drm_plane_config plane state fourcc) s in
  let primary := is_primary (plane_type plane) in
  (has_osd (soc_info s) = false ->
   calls s' = calls s ++ [CallRegmapUpdateBits JZ_REG_LCD_CTRL
                            JZ_LCD_CTRL_BPP_MASK (ctrl_bpp fourcc)]) /\
  (has_osd (soc_info s) = true ->
   calls s' =
   calls s ++
   [ CallRegmapUpdateBits JZ_REG_LCD_OSDC
       (if primary then JZ_LCD_OSDC_F1EN else JZ_LCD_OSDC_F0EN)
       (if primary then JZ_LCD_OSDC_F1EN else JZ_LCD_OSDC_F0EN);
     (if primary
      then CallRegmapUpdateBits JZ_REG_LCD_OSDCTRL
             JZ_LCD_OSDCTRL_BPP_MASK (osdctrl_bpp fourcc)
      else CallRegmapUpdateBits JZ_REG_LCD_CTRL
             JZ_LCD_CTRL_BPP_MASK (ctrl_bpp fourcc));
     CallRegmapWrite
       (if primary then JZ_REG_LCD_XYP1 else JZ_REG_LCD_XYP0)
       (u32 (Z.lor (Z.shiftl (crtc_x state) JZ_LCD_XYP01_XPOS_LSB)
                   (Z.shiftl (crtc_y state) JZ_LCD_XYP01_YPOS_LSB)));
     CallRegmapWrite
       (if primary then JZ_REG_LCD_SIZE1 else JZ_REG_LCD_SIZE0)
       (Z.lor (shl32 (crtc_w state) JZ_LCD_SIZE01_WIDTH_LSB)
              (shl32 (crtc_h state) JZ_LCD_SIZE01_HEIGHT_LSB)) ]).
Proof.
  cbv zeta. unfold ingenic_drm_plane_config, ingenic_drm_plane_enable.
  destruct s as [soc ipu regs clk descs phys sharp vbl kt cl].
  cbn [soc_info].
  destruct (has_osd soc) eqn:Hosd, (is_primary (plane_type plane));
    drv_eval; rewrite ?Hosd; drv_eval; cbn [andb]; drv_eval;
    (split; intros Hc; [try discriminate | try discriminate]);
    norm_calls; reflexivity.
Qed.

End PlanesMore.

Lemma flush_modeset_sets_pixel_clock_witness :
  pix_clk (exec (ingenic_drm_crtc_atomic_flush (hdr := jz47xx_h)
                   (crtc_state_of mode_vga true None)) priv_jz4770_enabled)
  = 25175000.
Proof.
  exact (proj1 (flush_modeset_sets_pixel_clock (hdr := jz47xx_h)
                  (crtc_state_of mode_vga true None) priv_jz4770_enabled
                  eq_refl ltac:(cbn; lia))).
Defined.

Lemma flush_again_delivers_nothing_witness :
  let state := crtc_state_of mode_vga false (Some 7%nat) in
  let s1 := exec (ingenic_drm_crtc_atomic_flush (hdr := jz47xx_h) state)
              priv_jz4770_enabled in
  vbl_armed (vblank s1) = [7%nat] /\
  exec (ingenic_drm_crtc_atomic_flush (hdr := jz47xx_h)
          (result (ingenic_drm_crtc_atomic_flush (hdr := jz47xx_h) state)
             priv_jz4770_enabled)) s1 = s1.
Proof.
  cbv zeta. split; [reflexivity |].
  exact (proj2 (proj2 (flush_again_delivers_nothing (hdr := jz47xx_h)
                         (crtc_state_of mode_vga false (Some 7%nat))
                         priv_jz4770_enabled)) eq_refl).
Defined.

Lemma plane_update_programs_descriptor_witness :
  dma_hwdesc (exec (ingenic_drm_plane_atomic_update (hdr := jz47xx_h) false
                      gem_addr_example plane_f1_vga
                      (crtc_state_of mode_vga false None)) priv_jz4770)
    !! 1%nat
  = Some {| hwdesc_next := 0x0f000010; hwdesc_addr := 0x01000000;
            hwdesc_id := 0xdeadbabe; hwdesc_cmd := 0x40025800 |}.
Proof.
  exact (proj1 (plane_update_programs_descriptor (hdr := jz47xx_h) false
                  gem_addr_example plane_f1_vga
                  (crtc_state_of mode_vga false None) priv_jz4770
                  {| hwdesc_next := 0x0f000010; hwdesc_addr := 0;
                     hwdesc_id := 0xdeadbabe; hwdesc_cmd := 0 |} eq_refl)
           (plane_state_vga fb_vga 0) fb_vga eq_refl eq_refl).
Defined.

Lemma page_flip_changes_only_address_witness :
  exists d1,
    dma_hwdesc (exec (ingenic_drm_plane_atomic_update (hdr := jz47xx_h) false
                        gem_addr_example
                        {| plane_type := DRM_PLANE_TYPE_PRIMARY;
                           plane_state := Some (plane_state_vga fb_vga 0) |}
                        (crtc_state_of mode_vga true None)) priv_jz4770)
      !! 1%nat = Some d1 /\
    dma_hwdesc
      (exec (ingenic_drm_plane_atomic_update (hdr := jz47xx_h) false
               gem_addr_example
               {| plane_type := DRM_PLANE_TYPE_PRIMARY;
                  plane_state := Some (plane_state_vga fb_vga_tall 480) |}
               (crtc_state_of mode_vga false None))
         (exec (ingenic_drm_plane_atomic_update (hdr := jz47xx_h) false
                  gem_addr_example
                  {| plane_type := DRM_PLANE_TYPE_PRIMARY;
                     plane_state := Some (plane_state_vga fb_vga 0) |}
                  (crtc_state_of mode_vga true None)) priv_jz4770))
      !! 1%nat = Some (set_hwdesc_addr 0x02096000 d1).
Proof.
  exact (page_flip_changes_only_address (hdr := jz47xx_h) false
           gem_addr_example DRM_PLANE_TYPE_PRIMARY
           (plane_state_vga fb_vga 0) (plane_state_vga fb_vga_tall 480)
           fb_vga fb_vga_tall
           (crtc_state_of mode_vga true None)
           (crtc_state_of mode_vga false None) priv_jz4770
           {| hwdesc_next := 0x0f000010; hwdesc_addr := 0;
              hwdesc_id := 0xdeadbabe; hwdesc_cmd := 0 |}
           eq_refl eq_refl eq_refl eq_refl eq_refl eq_refl).
Defined.

Lemma plane_updates_commute_witness :
  dma_hwdesc
    (exec (ingenic_drm_plane_atomic_update (hdr := jz47xx_h) false
             gem_addr_example plane_f0_vga
             (crtc_state_of mode_vga false None))
       (exec (ingenic_drm_plane_atomic_update (hdr := jz47xx_h) false
                gem_addr_example plane_f1_vga
                (crtc_state_of mode_vga false None)) priv_jz4770))
  = dma_hwdesc
      (exec (ingenic_drm_plane_atomic_update (hdr := jz47xx_h) false
               gem_addr_example plane_f1_vga
               (crtc_state_of mode_vga false None))
         (exec (ingenic_drm_plane_atomic_update (hdr := jz47xx_h) false
                  gem_addr_example plane_f0_vga
                  (crtc_state_of mode_vga false None)) priv_jz4770)).
Proof.
  exact (plane_updates_commute (hdr := jz47xx_h) false gem_addr_example
           plane_f1_vga plane_f0_vga
           (crtc_state_of mode_vga false None)
           (crtc_state_of mode_vga false None) priv_jz4770
           eq_refl eq_refl eq_refl).
Defined.

Lemma plane_config_calls_witness :
  calls (exec (ingenic_drm_plane_config (hdr := jz47xx_h) plane_f1_vga
                 (plane_state_vga fb_vga 0) 0x36314752) priv_jz4740)
  = calls priv_jz4740 ++ [CallRegmapUpdateBits 0x30 0x8000007 4] /\
  calls (exec (ingenic_drm_plane_config (hdr := jz47xx_h) plane_f0_vga
                 plane_state_offscreen 0x36314752) priv_jz4770)
  = calls priv_jz4770 ++
    [ CallRegmapUpdateBits 0x100 0x8 0x8;
      CallRegmapUpdateBits 0x30 0x8000007 4;
      CallRegmapWrite 0x120 0xfffffff0;
      CallRegmapWrite 0x128 0x1e00280 ].
Proof.
  split.
  - exact (proj1 (plane_config_calls (hdr := jz47xx_h) plane_f1_vga
                    (plane_state_vga fb_vga 0) 0x36314752 priv_jz4740)
             eq_refl).
  - exact (proj2 (plane_config_calls (hdr := jz47xx_h) plane_f0_vga
                    plane_state_offscreen 0x36314752 priv_jz4770)
             eq_refl).
Defined.

(** ** The encoder *)

Section EncoderProperties.

Context {hdr : ingenic_drm_h} {cfgh : ingenic_drm_cfg_h}.

(** The encoder check accepts exactly the connectors that announce one
    bus format and are either a TV connector or announce one of the four
    formats the controller can drive; everything else gets [-EINVAL]. *)
Theorem encoder_check_accepts_iff (conn : drm_connector) :
  let info := display_info conn in
  (ingenic_drm_encoder_atomic_check conn = 0 <->
   num_bus_formats info = 1 /\
   (connector_type conn = DRM_MODE_CONNECTOR_TV \/
    In (bus_format0 info)
      [MEDIA_BUS_FMT_RGB565_1X16; MEDIA_BUS_FMT_RGB666_1X18;
       MEDIA_BUS_FMT_RGB888_1X24; MEDIA_BUS_FMT_RGB888_3X8])) /\
  (ingenic_drm_encoder_atomic_check conn = 0 \/
   ingenic_drm_encoder_atomic_check conn = - EINVAL).
Proof.
  cbv zeta. unfold ingenic_drm_encoder_atomic_check, Zneqb. cbn [In].
  destruct (Z.eqb_spec (num_bus_formats (display_info conn)) 1) as [Hn | Hn];
    cbn [negb].
  2: { split; [| right; reflexivity]. unfold EINVAL.
       split; [intros H; lia | intros [H _]; contradiction]. }
  destruct (Z.eqb_spec (connector_type conn) DRM_MODE_CONNECTOR_TV)
    as [Ht | Ht].
  { split; [| left; reflexivity]. split; auto. }
  destruct (Z.eqb_spec (bus_format0 (display_info conn))
              MEDIA_BUS_FMT_RGB565_1X16) as [H1 | H1]; cbn [orb].
  { split; [| left; reflexivity]. split; auto. }
  destruct (Z.eqb_spec (bus_format0 (display_info conn))
              MEDIA_BUS_FMT_RGB666_1X18) as [H2 | H2]; cbn [orb].
  { split; [| left; reflexivity]. split; auto. }
  destruct (Z.eqb_spec (bus_format0 (display_info conn))
              MEDIA_BUS_FMT_RGB888_1X24) as [H3 | H3]; cbn [orb].
  { split; [| left; reflexivity]. split; auto 6. }
  destruct (Z.eqb_spec (bus_format0 (display_info conn))
              MEDIA_BUS_FMT_RGB888_3X8) as [H4 | H4]; cbn [orb].
  { split; [| left; reflexivity]. split; auto 7. }
  split; [| right; reflexivity]. unfold EINVAL. split; [intros H; lia |].
  intros [_ [Hc | Hin]]; [contradiction |].
  repeat (destruct Hin as [Hin | Hin]; [congruence |]). contradiction.
Qed.

(** The encoder check and the mode set agree on what can be driven. On
    a panel without sharp signals the configuration word is the generic
    part, or-ed with the constant of the case the mode set selects if it
    selects one. A connector that passed the check always selects one: it
    takes the TV branch or one of the four named cases of the switch,
    never the empty default. A connector with one bus format that the
    check rejects is exactly one that would fall to the default and get
    the generic part alone. *)
Theorem encoder_checked_connector_gets_mode
    (mode : drm_display_mode) (conn : drm_connector)
    (ps : option drm_plane_state) :
  let base := encoder_cfg_base false mode (display_info conn) in
  ingenic_drm_encoder_cfg false mode conn ps
  = match encoder_mode_choice mode conn ps with
    | Some m => Z.lor base m
    | None => base
    end /\
  (ingenic_drm_encoder_atomic_check conn = 0 ->
   exists m,
     encoder_mode_choice mode conn ps = Some m /\
     ingenic_drm_encoder_cfg false mode conn ps = Z.lor base m) /\
  (num_bus_formats (display_info conn) = 1 ->
   ingenic_drm_encoder_atomic_check conn <> 0 ->
   encoder_mode_choice mode conn ps = None /\
   ingenic_drm_encoder_cfg false mode conn ps = base).
Proof.
  cbv zeta.
  unfold ingenic_drm_encoder_atomic_check, ingenic_drm_encoder_cfg,
    encoder_cfg_base, encoder_mode_choice, Zneqb. cbn [negb].
  destruct (connector_type conn =? DRM_MODE_CONNECTOR_TV).
  { split.
    { destruct (has_flag (flags mode) DRM_MODE_FLAG_INTERLACE); reflexivity. }
    split.
    - intros _. eexists. split; [reflexivity |].
      destruct (has_flag (flags mode) DRM_MODE_FLAG_INTERLACE); reflexivity.
    - intros Hn. rewrite Hn. cbn. intros H. contradiction. }
  destruct (bus_format0 (display_info conn) =? MEDIA_BUS_FMT_RGB565_1X16).
  { split; [reflexivity |]. split.
    - intros _. eexists. split; reflexivity.
    - intros Hn. rewrite Hn. cbn. intros H. contradiction. }
  destruct (bus_format0 (display_info conn) =? MEDIA_BUS_FMT_RGB666_1X18).
  { split; [reflexivity |]. split.
    - intros _. eexists. split; reflexivity.
    - intros Hn. rewrite Hn. cbn. intros H. contradiction. }
  destruct (bus_format0 (display_info conn) =? MEDIA_BUS_FMT_RGB888_1X24).
  { split.
    { destruct (match ps with Some ps0 => ps_fb ps0 | None => None end)
        as [fb |]; [destruct (fb_cpp0 fb <? 3) |]; reflexivity. }
    split.
    - intros _.
      destruct (match ps with Some ps0 => ps_fb ps0 | None => None end)
        as [fb |]; [destruct (fb_cpp0 fb <? 3) |];
        eexists; split; reflexivity.
    - intros Hn. rewrite Hn. cbn. intros H. contradiction. }
  destruct (bus_format0 (display_info conn) =? MEDIA_BUS_FMT_RGB888_3X8).
  { split; [reflexivity |]. split.
    - intros _. eexists. split; reflexivity.
    - intros Hn. rewrite Hn. cbn. intros H. contradiction. }
  cbn [orb]. split; [reflexivity |]. split.
  - destruct (negb (num_bus_formats (display_info conn) =? 1));
      unfold EINVAL; intros H; lia.
  - intros _ _. split; reflexivity.
Qed.

(** The 16bpp-on-24-bit policy: for a panel with a 24-bit bus (no sharp
    signals, not a TV) the controller is configured for 18 bit exactly
    when the primary plane has a framebuffer with fewer than 3 bytes per
    pixel, and for 24 bit otherwise, also when the primary plane has no
    state or no framebuffer. *)
Theorem encoder_24bit_panel_downgrade
    (mode : drm_display_mode) (conn : drm_connector)
    (ps : option drm_plane_state) :
  connector_type conn <> DRM_MODE_CONNECTOR_TV ->
  bus_format0 (display_info conn) = MEDIA_BUS_FMT_RGB888_1X24 ->
  MEDIA_BUS_FMT_RGB888_1X24 <> MEDIA_BUS_FMT_RGB565_1X16 ->
  MEDIA_BUS_FMT_RGB888_1X24 <> MEDIA_BUS_FMT_RGB666_1X18 ->
  let low_bpp :=
    match ps with
    | Some st => match ps_fb st with
                 | Some fb => fb_cpp0 fb <? 3
                 | None => false
                 end
    | None => false
    end in
  ingenic_drm_encoder_cfg false mode conn ps
  = Z.lor (encoder_cfg_base false mode (display_info conn))
      (if low_bpp then JZ_LCD_CFG_MODE_GENERIC_18BIT
       else JZ_LCD_CFG_MODE_GENERIC_24BIT).
Proof.
  intros Htv Hfmt H1 H2. cbv zeta.
  unfold ingenic_drm_encoder_cfg, encoder_cfg_base. cbn [negb].
  rewrite Hfmt.
  destruct (Z.eqb_spec (connector_type conn) DRM_MODE_CONNECTOR_TV);
    [contradiction |].
  destruct (Z.eqb_spec MEDIA_BUS_FMT_RGB888_1X24 MEDIA_BUS_FMT_RGB565_1X16);
    [contradiction |].
  destruct (Z.eqb_spec MEDIA_BUS_FMT_RGB888_1X24 MEDIA_BUS_FMT_RGB666_1X18);
    [contradiction |].
  rewrite Z.eqb_refl.
  destruct ps as [st |]; [| reflexivity].
  destruct (ps_fb st) as [fb |]; [| reflexivity].
  destruct (fb_cpp0 fb <? 3); reflexivity.
Qed.

(** What the mode set leaves for the timing translator: it records
    whether the panel asks for sharp signals, and the next programming of
    the timings writes the four extra pulse registers (eleven calls) on
    such a panel and, whatever was recorded before, only the seven
    standard ones on any other. On a sharp panel the configuration word
    does not depend on the connector type, the bus format or the primary
    plane. *)
Theorem encoder_mode_set_selects_sharp_timings
    (crtc_state : drm_crtc_state) (conn : drm_connector)
    (ps : option drm_plane_state) (m : drm_display_mode) (s : ingenic_drm) :
  let sharp := has_flag (bus_flags (display_info conn))
                 DRM_BUS_FLAG_SHARP_SIGNALS in
  let s1 := exec (ingenic_drm_encoder_atomic_mode_set crtc_state conn ps) s in
  let s2 := exec (ingenic_drm_crtc_update_timings m) s1 in
  panel_is_sharp s1 = sharp /\
  calls s1 = calls s ++ [CallRegmapWrite JZ_REG_LCD_CFG
                           (ingenic_drm_encoder_cfg sharp
                              (adjusted_mode crtc_state) conn ps)] /\
  calls s2 = calls s1 ++ timing_calls m sharp /\
  length (calls s2) = (length (calls s) + if sharp then 12 else 8)%nat /\
  (sharp = true ->
   ingenic_drm_encoder_cfg sharp (adjusted_mode crtc_state) conn ps
   = encoder_cfg_base true (adjusted_mode crtc_state) (display_info conn)).
Proof.
  cbv zeta.
  set (sharp := has_flag (bus_flags (display_info conn))
                  DRM_BUS_FLAG_SHARP_SIGNALS).
  assert (H1 : panel_is_sharp
                 (exec (ingenic_drm_encoder_atomic_mode_set crtc_state conn ps)
                    s) = sharp
               /\ calls (exec (ingenic_drm_encoder_atomic_mode_set
                                 crtc_state conn ps) s)
                  = calls s ++ [CallRegmapWrite JZ_REG_LCD_CFG
                                  (ingenic_drm_encoder_cfg sharp
                                     (adjusted_mode crtc_state) conn ps)]).
  { unfold ingenic_drm_encoder_atomic_mode_set. fold sharp.
    destruct s as [soc ipu regs clk descs phys sharp0 vbl kt cl].
    unfold with_panel_is_sharp. drv_eval. split; reflexivity. }
  destruct H1 as [Hs Hc].
  split; [exact Hs |]. split; [exact Hc |].
  assert (H2 : calls (exec (ingenic_drm_crtc_update_timings m)
                        (exec (ingenic_drm_encoder_atomic_mode_set
                                 crtc_state conn ps) s))
               = calls (exec (ingenic_drm_encoder_atomic_mode_set
                                crtc_state conn ps) s)
                 ++ timing_calls m sharp).
  { rewrite update_timings_exec. cbn [calls with_calls with_regs].
    rewrite Hs. reflexivity. }
  split; [exact H2 |]. split.
  - rewrite H2, Hc, !length_app, timing_calls_length. cbn [length].
    destruct sharp; lia.
  - intros Hsh. rewrite Hsh. reflexivity.
Qed.

End EncoderProperties.

(** ** The loops of bind and probe *)

Lemma clone_mask_fold_testbit (indices : list Z) (acc i : Z) :
  0 <= i < 32 -> 0 <= acc < 2 ^ 32 ->
  (forall idx, In idx indices -> 0 <= idx) ->
  Z.testbit
    (fold_left (fun clone_mask idx => u32 (Z.lor clone_mask (Z.shiftl 1 idx)))
       indices acc) i
  = Z.testbit acc i || existsb (Z.eqb i) indices.
Proof.
  intros Hi. revert acc.
  induction indices as [| idx indices IH]; intros acc Hacc Hpos.
  - cbn. rewrite orb_false_r. reflexivity.
  - cbn [fold_left existsb]. rewrite IH.
    + rewrite u32_testbit by exact Hi. rewrite Z.lor_spec.
      rewrite Z.shiftl_spec by lia.
      assert (Hidx : 0 <= idx) by (apply Hpos; left; reflexivity).
      destruct (Z.eqb_spec i idx) as [Heq | Hne].
      * subst idx. rewrite Z.sub_diag.
        change (Z.testbit 1 0) with true.
        destruct (Z.testbit acc i); reflexivity.
      * assert (Hb : Z.testbit 1 (i - idx) = false).
        { destruct (Z_lt_le_dec i idx) as [Hlt | Hge].
          - apply Z.testbit_neg_r. lia.
          - change 1 with (2 ^ 0). apply Z.pow2_bits_false. lia. }
        rewrite Hb. destruct (Z.testbit acc i); reflexivity.
    + apply u32_range.
    + intros j Hj. apply Hpos. right. exact Hj.
Qed.

(** After the two loops over the encoders in bind, every encoder may be
    cloned with every encoder of the device: the mask each one gets has
    bit [i] (below 32) set exactly when [i] is the index of an encoder;
    for [n] encoders with the indices 0 to n-1 the mask is 2^n - 1. *)
Theorem bind_clone_mask_covers_all_encoders (indices : list Z) :
  (forall idx, In idx indices -> 0 <= idx) ->
  (forall i, 0 <= i < 32 ->
     Z.testbit (ingenic_drm_clone_mask indices) i = true <-> In i indices) /\
  (forall mask, In mask (ingenic_drm_possible_clones indices) ->
     mask = ingenic_drm_clone_mask indices) /\
  length (ingenic_drm_possible_clones indices) = length indices /\
  (forall n, (n <= 32)%nat -> indices = map Z.of_nat (seq 0 n) ->
     ingenic_drm_clone_mask indices = 2 ^ Z.of_nat n - 1).
Proof.
  intros Hpos.
  assert (Hbit : forall i, 0 <= i < 32 ->
            Z.testbit (ingenic_drm_clone_mask indices) i = true
            <-> In i indices).
  { intros i Hi. unfold ingenic_drm_clone_mask.
    rewrite clone_mask_fold_testbit by (try assumption; lia).
    rewrite Z.bits_0. cbn [orb]. rewrite existsb_exists. split.
    - intros (x & Hin & Heq). apply Z.eqb_eq in Heq. subst x. exact Hin.
    - intros Hin. exists i. split; [exact Hin | apply Z.eqb_refl]. }
  split; [exact Hbit |]. split; [| split].
  - unfold ingenic_drm_possible_clones. intros mask Hin.
    apply in_map_iff in Hin. destruct Hin as (x & Hx & _). congruence.
  - unfold ingenic_drm_possible_clones. apply length_map.
  - intros n Hn Hseq.
    replace (2 ^ Z.of_nat n - 1) with (Z.ones (Z.of_nat n))
      by (rewrite Z.ones_equiv; lia).
    apply Z.bits_inj'. intros i Hi.
    destruct (Z_lt_le_dec i (Z.of_nat n)) as [Hlt | Hge].
    + rewrite Z.ones_spec_low by lia.
      apply Hbit; [lia |]. rewrite Hseq. apply in_map_iff.
      exists (Z.to_nat i). split; [lia |]. apply in_seq. lia.
    + rewrite Z.ones_spec_high by lia.
      destruct (Z_lt_le_dec i 32) as [H32 | H32].
      * destruct (Z.testbit (ingenic_drm_clone_mask indices) i) eqn:Hb;
          [| reflexivity].
        apply Hbit in Hb; [| lia]. rewrite Hseq in Hb.
        apply in_map_iff in Hb. destruct Hb as (k & Hk & Hin).
        apply in_seq in Hin. lia.
      * unfold ingenic_drm_clone_mask.
        destruct indices as [| idx rest] using rev_ind; [apply Z.bits_0 |].
        rewrite fold_left_app. cbn [fold_left].
        apply u32_high_bits. exact H32.
Qed.

Lemma probe_loop_runs {node : Type} (remote : Z -> option node) :
  forall (nodes : list node) (i : Z) (acc : list node) (fuel : nat),
    0 <= i -> i + Z.of_nat (length nodes) < 2 ^ 32 ->
    (forall k np, nodes !! k = Some np -> remote (i + Z.of_nat k) = Some np) ->
    remote (i + Z.of_nat (length nodes)) = None ->
    (length nodes < fuel)%nat ->
    ingenic_drm_probe_loop fuel i remote acc = Some (acc ++ nodes).
Proof.
  induction nodes as [| np nodes IH]; intros i acc fuel Hi Hmax Hall Hend Hf.
  - destruct fuel as [| fuel]; [cbn in Hf; lia |].
    cbn [ingenic_drm_probe_loop]. cbn [length] in Hend.
    rewrite Z.add_0_r in Hend. rewrite Hend, app_nil_r. reflexivity.
  - destruct fuel as [| fuel]; [cbn in Hf; lia |].
    cbn [ingenic_drm_probe_loop].
    pose proof (Hall 0%nat np eq_refl) as H0. rewrite Z.add_0_r in H0.
    rewrite H0. cbn [length] in Hmax, Hend, Hf.
    rewrite u32_small by lia.
    rewrite (IH (i + 1) (acc ++ [np]) fuel).
    + rewrite <- app_assoc. reflexivity.
    + lia.
    + lia.
    + intros k np' Hk.
      replace (i + 1 + Z.of_nat k) with (i + Z.of_nat (S k)) by lia.
      apply Hall. exact Hk.
    + replace (i + 1 + Z.of_nat (length nodes))
        with (i + Z.of_nat (S (length nodes))) by lia.
      exact Hend.
    + lia.
Qed.

(** The probe matches the components at the ports 8, 9, ... up to the
    first port that has none, in that order, and looks no further: a
    component behind a gap is never matched, and with no component at port
    8 nothing is matched. The loop ends after as many turns as there are
    components before the gap, plus one. *)
Theorem probe_matches_ports_up_to_first_gap
    {node : Type} (remote : Z -> option node) (nodes : list node)
    (fuel : nat) :
  (forall k np, nodes !! k = Some np -> remote (8 + Z.of_nat k) = Some np) ->
  remote (8 + Z.of_nat (length nodes)) = None ->
  8 + Z.of_nat (length nodes) < 2 ^ 32 ->
  (length nodes < fuel)%nat ->
  ingenic_drm_probe fuel remote = Some nodes.
Proof.
  intros Hall Hend Hmax Hf. unfold ingenic_drm_probe.
  rewrite (probe_loop_runs remote nodes 8 [] fuel); try assumption;
    [reflexivity | lia].
Qed.

(** ** What bind leaves in the registers *)

Section BindProperties.

Context {hdr : ingenic_drm_h}.

(** After bind the two descriptor address registers hold the bus
    addresses of the two descriptors, which are zeroed apart from their
    next pointers and tags; OSD is switched on exactly on hardware that
    has it, and only there can an IPU plane be recorded. *)
Theorem bind_programs_descriptor_addresses
    (soc : jz_soc_info) (ipu : option plane_id) (phys0 phys1 : Z) :
  ingenic_drm_writeable_reg JZ_REG_LCD_DA0 = true ->
  ingenic_drm_writeable_reg JZ_REG_LCD_DA1 = true ->
  ingenic_drm_writeable_reg JZ_REG_LCD_OSDC = true ->
  JZ_REG_LCD_DA0 <> JZ_REG_LCD_DA1 ->
  JZ_REG_LCD_OSDC <> JZ_REG_LCD_DA0 ->
  JZ_REG_LCD_OSDC <> JZ_REG_LCD_DA1 ->
  let priv := ingenic_drm_bind soc ipu phys0 phys1 in
  reg_get (lcd_regs priv) JZ_REG_LCD_DA0 = u32 phys0 /\
  reg_get (lcd_regs priv) JZ_REG_LCD_DA1 = u32 phys1 /\
  reg_get (lcd_regs priv) JZ_REG_LCD_OSDC
  = (if has_osd soc then u32 JZ_LCD_OSDC_OSDEN else 0) /\
  map hwdesc_next (dma_hwdesc priv) = [u32 phys0; u32 phys1] /\
  map hwdesc_addr (dma_hwdesc priv) = [0; 0] /\
  map hwdesc_cmd (dma_hwdesc priv) = [0; 0] /\
  (has_osd soc = false -> ipu_plane priv = None) /\
  soc_info priv = soc.
Proof.
  intros Hw0 Hw1 Hwo H01 Ho0 Ho1. cbv zeta. unfold ingenic_drm_bind.
  destruct (has_osd soc) eqn:Hosd; drv_eval; rewrite ?Hw0, ?Hw1, ?Hwo.
  - repeat split.
    + rewrite reg_get_insert_ne by congruence.
      rewrite reg_get_insert_ne by congruence.
      rewrite reg_get_insert. apply u32_idem.
    + rewrite reg_get_insert_ne by congruence.
      rewrite reg_get_insert. apply u32_idem.
    + apply reg_get_insert.
    + discriminate.
  - repeat split.
    + rewrite reg_get_insert_ne by congruence.
      rewrite reg_get_insert. apply u32_idem.
    + rewrite reg_get_insert. apply u32_idem.
    + rewrite !reg_get_insert_ne by congruence. reflexivity.
Qed.

End BindProperties.

Lemma bind_programs_descriptor_addresses_witness :
  reg_get (lcd_regs priv_jz4770) 0x40 = 0x0f000000 /\
  reg_get (lcd_regs priv_jz4770) 0x50 = 0x0f000010 /\
  reg_get (lcd_regs priv_jz4770) 0x100 = 1.
Proof.
  pose proof (bind_programs_descriptor_addresses (hdr := jz47xx_h)
                jz4770_soc_info (Some IPU) 0x0f000000 0x0f000010
                eq_refl eq_refl eq_refl ltac:(discriminate)
                ltac:(discriminate) ltac:(discriminate))
    as (H0 & H1 & Ho & _).
  split; [exact H0 |]. split; [exact H1 | exact Ho].
Defined.

Lemma encoder_check_accepts_iff_witness :
  ingenic_drm_encoder_atomic_check (cfgh := jz47xx_cfg_h) conn_panel_24bit = 0.
Proof.
  apply (proj1 (encoder_check_accepts_iff (cfgh := jz47xx_cfg_h)
                  conn_panel_24bit)).
  split; [reflexivity |]. right. cbn. auto.
Defined.

Lemma encoder_checked_connector_gets_mode_witness :
  ingenic_drm_encoder_atomic_check (cfgh := jz47xx_cfg_h) conn_panel_24bit
  = 0 /\
  (exists m,
     encoder_mode_choice (cfgh := jz47xx_cfg_h) mode_vga conn_panel_24bit
       (Some (plane_state_vga fb_vga 0)) = Some m /\
     ingenic_drm_encoder_cfg (cfgh := jz47xx_cfg_h) false mode_vga
       conn_panel_24bit (Some (plane_state_vga fb_vga 0))
     = Z.lor (encoder_cfg_base (cfgh := jz47xx_cfg_h) false mode_vga
                (display_info conn_panel_24bit)) m) /\
  ingenic_drm_encoder_atomic_check (cfgh := jz47xx_cfg_h) conn_panel_rgb444
  = -22 /\
  encoder_mode_choice (cfgh := jz47xx_cfg_h) mode_vga conn_panel_rgb444 None
  = None /\
  ingenic_drm_encoder_cfg (cfgh := jz47xx_cfg_h) false mode_vga
    conn_panel_rgb444 None = 0xf00000.
Proof.
  split; [reflexivity |]. split.
  - exact (proj1 (proj2 (encoder_checked_connector_gets_mode
                           (cfgh := jz47xx_cfg_h) mode_vga conn_panel_24bit
                           (Some (plane_state_vga fb_vga 0)))) eq_refl).
  - split; [reflexivity |].
    exact (proj2 (proj2 (encoder_checked_connector_gets_mode
                           (cfgh := jz47xx_cfg_h) mode_vga conn_panel_rgb444
                           None))
             eq_refl ltac:(discriminate)).
Defined.

Lemma encoder_24bit_panel_downgrade_witness :
  fb_cpp0 fb_vga = 2 /\
  ingenic_drm_encoder_cfg (cfgh := jz47xx_cfg_h) false mode_vga
    conn_panel_24bit (Some (plane_state_vga fb_vga 0))
  = Z.lor (encoder_cfg_base (cfgh := jz47xx_cfg_h) false mode_vga
             (display_info conn_panel_24bit)) 0x80.
Proof.
  split; [reflexivity |].
  exact (encoder_24bit_panel_downgrade (cfgh := jz47xx_cfg_h) mode_vga
           conn_panel_24bit (Some (plane_state_vga fb_vga 0))
           ltac:(discriminate) eq_refl ltac:(discriminate)
           ltac:(discriminate)).
Defined.

Lemma encoder_mode_set_selects_sharp_timings_witness :
  panel_is_sharp priv_jz4770 = false /\
  length (calls (exec (ingenic_drm_crtc_update_timings (hdr := jz47xx_h)
                         mode_vga)
                   (exec (ingenic_drm_encoder_atomic_mode_set
                            (hdr := jz47xx_h) (cfgh := jz47xx_cfg_h)
                            (crtc_state_of mode_vga true None)
                            conn_panel_sharp None) priv_jz4770)))
  = (length (calls priv_jz4770) + 12)%nat.
Proof.
  split; [reflexivity |].
  exact (proj1 (proj2 (proj2 (proj2
           (encoder_mode_set_selects_sharp_timings (hdr := jz47xx_h)
              (cfgh := jz47xx_cfg_h) (crtc_state_of mode_vga true None)
              conn_panel_sharp None mode_vga priv_jz4770))))).
Defined.

Lemma bind_clone_mask_covers_all_encoders_witness :
  ingenic_drm_clone_mask [0; 1; 2] = 7 /\
  ingenic_drm_possible_clones [0; 1; 2] = [7; 7; 7].
Proof.
  split; [| reflexivity].
  apply (proj2 (proj2 (proj2 (bind_clone_mask_covers_all_encoders [0; 1; 2]
                                ltac:(cbn; intros idx H; lia)))) 3%nat);
    [lia | reflexivity].
Defined.

Lemma probe_matches_ports_up_to_first_gap_witness :
  ingenic_drm_probe 3
    (fun i => if i =? 8 then Some 1%nat
              else if i =? 9 then Some 2%nat
              else if i =? 11 then Some 4%nat else None)
  = Some [1%nat; 2%nat].
Proof.
  apply (probe_matches_ports_up_to_first_gap
           (fun i => if i =? 8 then Some 1%nat
                     else if i =? 9 then Some 2%nat
                     else if i =? 11 then Some 4%nat else None)
           [1%nat; 2%nat] 3).
  - intros [| [| k]] np Hk; cbn in Hk; try discriminate;
      injection Hk as <-; reflexivity.
  - reflexivity.
  - cbn. lia.
  - cbn. lia.
Defined.
